(** * Hybrid recommendation engine: a shallow embedding and its properties

    The development follows the Python sources of
    [graphql-recommendation-api/app/recommendation] (base.py,
    collaborative_filtering.py, content_based.py, matrix_factorization.py,
    hybrid.py) and [app/cache] (redis_cluster.py, cache_manager.py).

    Conventions of the embedding:
    - Python [float] scores are rationals ([Q]); NaN appears only where
      pandas introduces it (missing cells of a data frame), as [pyfloat].
    - Python [int] is [Z]; slices follow Python's rules for negative bounds.
    - A [dict] is an association list in insertion order, since the order of
      iteration decides the order of equal scores.
    - A call that may raise returns [Exc]; [try ... except Exception] is
      [try_except].
    - Library routines whose result is not determined by the sources
      (sklearn's cosine similarity, numpy's logarithm, the fitted models of
      surprise and implicit) are arguments of the functions that call them or
      fields of the engine that owns them. *)

From Stdlib Require Import List String Ascii ZArith QArith Qabs Bool Lia Lqa.
From Stdlib Require Import Permutation Sorted.
Import ListNotations.

Set Implicit Arguments.

(* ===================================================================== *)
(** ** Python prelude *)
(* ===================================================================== *)

Module Py.

(** Exceptions raised by the modelled code; all of them derive from
    Python's [Exception]. *)
Inductive exn : Type :=
| KeyError
| IndexError
| ValueError
| ZeroDivisionError
| AttributeError
| RedisError
| JSONError.

(** The outcome of a call: an exception or a value. *)
Inductive Exc (A : Type) : Type :=
| Raise (e : exn)
| Return (a : A).

Arguments Raise {A} e.
Arguments Return {A} a.

Definition bind {A B : Type} (c : Exc A) (k : A -> Exc B) : Exc B :=
  match c with
  | Raise e => Raise e
  | Return a => k a
  end.

(** [try: c  except Exception: h] *)
Definition try_except {A : Type} (c : Exc A) (h : exn -> Exc A) : Exc A :=
  match c with
  | Raise e => h e
  | Return a => Return a
  end.

Definition raised {A : Type} (c : Exc A) : Prop :=
  exists e, c = Raise e.

(** [for x in l: body] threading an accumulator, stopping at the first
    exception. *)
Fixpoint for_each {A S : Type} (l : list A) (body : S -> A -> Exc S) (s : S)
  : Exc S :=
  match l with
  | [] => Return s
  | x :: t => bind (body s x) (for_each t body)
  end.

(** Indexing [l[i]] with a non-negative index. *)
Definition getitem {A : Type} (l : list A) (i : nat) : Exc A :=
  match nth_error l i with
  | Some x => Return x
  | None => Raise IndexError
  end.

(** The slice [l[start:stop]]: a negative bound counts from the end, and
    both bounds are clamped to the list. *)
Definition clamp_index (len i : Z) : Z :=
  if (i <? 0)%Z then Z.max 0 (i + len) else Z.min i len.

Definition slice {A : Type} (l : list A) (start stop : Z) : list A :=
  let len := Z.of_nat (List.length l) in
  let a := clamp_index len start in
  let b := clamp_index len stop in
  firstn (Z.to_nat (b - a)) (skipn (Z.to_nat a) l).

(** The slice [l[:stop]]. *)
Definition slice_to {A : Type} (l : list A) (stop : Z) : list A :=
  slice l 0 stop.

(** [enumerate(l)] *)
Definition enumerate {A : Type} (l : list A) : list (nat * A) :=
  combine (seq 0 (List.length l)) l.

Definition Qltb (x y : Q) : bool := negb (Qle_bool y x).

(** [l.sort(key=key, reverse=True)] and [sorted(l, key=key, reverse=True)]:
    descending by key, and stable: elements with equal keys keep their
    original order. *)
Fixpoint insert_desc {A : Type} (key : A -> Q) (x : A) (l : list A) : list A :=
  match l with
  | [] => [x]
  | y :: t => if Qltb (key x) (key y) then y :: insert_desc key x t
              else x :: y :: t
  end.

Definition sort_desc {A : Type} (key : A -> Q) (l : list A) : list A :=
  fold_right (insert_desc key) [] l.

(** [np.argsort(a)]: the indices of [a] in ascending order of value.  Equal
    values are taken in index order, which is what numpy's default sort does
    on short arrays. *)
Fixpoint insert_asc {A : Type} (key : A -> Q) (x : A) (l : list A) : list A :=
  match l with
  | [] => [x]
  | y :: t => if Qltb (key y) (key x) then y :: insert_asc key x t
              else x :: y :: t
  end.

Definition argsort (a : list Q) : list nat :=
  map fst (fold_right (insert_asc snd) [] (enumerate a)).

(** [np.sum(m, axis=0)]: column sums of a matrix with [n] columns. *)
Definition sum_list (l : list Q) : Q := fold_left Qplus l 0.

Definition column {A : Type} (d : A) (m : list (list A)) (j : nat) : list A :=
  map (fun row => nth j row d) m.

Definition column_sums (n : nat) (m : list (list Q)) : list Q :=
  map (fun j => sum_list (column 0 m j)) (seq 0 n).

(** Dictionaries in insertion order. *)
Section Dict.
Variables K V : Type.
Variable eqb : K -> K -> bool.

Definition dict := list (K * V).

Fixpoint dict_get (d : dict) (k : K) : option V :=
  match d with
  | [] => None
  | (k', v) :: t => if eqb k k' then Some v else dict_get t k
  end.

Definition dict_mem (d : dict) (k : K) : bool :=
  match dict_get d k with Some _ => true | None => false end.

(** [d[k]] *)
Definition dict_item (d : dict) (k : K) : Exc V :=
  match dict_get d k with
  | Some v => Return v
  | None => Raise KeyError
  end.

(** [d[k] = v]: an existing key keeps its position. *)
Fixpoint dict_set (d : dict) (k : K) (v : V) : dict :=
  match d with
  | [] => [(k, v)]
  | (k', v') :: t => if eqb k k' then (k', v) :: t
                     else (k', v') :: dict_set t k v
  end.

Definition dict_keys (d : dict) : list K := map fst d.
End Dict.

(** [Series.unique()]: the distinct values in order of first appearance. *)
Fixpoint unique (l : list string) : list string :=
  match l with
  | [] => []
  | x :: t => x :: filter (fun y => negb (String.eqb y x)) (unique t)
  end.

(** Membership [x in l] for identifiers and category names. *)
Definition mem (x : string) (l : list string) : bool :=
  existsb (String.eqb x) l.

(** Truthiness of an optional list: [None] and [[]] are false. *)
Definition truthy_list {A : Type} (o : option (list A)) : bool :=
  match o with
  | Some (_ :: _) => true
  | _ => false
  end.

Definition opt_list {A : Type} (o : option (list A)) : list A :=
  match o with Some l => l | None => [] end.

(** Floats of a pandas frame: a missing cell reads as NaN. *)
Inductive pyfloat : Type :=
| NaN
| Fin (q : Q).

(** [bool(x)]: NaN is true, a number is true unless it is zero. *)
Definition truthy (x : pyfloat) : bool :=
  match x with
  | NaN => true
  | Fin q => negb (Qeq_bool q 0)
  end.

End Py.

Import Py.

Notation "x <- c ;; k" := (bind c (fun x => k))
  (at level 61, c at next level, right associativity).

(** Opaque identifiers ([uuid.UUID] in the sources, strings in the tests). *)
Definition uuid := string.

(* ===================================================================== *)
(** ** base.py *)
(* ===================================================================== *)

(** The [reason] attached to an item.  Each constructor is one of the
    message templates of the engines; the numbers and names interpolated
    into the message are its arguments. *)
Inductive reason : Type :=
| SimilarUsersLiked          (* "Users with similar preferences also liked this item" *)
| SimilarToInteracted        (* "Similar to items you've interacted with" *)
| PopularColdStart           (* "Popular item (cold start)" *)
| ContentSimilarity (s : Q)  (* "... (content similarity: {s:.3f})" *)
| MFPrediction               (* "Matrix factorization prediction" *)
| ImplicitMF                 (* "Implicit matrix factorization" *)
| HybridMethods (methods : list string).
                             (* "Hybrid recommendation (methods: ...)" *)

(** [RecommendationItem]; [metadata] is left at its default [None] by every
    engine and is not represented. *)
Record RecommendationItem : Type := {
  item_id : uuid;
  score : Q;
  item_reason : option reason
}.

Record RecommendationContext : Type := {
  user_id : uuid;
  tenant_id : uuid;
  num_recommendations : Z;
  exclude_items : option (list uuid);
  include_categories : option (list string);
  exclude_categories : option (list string);
  min_score : Q;
  diversify : bool;
  explain : bool
}.

(** What the combiners use of a component engine: the abstract methods of
    [BaseRecommendationEngine], and the membership test on the engine's
    user index ([user_id in engine.user_mapping], or [user_profiles] for
    the content engine). *)
Module Engine.

Record BaseRecommendationEngine : Type := {
  name : string;
  is_trained : bool;
  recommend : RecommendationContext -> Exc (list RecommendationItem);
  get_item_similarity : uuid -> Z -> Exc (list (uuid * Q));
  has_user : uuid -> bool
}.

End Engine.

Module Base.

(** The loop of [_diversify_recommendations]: [counts] is
    [category_counts]; the result is the list of the items appended to
    [diversified], in order. *)
Fixpoint diversify_loop (categories : dict uuid string) (max_per_category : Z)
    (counts : dict string Z) (recommendations : list RecommendationItem)
  : list RecommendationItem :=
  match recommendations with
  | [] => []
  | item :: rest =>
      let category :=
        match dict_get String.eqb categories (item_id item) with
        | Some c => c
        | None => "unknown"%string
        end in
      let current_count :=
        match dict_get String.eqb counts category with
        | Some n => n
        | None => 0%Z
        end in
      if (current_count <? max_per_category)%Z
      then item :: diversify_loop categories max_per_category
                     (dict_set String.eqb counts category (current_count + 1)%Z)
                     rest
      else diversify_loop categories max_per_category counts rest
  end.

(** [BaseRecommendationEngine._diversify_recommendations] *)
Definition _diversify_recommendations (recommendations : list RecommendationItem)
    (categories : dict uuid string) (max_per_category : Z)
  : list RecommendationItem :=
  match categories with
  | [] => recommendations
  | _ => diversify_loop categories max_per_category [] recommendations
  end.

Definition default_max_per_category : Z := 3.

(** [BaseRecommendationEngine._apply_filters]; [item_metadata] maps an item
    to its category, if it has one. *)
Definition keeps (context : RecommendationContext)
    (item_metadata : dict uuid (option string)) (item : RecommendationItem)
  : bool :=
  if Qltb (score item) (min_score context) then false
  else if truthy_list (exclude_items context)
          && mem (item_id item) (opt_list (exclude_items context)) then false
  else
    let category :=
      match dict_get String.eqb item_metadata (item_id item) with
      | Some c => c
      | None => None
      end in
    let listed (l : option (list string)) :=
      match category with
      | Some c => mem c (opt_list l)
      | None => false
      end in
    if truthy_list (include_categories context)
       && negb (listed (include_categories context)) then false
    else if truthy_list (exclude_categories context)
            && listed (exclude_categories context) then false
    else true.

Definition _apply_filters (recommendations : list RecommendationItem)
    (context : RecommendationContext)
    (item_metadata : dict uuid (option string))
  : list RecommendationItem :=
  slice_to (filter (keeps context item_metadata) recommendations)
           (num_recommendations context).

End Base.

(** [EnsembleRecommendationEngine]: the engines added so far, with their
    weights. *)
Module Ensemble.

Record t : Type := {
  engines : list Engine.BaseRecommendationEngine;
  weights : list Q;
  is_trained : bool
}.

Definition init : t :=
  {| engines := []; weights := []; is_trained := false |}.

Definition add_engine (self : t) (engine : Engine.BaseRecommendationEngine)
    (weight : Q) : t :=
  {| engines := engines self ++ [engine];
     weights := weights self ++ [weight];
     is_trained := is_trained self |}.

(** An item of the ensemble's answer:
    [RecommendationItem(item_id, score,
                        reason=f"Ensemble of {algorithms} algorithms")]. *)
Record Combined : Type := {
  c_item_id : uuid;
  c_score : Q;
  c_algorithms : nat
}.

(** [a / b] on floats. *)
Definition divide (a b : Q) : Exc Q :=
  if Qeq_bool b 0 then Raise ZeroDivisionError else Return (a / b).

(** The body of [for rec in engine_recs]. *)
Definition combine_one (algorithms : nat) (normalized_weight : Q)
    (all_recommendations : dict uuid Combined) (rec : RecommendationItem)
  : dict uuid Combined :=
  let old := match dict_get String.eqb all_recommendations (item_id rec) with
             | Some e => e
             | None => {| c_item_id := item_id rec; c_score := 0.0;
                          c_algorithms := algorithms |}
             end in
  dict_set String.eqb all_recommendations (item_id rec)
           {| c_item_id := c_item_id old;
              c_score := c_score old + score rec * normalized_weight;
              c_algorithms := c_algorithms old |}.

(** One round of [for engine, weight in zip(self.engines, self.weights)]:
    the [try] block, and [except Exception: continue]. *)
Definition consult (self : t) (context : RecommendationContext)
    (total_weight : Q) (all_recommendations : dict uuid Combined)
    (p : Engine.BaseRecommendationEngine * Q) : Exc (dict uuid Combined) :=
  try_except
    (engine_recs <- Engine.recommend (fst p) context ;;
     normalized_weight <- divide (snd p) total_weight ;;
     Return (fold_left (combine_one (List.length (engines self))
                                    normalized_weight)
                       engine_recs all_recommendations))
    (fun _ => Return all_recommendations).

Definition recommend (self : t) (context : RecommendationContext)
  : Exc (list Combined) :=
  let total_weight := sum_list (weights self) in
  all_recommendations <-
    for_each (combine (engines self) (weights self))
             (consult self context total_weight) [] ;;
  let recommendations := sort_desc c_score (map snd all_recommendations) in
  Return (slice_to recommendations (num_recommendations context)).

(** [get_item_similarity]: the answer of the first engine that does not
    raise. *)
Fixpoint first_similarity (engines : list Engine.BaseRecommendationEngine)
    (item : uuid) (top_k : Z) : Exc (list (uuid * Q)) :=
  match engines with
  | [] => Return []
  | engine :: rest =>
      try_except (Engine.get_item_similarity engine item top_k)
                 (fun _ => first_similarity rest item top_k)
  end.

Definition get_item_similarity (self : t) (item : uuid) (top_k : Z)
  : Exc (list (uuid * Q)) :=
  first_similarity (engines self) item top_k.

End Ensemble.

(* ===================================================================== *)
(** ** collaborative_filtering.py *)
(* ===================================================================== *)

(** One interaction record as handed to [train]: a dict with the keys
    [user_id] and [item_id] and, optionally, [interaction_value] and
    [rating]. *)
Record Interaction : Type := {
  i_user_id : uuid;
  i_item_id : uuid;
  i_interaction_value : option Q;
  i_rating : option Q
}.

(** Matrices are lists of rows. *)
Definition matrix (A : Type) := list (list A).

Definition ncols {A : Type} (m : matrix A) : nat :=
  match m with
  | [] => 0
  | row :: _ => List.length row
  end.

(** [m.T] for a matrix with [n] columns. *)
Definition transpose {A : Type} (d : A) (n : nat) (m : matrix A) : matrix A :=
  map (column d m) (seq 0 n).

Definition matrix_get {A : Type} (m : matrix A) (u i : nat) : option A :=
  match nth_error m u with
  | Some row => nth_error row i
  | None => None
  end.

Fixpoint list_set {A : Type} (l : list A) (i : nat) (v : A) : option (list A) :=
  match l, i with
  | [], _ => None
  | _ :: t, O => Some (v :: t)
  | x :: t, S j => option_map (cons x) (list_set t j v)
  end.

(** [m[u, i] = v] *)
Definition matrix_setitem {A : Type} (m : matrix A) (u i : nat) (v : A)
  : Exc (matrix A) :=
  match nth_error m u with
  | None => Raise IndexError
  | Some row =>
      match list_set row i v with
      | None => Raise IndexError
      | Some row' =>
          match list_set m u row' with
          | None => Raise IndexError
          | Some m' => Return m'
          end
      end
  end.

(** The data frame [pd.DataFrame(interactions)]: it has a column for every
    key that occurs in some record, and a record without that key reads as
    NaN in it. *)
Module DataFrame.

Definition has_column (field : Interaction -> option Q)
    (interactions : list Interaction) : bool :=
  existsb (fun r => match field r with Some _ => true | None => false end)
          interactions.

Definition cell (o : option Q) : pyfloat :=
  match o with
  | Some q => Fin q
  | None => NaN
  end.

(** [df['c'].value_counts()[x]] *)
Definition value_count (field : Interaction -> uuid) (df : list Interaction)
    (x : uuid) : Z :=
  Z.of_nat (List.length (filter (fun r => String.eqb (field r) x) df)).

End DataFrame.

(** Adding [v] to the score of [item] in a dict of accumulated scores:
    [if item not in d: d[item] = 0.0] then [d[item] += v]. *)
Definition add_score (d : dict uuid Q) (item : uuid) (v : Q) : dict uuid Q :=
  let old := match dict_get String.eqb d item with
             | Some s => s
             | None => 0
             end in
  dict_set String.eqb d item (old + v).

(** The cold-start ranking shared by both collaborative engines: items by
    column sum of the interaction matrix, the score divided by the number
    of known users. *)
Definition cf_cold_start (user_item_matrix : matrix Q)
    (user_mapping : dict uuid nat) (reverse_item_mapping : dict nat uuid)
    (context : RecommendationContext) : Exc (list RecommendationItem) :=
  let item_popularity := column_sums (ncols user_item_matrix) user_item_matrix in
  let popular_items_idx := rev (argsort item_popularity) in
  for_each (slice_to popular_items_idx (num_recommendations context))
    (fun recommendations idx =>
       item <- dict_item Nat.eqb reverse_item_mapping idx ;;
       popularity <- getitem item_popularity idx ;;
       match user_mapping with
       | [] => Raise ZeroDivisionError
       | _ =>
           let s := popularity / inject_Z (Z.of_nat (List.length user_mapping)) in
           Return (recommendations ++
                   [{| item_id := item; score := s;
                       item_reason := Some PopularColdStart |}])
       end)
    [].

Definition to_items (r : reason) (d : dict uuid Q) : list RecommendationItem :=
  map (fun p => {| item_id := fst p; score := snd p; item_reason := Some r |}) d.

Module UserBasedCF.

Record t : Type := {
  k_neighbors : Z;
  min_interactions : Z;
  is_trained : bool;
  user_similarity_matrix : matrix Q;
  user_item_matrix : matrix Q;
  user_mapping : dict uuid nat;
  item_mapping : dict uuid nat;
  reverse_user_mapping : dict nat uuid;
  reverse_item_mapping : dict nat uuid
}.

(** [__init__] *)
Definition init (k_neighbors min_interactions : Z) : t :=
  {| k_neighbors := k_neighbors;
     min_interactions := min_interactions;
     is_trained := false;
     user_similarity_matrix := [];
     user_item_matrix := [];
     user_mapping := [];
     item_mapping := [];
     reverse_user_mapping := [];
     reverse_item_mapping := [] |}.

(** The rows kept by the minimum-interaction filter. *)
Definition filter_frame (min_interactions : Z) (df : list Interaction)
  : list Interaction :=
  filter (fun r =>
            (min_interactions <=? DataFrame.value_count i_user_id df (i_user_id r))%Z
            && (min_interactions <=? DataFrame.value_count i_item_id df (i_item_id r))%Z)
         df.

(** [{x: idx for idx, x in enumerate(unique)}] and its inverse. *)
Definition index_of (unique_ids : list uuid) : dict uuid nat :=
  combine unique_ids (seq 0 (List.length unique_ids)).

Definition reverse_index (mapping : dict uuid nat) : dict nat uuid :=
  map (fun p => (snd p, fst p)) mapping.

(** The value written for one row (lines 69-71 of [train]):
    [value = row.get('interaction_value', 1.0)], replaced by
    [row['rating']] when [row.get('rating')] is true.  [frame] is the
    whole frame, which decides the columns that exist. *)
Definition row_value (frame : list Interaction) (row : Interaction) : pyfloat :=
  let value :=
    if DataFrame.has_column i_interaction_value frame
    then DataFrame.cell (i_interaction_value row)
    else Fin 1.0 in
  let rating :=
    if DataFrame.has_column i_rating frame
    then Some (DataFrame.cell (i_rating row))
    else None in
  match rating with
  | Some r => if truthy r then r else value
  | None => value
  end.

(** The matrix-filling loop (lines 59-74 of [train]). *)
Definition fill_matrix (frame : list Interaction)
    (user_mapping item_mapping : dict uuid nat)
    (rows : list Interaction) (zeros : matrix pyfloat)
  : Exc (matrix pyfloat) :=
  for_each rows
    (fun user_item_matrix row =>
       user_idx <- dict_item String.eqb user_mapping (i_user_id row) ;;
       item_idx <- dict_item String.eqb item_mapping (i_item_id row) ;;
       matrix_setitem user_item_matrix user_idx item_idx (row_value frame row))
    zeros.

Record Built : Type := {
  b_user_mapping : dict uuid nat;
  b_item_mapping : dict uuid nat;
  b_matrix : matrix pyfloat
}.

(** Lines 36-74 of [train]: filter, index mappings, interaction matrix. *)
Definition build_user_item_matrix (min_interactions : Z)
    (interactions : list Interaction) : Exc Built :=
  match interactions with
  | [] => Raise KeyError           (* [df['user_id']] on a frame with no column *)
  | _ =>
      let df := filter_frame min_interactions interactions in
      match df with
      | [] => Raise ValueError     (* "Not enough interaction data for training" *)
      | _ =>
          let unique_users := unique (map i_user_id df) in
          let unique_items := unique (map i_item_id df) in
          let um := index_of unique_users in
          let im := index_of unique_items in
          let n_users := List.length unique_users in
          let n_items := List.length unique_items in
          m <- fill_matrix interactions um im df
                 (repeat (repeat (Fin 0) n_items) n_users) ;;
          Return {| b_user_mapping := um; b_item_mapping := im; b_matrix := m |}
      end
  end.

(** sklearn refuses a matrix that contains NaN. *)
Fixpoint finite_row (row : list pyfloat) : Exc (list Q) :=
  match row with
  | [] => Return []
  | NaN :: _ => Raise ValueError
  | Fin q :: t => r <- finite_row t ;; Return (q :: r)
  end.

Fixpoint finite_matrix (m : matrix pyfloat) : Exc (matrix Q) :=
  match m with
  | [] => Return []
  | row :: t => r <- finite_row row ;; rest <- finite_matrix t ;; Return (r :: rest)
  end.

(** [train]; [cosine_similarity] is sklearn's, on a matrix without NaN.
    The write of the similarity matrix to the cache cannot raise (see
    [RedisClusterClient.set]) and leaves the engine unchanged. *)
Definition train (cosine_similarity : matrix Q -> matrix Q) (self : t)
    (interactions : list Interaction) : Exc t :=
  b <- build_user_item_matrix (min_interactions self) interactions ;;
  m <- finite_matrix (b_matrix b) ;;
  Return {| k_neighbors := k_neighbors self;
            min_interactions := min_interactions self;
            is_trained := true;
            user_similarity_matrix := cosine_similarity m;
            user_item_matrix := m;
            user_mapping := b_user_mapping b;
            item_mapping := b_item_mapping b;
            reverse_user_mapping := reverse_index (b_user_mapping b);
            reverse_item_mapping := reverse_index (b_item_mapping b) |}.

Definition _cold_start_recommend (self : t) (context : RecommendationContext)
  : Exc (list RecommendationItem) :=
  cf_cold_start (user_item_matrix self) (user_mapping self)
                (reverse_item_mapping self) context.

Definition recommend (self : t) (context : RecommendationContext)
  : Exc (list RecommendationItem) :=
  if negb (is_trained self) then Return []
  else
    match dict_get String.eqb (user_mapping self) (user_id context) with
    | None => _cold_start_recommend self context
    | Some user_idx =>
        user_vector <- getitem (user_item_matrix self) user_idx ;;
        user_similarities <- getitem (user_similarity_matrix self) user_idx ;;
        let similar_user_indices :=
          slice (rev (argsort user_similarities)) 1 (k_neighbors self + 1) in
        recommendations <-
          for_each similar_user_indices
            (fun recommendations similar_user_idx =>
               similarity_score <- getitem user_similarities similar_user_idx ;;
               similar_user_vector <-
                 getitem (user_item_matrix self) similar_user_idx ;;
               for_each (enumerate similar_user_vector)
                 (fun recommendations p =>
                    let item_idx := fst p in
                    let rating := snd p in
                    if Qltb 0 rating then
                      mine <- getitem user_vector item_idx ;;
                      if Qeq_bool mine 0 then
                        item <- dict_item Nat.eqb (reverse_item_mapping self)
                                  item_idx ;;
                        Return (add_score recommendations item
                                          (similarity_score * rating))
                      else Return recommendations
                    else Return recommendations)
                 recommendations)
            [] ;;
        let rec_items := to_items SimilarUsersLiked recommendations in
        Return (slice_to (sort_desc score rec_items)
                         (num_recommendations context))
    end.

(** [get_item_similarity]; [cosine] is sklearn's similarity of two
    vectors.  On numbers it is a number (0 against a zero vector), so the
    [np.isnan] test of the source always lets the pair through. *)
Definition get_item_similarity (cosine : list Q -> list Q -> Q)
    (self : t) (item : uuid) (top_k : Z) : Exc (list (uuid * Q)) :=
  match is_trained self, dict_get String.eqb (item_mapping self) item with
  | true, Some item_idx =>
      let item_vector := column 0 (user_item_matrix self) item_idx in
      similarities <-
        for_each (seq 0 (ncols (user_item_matrix self)))
          (fun similarities other_item_idx =>
             if Nat.eqb other_item_idx item_idx then Return similarities
             else
               let other_item_vector :=
                 column 0 (user_item_matrix self) other_item_idx in
               let similarity := cosine item_vector other_item_vector in
               other <- dict_item Nat.eqb (reverse_item_mapping self)
                          other_item_idx ;;
               Return (similarities ++ [(other, similarity)]))
          [] ;;
      Return (slice_to (sort_desc snd similarities) top_k)
  | _, _ => Return []
  end.

Definition as_engine (cosine : list Q -> list Q -> Q) (self : t)
  : Engine.BaseRecommendationEngine :=
  {| Engine.name := "user_based_cf"%string;
     Engine.is_trained := is_trained self;
     Engine.recommend := recommend self;
     Engine.get_item_similarity := get_item_similarity cosine self;
     Engine.has_user := dict_mem String.eqb (user_mapping self) |}.

End UserBasedCF.

Module ItemBasedCF.

Record t : Type := {
  k_neighbors : Z;
  min_interactions : Z;
  is_trained : bool;
  item_similarity_matrix : matrix Q;
  user_item_matrix : matrix Q;
  user_mapping : dict uuid nat;
  item_mapping : dict uuid nat;
  reverse_user_mapping : dict nat uuid;
  reverse_item_mapping : dict nat uuid
}.

Definition init (k_neighbors min_interactions : Z) : t :=
  {| k_neighbors := k_neighbors;
     min_interactions := min_interactions;
     is_trained := false;
     item_similarity_matrix := [];
     user_item_matrix := [];
     user_mapping := [];
     item_mapping := [];
     reverse_user_mapping := [];
     reverse_item_mapping := [] |}.

(** [train]: the lines of the user-based [train], with the similarity
    taken between the columns of the matrix. *)
Definition train (cosine_similarity : matrix Q -> matrix Q) (self : t)
    (interactions : list Interaction) : Exc t :=
  b <- UserBasedCF.build_user_item_matrix (min_interactions self) interactions ;;
  m <- UserBasedCF.finite_matrix (UserBasedCF.b_matrix b) ;;
  Return {| k_neighbors := k_neighbors self;
            min_interactions := min_interactions self;
            is_trained := true;
            item_similarity_matrix :=
              cosine_similarity
                (transpose 0 (List.length (UserBasedCF.b_item_mapping b)) m);
            user_item_matrix := m;
            user_mapping := UserBasedCF.b_user_mapping b;
            item_mapping := UserBasedCF.b_item_mapping b;
            reverse_user_mapping :=
              UserBasedCF.reverse_index (UserBasedCF.b_user_mapping b);
            reverse_item_mapping :=
              UserBasedCF.reverse_index (UserBasedCF.b_item_mapping b) |}.

Definition _cold_start_recommend (self : t) (context : RecommendationContext)
  : Exc (list RecommendationItem) :=
  cf_cold_start (user_item_matrix self) (user_mapping self)
                (reverse_item_mapping self) context.

(** [np.where(v > 0)[0]] *)
Definition positive_indices (v : list Q) : list nat :=
  map fst (filter (fun p => Qltb 0 (snd p)) (enumerate v)).

Definition recommend (self : t) (context : RecommendationContext)
  : Exc (list RecommendationItem) :=
  if negb (is_trained self) then Return []
  else
    match dict_get String.eqb (user_mapping self) (user_id context) with
    | None => _cold_start_recommend self context
    | Some user_idx =>
        user_vector <- getitem (user_item_matrix self) user_idx ;;
        match positive_indices user_vector with
        | [] => _cold_start_recommend self context
        | user_items =>
            recommendations <-
              for_each user_items
                (fun recommendations user_item_idx =>
                   user_rating <- getitem user_vector user_item_idx ;;
                   item_similarities <-
                     getitem (item_similarity_matrix self) user_item_idx ;;
                   let similar_items :=
                     slice (rev (argsort item_similarities)) 1
                           (k_neighbors self + 1) in
                   for_each similar_items
                     (fun recommendations similar_item_idx =>
                        mine <- getitem user_vector similar_item_idx ;;
                        if Qltb 0 mine then Return recommendations
                        else
                          similarity_score <-
                            getitem item_similarities similar_item_idx ;;
                          item <- dict_item Nat.eqb (reverse_item_mapping self)
                                    similar_item_idx ;;
                          Return (add_score recommendations item
                                            (similarity_score * user_rating)))
                     recommendations)
                [] ;;
            let rec_items := to_items SimilarToInteracted recommendations in
            Return (slice_to (sort_desc score rec_items)
                             (num_recommendations context))
        end
    end.

(** [get_item_similarity], with the sort of indices as an argument: the
    source takes [np.argsort(similarities)[::-1][1:top_k + 1]], dropping the
    first index of the descending order as the item itself. *)
Definition get_item_similarity_with (np_argsort : list Q -> list nat)
    (self : t) (item : uuid) (top_k : Z) : Exc (list (uuid * Q)) :=
  match is_trained self, dict_get String.eqb (item_mapping self) item with
  | true, Some item_idx =>
      similarities <- getitem (item_similarity_matrix self) item_idx ;;
      let similar_items_idx :=
        slice (rev (np_argsort similarities)) 1 (top_k + 1) in
      for_each similar_items_idx
        (fun result idx =>
           similar_item <- dict_item Nat.eqb (reverse_item_mapping self) idx ;;
           similarity_score <- getitem similarities idx ;;
           Return (result ++ [(similar_item, similarity_score)]))
        []
  | _, _ => Return []
  end.

Definition get_item_similarity : t -> uuid -> Z -> Exc (list (uuid * Q)) :=
  get_item_similarity_with argsort.

Definition as_engine (self : t) : Engine.BaseRecommendationEngine :=
  {| Engine.name := "item_based_cf"%string;
     Engine.is_trained := is_trained self;
     Engine.recommend := recommend self;
     Engine.get_item_similarity := get_item_similarity self;
     Engine.has_user := dict_mem String.eqb (user_mapping self) |}.

End ItemBasedCF.

(* ===================================================================== *)
(** ** content_based.py *)
(* ===================================================================== *)

(** A value of the [content_features] dict of an item. *)
Inductive feature_value : Type :=
| Num (q : Q)
| Str (s : string).

(** What [train] stores per item in [item_features], as far as [recommend]
    reads it.  [content_features] is [None] when the catalog frame has the
    column but the item has no value in it (the cell is then a float, which
    has no [get]). *)
Record ItemFeatures : Type := {
  category : string;
  content_features : option (dict string feature_value)
}.

Module ContentBased.

Record t : Type := {
  is_trained : bool;
  item_features : dict uuid ItemFeatures;
  combined_features_matrix : matrix Q;
  item_mapping : dict uuid nat;
  reverse_item_mapping : dict nat uuid;
  user_profiles : dict uuid (list Q)
}.

Definition init : t :=
  {| is_trained := false;
     item_features := [];
     combined_features_matrix := [];
     item_mapping := [];
     reverse_item_mapping := [];
     user_profiles := [] |}.

(** The popularity read by the cold start:
    [features.get('content_features', {}).get('popularity_score', 0.0)],
    kept when it is a number. *)
Definition popularity_of (features : ItemFeatures) : Exc (option Q) :=
  match content_features features with
  | None => Raise AttributeError
  | Some cf =>
      match dict_get String.eqb cf "popularity_score"%string with
      | None => Return (Some 0.0)
      | Some (Num q) => Return (Some q)
      | Some (Str _) => Return None
      end
  end.

Definition _cold_start_recommend (self : t) (context : RecommendationContext)
  : Exc (list RecommendationItem) :=
  popular_items <-
    for_each (item_features self)
      (fun popular_items entry =>
         popularity <- popularity_of (snd entry) ;;
         match popularity with
         | Some p => Return (popular_items ++ [(fst entry, p)])
         | None => Return popular_items
         end)
      [] ;;
  Return (map (fun p => {| item_id := fst p; score := snd p;
                           item_reason := Some PopularColdStart |})
              (slice_to (sort_desc snd popular_items)
                        (num_recommendations context))).

(** [recommend]; [cosine] is sklearn's similarity of two vectors. *)
Definition recommend (cosine : list Q -> list Q -> Q) (self : t)
    (context : RecommendationContext) : Exc (list RecommendationItem) :=
  if negb (is_trained self) then Return []
  else
    match dict_get String.eqb (user_profiles self) (user_id context) with
    | None => _cold_start_recommend self context
    | Some user_profile =>
        let similarities :=
          map (cosine user_profile) (combined_features_matrix self) in
        recommendations <-
          for_each (enumerate similarities)
            (fun recommendations p =>
               let item_idx := fst p in
               let similarity := snd p in
               item <- dict_item Nat.eqb (reverse_item_mapping self) item_idx ;;
               if truthy_list (exclude_items context)
                  && mem item (opt_list (exclude_items context))
               then Return recommendations
               else
                 features <- dict_item String.eqb (item_features self) item ;;
                 let c := category features in
                 if truthy_list (include_categories context)
                    && negb (mem c (opt_list (include_categories context)))
                 then Return recommendations
                 else if truthy_list (exclude_categories context)
                         && mem c (opt_list (exclude_categories context))
                 then Return recommendations
                 else Return (recommendations ++
                              [{| item_id := item; score := similarity;
                                  item_reason :=
                                    Some (ContentSimilarity similarity) |}]))
            [] ;;
        Return (slice_to (sort_desc score recommendations)
                         (num_recommendations context))
    end.

Definition get_item_similarity (cosine : list Q -> list Q -> Q) (self : t)
    (item : uuid) (top_k : Z) : Exc (list (uuid * Q)) :=
  match is_trained self, dict_get String.eqb (item_mapping self) item with
  | true, Some item_idx =>
      (* [m[item_idx:item_idx+1]] is a slice; sklearn refuses an empty one *)
      match nth_error (combined_features_matrix self) item_idx with
      | None => Raise ValueError
      | Some item_row =>
          let similarities :=
            map (cosine item_row) (combined_features_matrix self) in
          similar_items <-
            for_each (enumerate similarities)
              (fun similar_items p =>
                 let idx := fst p in
                 let similarity := snd p in
                 if Nat.eqb idx item_idx then Return similar_items
                 else
                   similar_item <-
                     dict_item Nat.eqb (reverse_item_mapping self) idx ;;
                   Return (similar_items ++ [(similar_item, similarity)]))
              [] ;;
          Return (slice_to (sort_desc snd similar_items) top_k)
      end
  | _, _ => Return []
  end.

Definition as_engine (cosine : list Q -> list Q -> Q) (self : t)
  : Engine.BaseRecommendationEngine :=
  {| Engine.name := "content_based"%string;
     Engine.is_trained := is_trained self;
     Engine.recommend := recommend cosine self;
     Engine.get_item_similarity := get_item_similarity cosine self;
     Engine.has_user := dict_mem String.eqb (user_profiles self) |}.

End ContentBased.

(** [_preprocess_text] of a [str], on text over the code points below
    256, one [ascii] per code point. *)
Module Text.

Definition between (a b n : nat) : bool := (a <=? n)%nat && (n <=? b)%nat.

(** [c.isspace()]: what [\s] matches in a [str] pattern, and what
    [str.split()] splits on. *)
Definition isspace (c : ascii) : bool :=
  let n := nat_of_ascii c in
  between 9 13 n || between 28 32 n || (n =? 133)%nat || (n =? 160)%nat.

(** [c.lower()] *)
Definition lower_char (c : ascii) : ascii :=
  let n := nat_of_ascii c in
  if between 65 90 n || (between 192 222 n && negb (n =? 215)%nat)
  then ascii_of_nat (n + 32) else c.

(** [text.lower()] *)
Fixpoint lower (text : string) : string :=
  match text with
  | EmptyString => EmptyString
  | String c rest => String (lower_char c) (lower rest)
  end.

(** The class [a-zA-Z0-9]. *)
Definition alnum (c : ascii) : bool :=
  let n := nat_of_ascii c in
  between 97 122 n || between 65 90 n || between 48 57 n.

(** [re.sub(r'[^a-zA-Z0-9\s]', ' ', text)] *)
Fixpoint strip_special (text : string) : string :=
  match text with
  | EmptyString => EmptyString
  | String c rest =>
      String (if alnum c || isspace c then c else " "%char)
             (strip_special rest)
  end.

(** [text.split()]: the maximal runs of characters that are not white
    space; [word] is the run being read. *)
Fixpoint split_from (word text : string) : list string :=
  match text with
  | EmptyString =>
      match word with
      | EmptyString => []
      | _ => [word]
      end
  | String c rest =>
      if isspace c then
        match word with
        | EmptyString => split_from EmptyString rest
        | _ => word :: split_from EmptyString rest
        end
      else split_from (word ++ String c EmptyString) rest
  end.

Definition split (text : string) : list string := split_from EmptyString text.

(** [ContentBasedRecommendationEngine._preprocess_text] *)
Definition _preprocess_text (text : string) : string :=
  let text := lower text in
  let text := strip_special text in
  String.concat " " (split text).

End Text.

(* ===================================================================== *)
(** ** matrix_factorization.py *)
(* ===================================================================== *)

(** The training set kept by surprise: per user the rated items, per item
    the ratings it received.  A user or item is known when it has an
    entry. *)
Record Trainset : Type := {
  ur : dict nat (list (nat * Q));
  ir : dict nat (list (nat * Q))
}.

Definition knows_user (ts : Trainset) (u : nat) : bool :=
  dict_mem Nat.eqb (ur ts) u.

Definition knows_item (ts : Trainset) (i : nat) : bool :=
  dict_mem Nat.eqb (ir ts) i.

Module SVD.

(** [predict] is [self.model.predict(u, i).est] of the fitted model, and
    [qi] its item factors. *)
Record t : Type := {
  is_trained : bool;
  trainset : Trainset;
  predict : nat -> nat -> Exc Q;
  qi : list (list Q);
  user_mapping : dict uuid nat;
  item_mapping : dict uuid nat;
  reverse_user_mapping : dict nat uuid;
  reverse_item_mapping : dict nat uuid
}.

Definition init : t :=
  {| is_trained := false;
     trainset := {| ur := []; ir := [] |};
     predict := fun _ _ => Raise AttributeError;
     qi := [];
     user_mapping := [];
     item_mapping := [];
     reverse_user_mapping := [];
     reverse_item_mapping := [] |}.

(** [np.mean(ratings)] *)
Definition mean (ratings : list Q) : Q :=
  sum_list ratings / inject_Z (Z.of_nat (List.length ratings)).

(** [_cold_start_recommend]; [np_log n] is [np.log(n)]. *)
Definition _cold_start_recommend (np_log : Z -> Q) (self : t)
    (context : RecommendationContext) : Exc (list RecommendationItem) :=
  let item_popularity :=
    fold_left
      (fun item_popularity entry =>
         let item_idx := fst entry in
         let item := snd entry in
         if knows_item (trainset self) item_idx then
           match dict_get Nat.eqb (ir (trainset self)) item_idx with
           | Some ((_ :: _) as rated) =>
               let ratings := map snd rated in
               let avg_rating := mean ratings in
               let num_ratings := Z.of_nat (List.length ratings) in
               dict_set String.eqb item_popularity item
                        (avg_rating * np_log (1 + num_ratings)%Z)
           | _ => item_popularity
           end
         else item_popularity)
      (reverse_item_mapping self) [] in
  let sorted_items := sort_desc snd item_popularity in
  Return (map (fun p => {| item_id := fst p; score := snd p;
                           item_reason := Some PopularColdStart |})
              (slice_to sorted_items (num_recommendations context))).

Definition recommend (np_log : Z -> Q) (self : t)
    (context : RecommendationContext) : Exc (list RecommendationItem) :=
  if negb (is_trained self) then Return []
  else
    match dict_get String.eqb (user_mapping self) (user_id context) with
    | None => _cold_start_recommend np_log self context
    | Some user_idx =>
        let recommendations :=
          fold_left
            (fun recommendations entry =>
               let item := fst entry in
               let item_idx := snd entry in
               let seen :=
                 knows_user (trainset self) user_idx
                 && knows_item (trainset self) item_idx
                 && match dict_get Nat.eqb (ur (trainset self)) user_idx with
                    | Some rated => existsb (Nat.eqb item_idx) (map fst rated)
                    | None => false
                    end in
               if seen then recommendations
               else
                 match predict self user_idx item_idx with
                 | Return est =>
                     recommendations ++
                     [{| item_id := item; score := est;
                         item_reason := Some MFPrediction |}]
                 | Raise _ => recommendations   (* [except Exception: continue] *)
                 end)
            (item_mapping self) [] in
        Return (slice_to (sort_desc score recommendations)
                         (num_recommendations context))
    end.

(** [get_item_similarity]; [cosine a b] is
    [np.dot(a, b) / (norm(a) * norm(b))]. *)
Definition get_item_similarity (cosine : list Q -> list Q -> Q) (self : t)
    (item : uuid) (top_k : Z) : Exc (list (uuid * Q)) :=
  match is_trained self, dict_get String.eqb (item_mapping self) item with
  | true, Some item_idx =>
      if negb (knows_item (trainset self) item_idx) then Return []
      else
        item_factors <- getitem (qi self) item_idx ;;
        similarities <-
          for_each (item_mapping self)
            (fun similarities entry =>
               let other_item := fst entry in
               let other_item_idx := snd entry in
               if String.eqb other_item item
                  || negb (knows_item (trainset self) other_item_idx)
               then Return similarities
               else
                 other_item_factors <- getitem (qi self) other_item_idx ;;
                 Return (similarities ++
                         [(other_item, cosine item_factors other_item_factors)]))
            [] ;;
        Return (slice_to (sort_desc snd similarities) top_k)
  | _, _ => Return []
  end.

Definition as_engine (np_log : Z -> Q) (cosine : list Q -> list Q -> Q)
    (self : t) : Engine.BaseRecommendationEngine :=
  {| Engine.name := "svd_matrix_factorization"%string;
     Engine.is_trained := is_trained self;
     Engine.recommend := recommend np_log self;
     Engine.get_item_similarity := get_item_similarity cosine self;
     Engine.has_user := dict_mem String.eqb (user_mapping self) |}.

End SVD.

Module ImplicitMF.

(** [model_recommend u row n] is
    [self.model.recommend(u, row, N=n, filter_already_liked_items=True)],
    as the list of (item index, score) pairs it returns. *)
Record t : Type := {
  is_trained : bool;
  model_recommend : nat -> list Q -> Z -> Exc (list (nat * Q));
  user_item_matrix : matrix Q;
  user_mapping : dict uuid nat;
  item_mapping : dict uuid nat;
  reverse_user_mapping : dict nat uuid;
  reverse_item_mapping : dict nat uuid
}.

Definition _cold_start_recommend (self : t) (context : RecommendationContext)
  : Exc (list RecommendationItem) :=
  let item_popularity :=
    column_sums (ncols (user_item_matrix self)) (user_item_matrix self) in
  let popular_items_idx := rev (argsort item_popularity) in
  for_each (slice_to popular_items_idx (num_recommendations context))
    (fun recommendations idx =>
       match dict_get Nat.eqb (reverse_item_mapping self) idx with
       | None => Return recommendations
       | Some item =>
           popularity <- getitem item_popularity idx ;;
           match user_item_matrix self with
           | [] => Raise ZeroDivisionError
           | _ =>
               let s := popularity /
                        inject_Z (Z.of_nat (List.length (user_item_matrix self))) in
               Return (recommendations ++
                       [{| item_id := item; score := s;
                           item_reason := Some PopularColdStart |}])
           end
       end)
    [].

Definition recommend (self : t) (context : RecommendationContext)
  : Exc (list RecommendationItem) :=
  if negb (is_trained self) then Return []
  else
    match dict_get String.eqb (user_mapping self) (user_id context) with
    | None => _cold_start_recommend self context
    | Some user_idx =>
        row <- getitem (user_item_matrix self) user_idx ;;
        found <- model_recommend self user_idx row
                   (num_recommendations context * 2)%Z ;;
        let recommendations :=
          fold_left
            (fun recommendations p =>
               match dict_get Nat.eqb (reverse_item_mapping self) (fst p) with
               | Some item =>
                   recommendations ++
                   [{| item_id := item; score := snd p;
                       item_reason := Some ImplicitMF |}]
               | None => recommendations
               end)
            found [] in
        Return (slice_to recommendations (num_recommendations context))
    end.

End ImplicitMF.

(* ===================================================================== *)
(** ** hybrid.py *)
(* ===================================================================== *)

(** The dict of resolved weights, with its three fixed keys. *)
Module Weights.

Record t : Type := {
  collaborative : Q;
  content : Q;
  matrix_factorization : Q
}.

(** [sum(weights.values())] *)
Definition total (w : t) : Q :=
  collaborative w + content w + matrix_factorization w.

End Weights.

(** The entry kept per item while merging. *)
Record Merged : Type := {
  m_score : Q;
  m_methods : list string
}.

Module WeightedHybrid.

Record t : Type := {
  collaborative_weight : Q;
  content_weight : Q;
  matrix_factorization_weight : Q;
  min_interactions_for_cf : Z;
  user_cf : Engine.BaseRecommendationEngine;
  item_cf : Engine.BaseRecommendationEngine;
  content_based : Engine.BaseRecommendationEngine;
  matrix_factorization : Engine.BaseRecommendationEngine;
  adaptive_weights : bool;
  is_trained : bool
}.

(** [__init__] with its default arguments, around given components. *)
Definition init (user_cf item_cf content_based matrix_factorization
                 : Engine.BaseRecommendationEngine) : t :=
  {| collaborative_weight := 0.4;
     content_weight := 0.3;
     matrix_factorization_weight := 0.3;
     min_interactions_for_cf := 5;
     user_cf := user_cf;
     item_cf := item_cf;
     content_based := content_based;
     matrix_factorization := matrix_factorization;
     adaptive_weights := true;
     is_trained := false |}.

Definition count_true (l : list bool) : nat :=
  List.length (filter (fun b => b) l).

Definition _calculate_adaptive_weights (self : t) (user : uuid) : Weights.t :=
  if negb (adaptive_weights self) then
    {| Weights.collaborative := collaborative_weight self;
       Weights.content := content_weight self;
       Weights.matrix_factorization := matrix_factorization_weight self |}
  else
    let has_cf_data := Engine.has_user (user_cf self) user in
    let has_content_data := Engine.has_user (content_based self) user in
    let has_mf_data := Engine.has_user (matrix_factorization self) user in
    let total_available :=
      count_true [has_cf_data; has_content_data; has_mf_data] in
    if Nat.eqb total_available 0 then
      {| Weights.collaborative := 0.33;
         Weights.content := 0.33;
         Weights.matrix_factorization := 0.34 |}
    else
      let weights :=
        {| Weights.collaborative :=
             if has_cf_data then collaborative_weight self else 0.0;
           Weights.content :=
             if has_content_data then content_weight self else 0.0;
           Weights.matrix_factorization :=
             if has_mf_data then matrix_factorization_weight self else 0.0 |} in
      let total_weight := Weights.total weights in
      if Qltb 0 total_weight then
        {| Weights.collaborative := Weights.collaborative weights / total_weight;
           Weights.content := Weights.content weights / total_weight;
           Weights.matrix_factorization :=
             Weights.matrix_factorization weights / total_weight |}
      else weights.

Definition merge_one (weight : Q) (method : string)
    (all_recommendations : dict uuid Merged) (rec : RecommendationItem)
  : dict uuid Merged :=
  let old := match dict_get String.eqb all_recommendations (item_id rec) with
             | Some e => e
             | None => {| m_score := 0.0; m_methods := [] |}
             end in
  dict_set String.eqb all_recommendations (item_id rec)
           {| m_score := m_score old + score rec * weight;
              m_methods := m_methods old ++ [method] |}.

Definition _merge_recommendations (all_recommendations : dict uuid Merged)
    (recommendations : list RecommendationItem) (weight : Q) (method : string)
  : dict uuid Merged :=
  fold_left (merge_one weight method) recommendations all_recommendations.

(** One [try] block of [recommend]: ask a component and merge what it
    returns. *)
Definition ask (engine : Engine.BaseRecommendationEngine)
    (context : RecommendationContext) (all_recommendations : dict uuid Merged)
    (weight : Q) (method : string) : Exc (dict uuid Merged) :=
  recs <- Engine.recommend engine context ;;
  Return (_merge_recommendations all_recommendations recs weight method).

Definition to_item (entry : uuid * Merged) : RecommendationItem :=
  {| item_id := fst entry;
     score := m_score (snd entry);
     item_reason := Some (HybridMethods (m_methods (snd entry))) |}.

(** The three fan-out blocks of [recommend], from the resolved weights to
    the merged dict. *)
Definition fan_out (self : t) (context : RecommendationContext)
    (weights : Weights.t) : Exc (dict uuid Merged) :=
  let all_recommendations : dict uuid Merged := [] in
  (* Collaborative filtering *)
  all_recommendations <-
    (if Qltb 0 (Weights.collaborative weights) then
       try_except
         (ask (user_cf self) context all_recommendations
              (Weights.collaborative weights) "collaborative_filtering")
         (fun _ =>
            (* Fallback to item-based CF *)
            try_except
              (ask (item_cf self) context all_recommendations
                   (Weights.collaborative weights) "collaborative_filtering")
              (fun _ => Return all_recommendations))
     else Return all_recommendations) ;;
  (* Content-based filtering *)
  all_recommendations <-
    (if Qltb 0 (Weights.content weights) then
       try_except
         (ask (content_based self) context all_recommendations
              (Weights.content weights) "content_based")
         (fun _ => Return all_recommendations)
     else Return all_recommendations) ;;
  (* Matrix factorization *)
  if Qltb 0 (Weights.matrix_factorization weights) then
    try_except
      (ask (matrix_factorization self) context all_recommendations
           (Weights.matrix_factorization weights) "matrix_factorization")
      (fun _ => Return all_recommendations)
  else Return all_recommendations.

Definition recommend (self : t) (context : RecommendationContext)
  : Exc (list RecommendationItem) :=
  if negb (is_trained self) then Return []
  else
    let weights := _calculate_adaptive_weights self (user_id context) in
    all_recommendations <- fan_out self context weights ;;
    let recommendations := map to_item all_recommendations in
    Return (slice_to (sort_desc score recommendations)
                     (num_recommendations context)).

Definition get_item_similarity (self : t) (item : uuid) (top_k : Z)
  : Exc (list (uuid * Q)) :=
  try_except (Engine.get_item_similarity (content_based self) item top_k)
    (fun _ =>
       try_except (Engine.get_item_similarity (item_cf self) item top_k)
         (fun _ =>
            try_except
              (Engine.get_item_similarity (matrix_factorization self) item top_k)
              (fun _ => Return []))).

End WeightedHybrid.

(** [SwitchingHybridRecommendationEngine].  [_choose_method] reads the
    index and the matrix of the user-based engine, and the user index of
    the content and factorization engines. *)
Module SwitchingHybrid.

Record t : Type := {
  user_cf : UserBasedCF.t;
  item_cf : Engine.BaseRecommendationEngine;
  content_based : Engine.BaseRecommendationEngine;
  matrix_factorization : Engine.BaseRecommendationEngine;
  min_interactions_for_cf : Z;
  min_items_for_content : Z;
  is_trained : bool
}.

(** [__init__], around given components. *)
Definition init (user_cf : UserBasedCF.t)
    (item_cf content_based matrix_factorization
     : Engine.BaseRecommendationEngine) : t :=
  {| user_cf := user_cf;
     item_cf := item_cf;
     content_based := content_based;
     matrix_factorization := matrix_factorization;
     min_interactions_for_cf := 10;
     min_items_for_content := 5;
     is_trained := false |}.

(** [np.sum(user_vector > 0)] *)
Definition count_positive (user_vector : list Q) : Z :=
  Z.of_nat (List.length (filter (Qltb 0) user_vector)).

Definition _choose_method (self : t) (user : uuid) : Exc string :=
  user_interaction_count <-
    match dict_get String.eqb (UserBasedCF.user_mapping (user_cf self)) user with
    | Some user_idx =>
        user_vector <-
          getitem (UserBasedCF.user_item_matrix (user_cf self)) user_idx ;;
        Return (count_positive user_vector)
    | None => Return 0%Z
    end ;;
  if (min_interactions_for_cf self <=? user_interaction_count)%Z
  then Return "collaborative_filtering"%string
  else if Engine.has_user (content_based self) user
  then Return "content_based"%string
  else if Engine.has_user (matrix_factorization self) user
  then Return "matrix_factorization"%string
  else Return "content_based"%string.

Definition recommend (self : t) (context : RecommendationContext)
  : Exc (list RecommendationItem) :=
  if negb (is_trained self) then Return []
  else
    method <- _choose_method self (user_id context) ;;
    try_except
      (if String.eqb method "collaborative_filtering"
       then UserBasedCF.recommend (user_cf self) context
       else if String.eqb method "content_based"
       then Engine.recommend (content_based self) context
       else if String.eqb method "matrix_factorization"
       then Engine.recommend (matrix_factorization self) context
       else (* Fallback to item-based CF *)
            Engine.recommend (item_cf self) context)
      (fun _ =>
         (* Fallback to content-based *)
         try_except (Engine.recommend (content_based self) context)
                    (fun _ => Return [])).

Definition get_item_similarity (self : t) (item : uuid) (top_k : Z)
  : Exc (list (uuid * Q)) :=
  Engine.get_item_similarity (content_based self) item top_k.

End SwitchingHybrid.

(* ===================================================================== *)
(** ** cache/redis_cluster.py *)
(* ===================================================================== *)

Module RedisClusterClient.

(** The cluster connection: [get] answers the stored text or nothing, [set]
    answers what redis answers; both may raise. *)
Record RedisCluster : Type := {
  cluster_get : string -> Exc (option string);
  cluster_set : string -> string -> option Z -> Exc bool
}.

Record t : Type := {
  _cluster : option RedisCluster;
  _connected : bool
}.

Definition init : t := {| _cluster := None; _connected := false |}.

Section Json.
(** Cached values and their JSON codec; [json_loads] answers [None] for
    the document [null]. *)
Variable Value : Type.
Variable json_loads : string -> Exc (option Value).
Variable json_dumps : Value -> Exc string.

(** [self._cluster.op(...)] on a client whose cluster is [None] raises. *)
Definition cluster (self : t) : Exc RedisCluster :=
  match _cluster self with
  | Some c => Return c
  | None => Raise AttributeError
  end.

Definition get (self : t) (key : string) : Exc (option Value) :=
  if negb (_connected self) then Return None
  else
    try_except
      (c <- cluster self ;;
       value <- cluster_get c key ;;
       match value with
       | Some (String _ _ as text) => json_loads text
       | _ => Return None
       end)
      (fun _ => Return None).

Definition set (self : t) (key : string) (value : Value) (expire : option Z)
  : Exc bool :=
  if negb (_connected self) then Return false
  else
    try_except
      (serialized_value <- json_dumps value ;;
       c <- cluster self ;;
       cluster_set c key serialized_value expire)
      (fun _ => Return false).
End Json.

End RedisClusterClient.

(** The other operations of [RedisClusterClient].  The commands of the
    connection that they call belong to the redis library. *)
Module RedisOperations.

Import RedisClusterClient.

Section Commands.
Variable Value : Type.
Variable json_loads : string -> Exc (option Value).
Variable json_dumps : Value -> Exc string.
Variable cluster_delete : RedisCluster -> string -> Exc Z.
Variable cluster_exists : RedisCluster -> string -> Exc Z.
Variable cluster_expire : RedisCluster -> string -> Z -> Exc bool.
Variable cluster_incr : RedisCluster -> string -> Z -> Exc Z.
Variable cluster_hget : RedisCluster -> string -> string -> Exc (option string).
Variable cluster_hset : RedisCluster -> string -> string -> string -> Exc Z.
Variable cluster_hgetall : RedisCluster -> string -> Exc (dict string string).
Variable cluster_sadd : RedisCluster -> string -> list string -> Exc Z.
Variable cluster_smembers : RedisCluster -> string -> Exc (list string).
Variable cluster_sismember : RedisCluster -> string -> string -> Exc bool.
Variable cluster_zadd : RedisCluster -> string -> dict string Q -> Exc Z.
Variable cluster_zrange :
  RedisCluster -> string -> Z -> Z -> bool -> Exc (list (string * option Q)).

Definition delete (self : t) (key : string) : Exc bool :=
  if negb (_connected self) then Return false
  else
    try_except
      (c <- cluster self ;;
       result <- cluster_delete c key ;;
       Return (0 <? result)%Z)
      (fun _ => Return false).

Definition exists_ (self : t) (key : string) : Exc bool :=
  if negb (_connected self) then Return false
  else
    try_except
      (c <- cluster self ;;
       result <- cluster_exists c key ;;
       Return (0 <? result)%Z)
      (fun _ => Return false).

Definition expire (self : t) (key : string) (seconds : Z) : Exc bool :=
  if negb (_connected self) then Return false
  else
    try_except
      (c <- cluster self ;;
       cluster_expire c key seconds)
      (fun _ => Return false).

Definition incr (self : t) (key : string) (amount : Z) : Exc (option Z) :=
  if negb (_connected self) then Return None
  else
    try_except
      (c <- cluster self ;;
       result <- cluster_incr c key amount ;;
       Return (Some result))
      (fun _ => Return None).

Definition hget (self : t) (name key : string) : Exc (option Value) :=
  if negb (_connected self) then Return None
  else
    try_except
      (c <- cluster self ;;
       value <- cluster_hget c name key ;;
       match value with
       | Some (String _ _ as text) => json_loads text
       | _ => Return None
       end)
      (fun _ => Return None).

Definition hset (self : t) (name key : string) (value : Value) : Exc bool :=
  if negb (_connected self) then Return false
  else
    try_except
      (serialized_value <- json_dumps value ;;
       c <- cluster self ;;
       result <- cluster_hset c name key serialized_value ;;
       Return (negb (result =? 0)%Z))
      (fun _ => Return false).

(** [{k: json.loads(v) for k, v in result.items()}] *)
Definition loads_all (result : dict string string)
  : Exc (dict string (option Value)) :=
  for_each result
    (fun decoded kv =>
       v <- json_loads (snd kv) ;;
       Return (dict_set String.eqb decoded (fst kv) v))
    [].

Definition hgetall (self : t) (name : string)
  : Exc (dict string (option Value)) :=
  if negb (_connected self) then Return []
  else
    try_except
      (c <- cluster self ;;
       result <- cluster_hgetall c name ;;
       loads_all result)
      (fun _ => Return []).

Definition sadd (self : t) (name : string) (values : list string) : Exc Z :=
  if negb (_connected self) then Return 0%Z
  else
    try_except
      (c <- cluster self ;;
       cluster_sadd c name values)
      (fun _ => Return 0%Z).

Definition smembers (self : t) (name : string) : Exc (list string) :=
  if negb (_connected self) then Return []
  else
    try_except
      (c <- cluster self ;;
       cluster_smembers c name)
      (fun _ => Return []).

Definition sismember (self : t) (name value : string) : Exc bool :=
  if negb (_connected self) then Return false
  else
    try_except
      (c <- cluster self ;;
       cluster_sismember c name value)
      (fun _ => Return false).

Definition zadd (self : t) (name : string) (mapping : dict string Q) : Exc Z :=
  if negb (_connected self) then Return 0%Z
  else
    try_except
      (c <- cluster self ;;
       cluster_zadd c name mapping)
      (fun _ => Return 0%Z).

Definition zrange (self : t) (name : string) (start stop : Z)
    (withscores : bool) : Exc (list (string * option Q)) :=
  if negb (_connected self) then Return []
  else
    try_except
      (c <- cluster self ;;
       cluster_zrange c name start stop withscores)
      (fun _ => Return []).

End Commands.

End RedisOperations.

(* ===================================================================== *)
(** ** cache/cache_manager.py *)
(* ===================================================================== *)

Module CacheManager.

Record t : Type := {
  default_ttl : Z;
  recommendation_ttl : Z;
  user_data_ttl : Z;
  item_data_ttl : Z
}.

Definition init : t :=
  {| default_ttl := 3600;
     recommendation_ttl := 1800;
     user_data_ttl := 7200;
     item_data_ttl := 14400 |}.

(** [sorted(kwargs.items())]: the keys of a dict are distinct, so the
    items are ordered by key. *)
Fixpoint insert_item (item : string * string) (l : list (string * string))
  : list (string * string) :=
  match l with
  | [] => [item]
  | y :: t => if String.leb (fst item) (fst y) then item :: y :: t
              else y :: insert_item item t
  end.

Definition sorted_items (kwargs : list (string * string))
  : list (string * string) :=
  fold_right insert_item [] kwargs.

(** [s.replace(" ", "_")] *)
Fixpoint replace_spaces (s : string) : string :=
  match s with
  | EmptyString => EmptyString
  | String c rest =>
      String (if Ascii.eqb c " " then "_"%char else c) (replace_spaces rest)
  end.

Section Keys.
(** [hashlib.md5(s.encode()).hexdigest()] *)
Variable md5_hexdigest : string -> string.

(** [key_string] of [_generate_cache_key(prefix, *args, **kwargs)]; [args]
    and the values of [kwargs] are given as their [str], which is what
    the key uses of them, as text over the code points below 256. *)
Definition key_string (prefix : string) (args : list string)
    (kwargs : list (string * string)) : string :=
  let key_parts :=
    [prefix] ++ args
    ++ map (fun kv => (fst kv ++ ":" ++ snd kv)%string) (sorted_items kwargs) in
  String.concat "|" key_parts.

Definition _generate_cache_key (prefix : string) (args : list string)
    (kwargs : list (string * string)) : string :=
  let key_string := key_string prefix args kwargs in
  if (200 <? String.length key_string)%nat
  then (prefix ++ ":hash:" ++ md5_hexdigest key_string)%string
  else replace_spaces key_string.

End Keys.

(** ["*" in pattern] *)
Definition has_star (pattern : string) : bool :=
  existsb (Ascii.eqb "*") (list_ascii_of_string pattern).

(** [invalidate_user_cache]: the keys for which a [delete] is issued
    ([tasks]), and the gathered results. *)
Definition invalidate_user_cache_keys (user_id : string) : list string :=
  let patterns :=
    [ ("user:" ++ user_id)%string;
      ("interactions:" ++ user_id ++ "*")%string;
      ("rec:" ++ user_id ++ "*")%string ] in
  filter (fun pattern => negb (has_star pattern)) patterns.

Definition invalidate_user_cache (delete : string -> Exc bool)
    (user_id : string) : list (Exc bool) :=
  map delete (invalidate_user_cache_keys user_id).

(** [invalidate_item_cache] *)
Definition invalidate_item_cache (delete : string -> Exc bool)
    (item_id : string) : Exc bool :=
  delete ("item:" ++ item_id)%string.

(** The keys of [get_user_interactions] and [set_user_interactions]. *)
Definition interactions_key (user_id : string)
    (interaction_type : option string) : string :=
  let cache_key := ("interactions:" ++ user_id)%string in
  match interaction_type with
  | Some (String _ _ as type) => (cache_key ++ ":" ++ type)%string
  | _ => cache_key
  end.

Section Wrapper.
Variable Value : Type.
Variable json_loads : string -> Exc (option Value).
Variable json_dumps : Value -> Exc string.

(** The [wrapper] that [cache_result(key_prefix, ttl, key_func)] puts
    around a function, for one call with given arguments: [cache_key]
    computes the key (by [key_func] or by [_generate_cache_key]) and
    [call] is the call of [func], [None] being the result [None]. *)
Definition wrapper (client : RedisClusterClient.t) (ttl : Z)
    (cache_key : Exc string) (call : Exc (option Value))
  : Exc (option Value) :=
  cache_key <- cache_key ;;
  cached_result <- RedisClusterClient.get json_loads client cache_key ;;
  match cached_result with
  | Some v => Return (Some v)
  | None =>
      result <- call ;;
      match result with
      | Some r =>
          _ <- RedisClusterClient.set json_dumps client cache_key r (Some ttl) ;;
          Return (Some r)
      | None => Return None
      end
  end.

End Wrapper.

End CacheManager.

(* ===================================================================== *)
(** ** Example catalog and engines *)
(* ===================================================================== *)

(** A tenant with six regular users and six titles: each user viewed five
    titles, each title was viewed by five of them, so that every row passes
    the default minimum of five interactions; [u1] has not seen [i6].  A
    seventh user viewed one title only.  The engines below are the states
    that training on this data leaves behind. *)
Module Example.

Local Open Scope string_scope.

(** An exact evaluation of the cosine on vectors whose squared norms
    multiply to the square of a rational (which those of the examples do);
    0 against a zero vector, like sklearn. *)
Definition dot (a b : list Q) : Q :=
  sum_list (map (fun p => fst p * snd p) (combine a b)).

Definition Qsqrt (q : Q) : Q :=
  let r := Qred q in
  inject_Z (Z.sqrt (Qnum r)) / inject_Z (Z.sqrt (Zpos (Qden r))).

Definition cosine (a b : list Q) : Q :=
  let n := Qsqrt (dot a a * dot b b) in
  if Qeq_bool n 0 then 0 else Qred (dot a b / n).

Definition cosine_similarity (m : matrix Q) : matrix Q :=
  map (fun a => map (cosine a) m) m.

(** [np.log], to three decimals, on the arguments the example meets. *)
Definition np_log (n : Z) : Q :=
  match n with
  | 6%Z => 1.792
  | 7%Z => 1.946
  | _ => 0
  end.

(** A recorded view, with the interaction value that the store gives it
    by default, and a rating. *)
Definition viewed (u i : uuid) : Interaction :=
  {| i_user_id := u; i_item_id := i;
     i_interaction_value := Some 1.0; i_rating := None |}.

Definition rated (u i : uuid) (r : Q) : Interaction :=
  {| i_user_id := u; i_item_id := i;
     i_interaction_value := None; i_rating := Some r |}.

Definition users : list uuid := ["u1"; "u2"; "u3"; "u4"; "u5"; "u6"].
Definition item_names : list uuid := ["i1"; "i2"; "i3"; "i4"; "i5"; "i6"].

(** The user at position [a] viewed every title but the one at position
    [5 - a]. *)
Definition views_of (a : nat) (u : uuid) : list Interaction :=
  map (fun p => viewed u (snd p))
      (filter (fun p => negb (Nat.eqb (a + fst p) 5)) (enumerate item_names)).

Definition interactions : list Interaction :=
  flat_map (fun p => views_of (fst p) (snd p)) (enumerate users)
  ++ [viewed "u7" "i1"].

(** The collaborative engines with their default settings, trained. *)
Definition user_cf : UserBasedCF.t :=
  match UserBasedCF.train cosine_similarity (UserBasedCF.init 50 5)
                          interactions with
  | Return e => e
  | Raise _ => UserBasedCF.init 50 5
  end.

Definition item_cf : ItemBasedCF.t :=
  match ItemBasedCF.train cosine_similarity (ItemBasedCF.init 50 5)
                          interactions with
  | Return e => e
  | Raise _ => ItemBasedCF.init 50 5
  end.

Definition features (c : string) (popularity : Q) : ItemFeatures :=
  {| category := c;
     content_features := Some [("popularity_score", Num popularity)] |}.

Definition catalog : dict uuid ItemFeatures :=
  [ ("i1", features "comedy" 0.9); ("i2", features "comedy" 0.5);
    ("i3", features "comedy" 0.8); ("i4", features "comedy" 0.7);
    ("i5", features "comedy" 0.2); ("i6", features "action" 0.1) ].

Definition item_index : dict uuid nat :=
  UserBasedCF.index_of (dict_keys catalog).

(** The content engine: one feature per category; a profile is the
    average of the rows of the titles the user viewed. *)
Definition content_based : ContentBased.t :=
  {| ContentBased.is_trained := true;
     ContentBased.item_features := catalog;
     ContentBased.combined_features_matrix :=
       [[0; 1]; [0; 1]; [0; 1]; [0; 1]; [0; 1]; [1; 0]];
     ContentBased.item_mapping := item_index;
     ContentBased.reverse_item_mapping := UserBasedCF.reverse_index item_index;
     ContentBased.user_profiles :=
       [("u1", [0; 1]); ("u2", [1 # 5; 4 # 5]); ("u3", [1 # 5; 4 # 5]);
        ("u4", [1 # 5; 4 # 5]); ("u5", [1 # 5; 4 # 5]);
        ("u6", [1 # 5; 4 # 5]); ("u7", [0; 1])] |}.

(** The factorization: its training set holds every interaction, and its
    estimates are clipped to the rating scale, which is the single value
    1.0 here. *)
Definition all_users : dict uuid nat :=
  UserBasedCF.index_of (unique (map i_user_id interactions)).

Definition ratings_by (key other : Interaction -> uuid)
    (keys others : dict uuid nat) : dict nat (list (nat * Q)) :=
  map (fun k =>
         (snd k,
          flat_map (fun r =>
                      if String.eqb (key r) (fst k) then
                        match dict_get String.eqb others (other r) with
                        | Some o => [(o, 1.0)]
                        | None => []
                        end
                      else [])
                   interactions))
      keys.

Definition svd : SVD.t :=
  {| SVD.is_trained := true;
     SVD.trainset :=
       {| ur := ratings_by i_user_id i_item_id all_users item_index;
          ir := ratings_by i_item_id i_user_id item_index all_users |};
     SVD.predict := fun _ _ => Return 1.0;
     SVD.qi := [[0; 1]; [0; 1]; [0; 1]; [0; 1]; [0; 1]; [1; 0]];
     SVD.user_mapping := all_users;
     SVD.item_mapping := item_index;
     SVD.reverse_user_mapping := UserBasedCF.reverse_index all_users;
     SVD.reverse_item_mapping := UserBasedCF.reverse_index item_index |}.

(** The combiner with its default weights, after [train]. *)
Definition hybrid : WeightedHybrid.t :=
  {| WeightedHybrid.collaborative_weight := 0.4;
     WeightedHybrid.content_weight := 0.3;
     WeightedHybrid.matrix_factorization_weight := 0.3;
     WeightedHybrid.min_interactions_for_cf := 5;
     WeightedHybrid.user_cf := UserBasedCF.as_engine cosine user_cf;
     WeightedHybrid.item_cf := ItemBasedCF.as_engine item_cf;
     WeightedHybrid.content_based := ContentBased.as_engine cosine content_based;
     WeightedHybrid.matrix_factorization := SVD.as_engine np_log cosine svd;
     WeightedHybrid.adaptive_weights := true;
     WeightedHybrid.is_trained := true |}.

(** The same components under
    [WeightedHybridRecommendationEngine(collaborative_weight=1.0,
    content_weight=0.0, matrix_factorization_weight=0.0)]. *)
Definition cf_only_hybrid : WeightedHybrid.t :=
  {| WeightedHybrid.collaborative_weight := 1.0;
     WeightedHybrid.content_weight := 0.0;
     WeightedHybrid.matrix_factorization_weight := 0.0;
     WeightedHybrid.min_interactions_for_cf := 5;
     WeightedHybrid.user_cf := UserBasedCF.as_engine cosine user_cf;
     WeightedHybrid.item_cf := ItemBasedCF.as_engine item_cf;
     WeightedHybrid.content_based := ContentBased.as_engine cosine content_based;
     WeightedHybrid.matrix_factorization := SVD.as_engine np_log cosine svd;
     WeightedHybrid.adaptive_weights := true;
     WeightedHybrid.is_trained := true |}.

Definition request (user : uuid) (n : Z) (excluded : option (list uuid))
  : RecommendationContext :=
  {| user_id := user;
     tenant_id := "t1";
     num_recommendations := n;
     exclude_items := excluded;
     include_categories := None;
     exclude_categories := None;
     min_score := 0.0;
     diversify := true;
     explain := false |}.

(** A regular user, the user with a single view, a user nobody has seen,
    and the title that [u1] has not viewed. *)
Definition u1 : uuid := "u1".
Definition u7 : uuid := "u7".
Definition newcomer : uuid := "u9".
Definition i1 : uuid := "i1".
Definition i2 : uuid := "i2".
Definition i6 : uuid := "i6".

(** The categories of the catalog, as [_diversify_recommendations] takes
    them. *)
Definition categories : dict uuid string :=
  map (fun e => (fst e, category (snd e))) catalog.

(** A tenant whose five users viewed the same five titles: all columns of
    the interaction matrix are equal, and every row of the item-similarity
    matrix is [uniform_row]. *)
Definition uniform_interactions : list Interaction :=
  flat_map (fun u => map (viewed u) (firstn 5 item_names)) (firstn 5 users).

Definition uniform_item_cf : ItemBasedCF.t :=
  match ItemBasedCF.train cosine_similarity (ItemBasedCF.init 50 5)
                          uniform_interactions with
  | Return e => e
  | Raise _ => ItemBasedCF.init 50 5
  end.

Definition uniform_row : list Q := [1; 1; 1; 1; 1].

(** A user who rated the same title twice, and a user who gave a rating
    of zero. *)
Definition rated_twice : list Interaction :=
  [ rated "u1" "i1" 2; rated "u1" "i2" 4; rated "u1" "i1" 5 ].

Definition rated_zero : list Interaction :=
  [ rated "u1" "i1" 0 ].

End Example.

(** Cache clients: one whose cluster refuses every command, one that was
    never connected, and a codec that stores texts as they are. *)
Module CacheExample.

Definition failing_cluster : RedisClusterClient.RedisCluster :=
  {| RedisClusterClient.cluster_get := fun _ => Raise RedisError;
     RedisClusterClient.cluster_set := fun _ _ _ => Raise RedisError |}.

Definition unreachable : RedisClusterClient.t :=
  {| RedisClusterClient._cluster := Some failing_cluster;
     RedisClusterClient._connected := true |}.

Definition garbled_cluster : RedisClusterClient.RedisCluster :=
  {| RedisClusterClient.cluster_get := fun _ => Return (Some "{"%string);
     RedisClusterClient.cluster_set := fun _ _ _ => Return true |}.

Definition garbled : RedisClusterClient.t :=
  {| RedisClusterClient._cluster := Some garbled_cluster;
     RedisClusterClient._connected := true |}.

Definition json_loads (text : string) : Exc (option string) :=
  if String.eqb text "{" then Raise JSONError else Return (Some text).

Definition json_dumps (value : string) : Exc string :=
  if String.eqb value "" then Raise JSONError else Return value.

End CacheExample.

(* ===================================================================== *)
(** ** Vocabulary of the statements *)
(* ===================================================================== *)

(** Descending order of scores: every element is at least as large as all
    later ones. *)
Definition descending {A : Type} (key : A -> Q) (l : list A) : Prop :=
  StronglySorted (fun a b => key b <= key a) l.

(** The length bound of a request. *)
Definition within_request (context : RecommendationContext)
    (l : list RecommendationItem) : Prop :=
  (Z.of_nat (List.length l) <= num_recommendations context)%Z.

(** The component [e] answering requests with [f]. *)
Definition with_recommend (e : Engine.BaseRecommendationEngine)
    (f : RecommendationContext -> Exc (list RecommendationItem))
  : Engine.BaseRecommendationEngine :=
  {| Engine.name := Engine.name e;
     Engine.is_trained := Engine.is_trained e;
     Engine.recommend := f;
     Engine.get_item_similarity := Engine.get_item_similarity e;
     Engine.has_user := Engine.has_user e |}.

(** A component that answers every request with the empty list, and is
    otherwise the given one. *)
Definition silenced (e : Engine.BaseRecommendationEngine)
  : Engine.BaseRecommendationEngine :=
  with_recommend e (fun _ => Return []).

(** The combiner [h] with other components. *)
Definition with_components (h : WeightedHybrid.t)
    (user_cf item_cf content_based matrix_factorization
     : Engine.BaseRecommendationEngine) : WeightedHybrid.t :=
  {| WeightedHybrid.collaborative_weight := WeightedHybrid.collaborative_weight h;
     WeightedHybrid.content_weight := WeightedHybrid.content_weight h;
     WeightedHybrid.matrix_factorization_weight :=
       WeightedHybrid.matrix_factorization_weight h;
     WeightedHybrid.min_interactions_for_cf :=
       WeightedHybrid.min_interactions_for_cf h;
     WeightedHybrid.user_cf := user_cf;
     WeightedHybrid.item_cf := item_cf;
     WeightedHybrid.content_based := content_based;
     WeightedHybrid.matrix_factorization := matrix_factorization;
     WeightedHybrid.adaptive_weights := WeightedHybrid.adaptive_weights h;
     WeightedHybrid.is_trained := WeightedHybrid.is_trained h |}.

(** The list an outcome carries; nothing when it is an exception. *)
Definition returned {A : Type} (c : Exc (list A)) : list A :=
  match c with
  | Return l => l
  | Raise _ => []
  end.

(** The sum of the configured weights of the components that have data for
    the user: [total_weight] of [_calculate_adaptive_weights]. *)
Definition available_weight (h : WeightedHybrid.t) (user : uuid) : Q :=
  (if Engine.has_user (WeightedHybrid.user_cf h) user
   then WeightedHybrid.collaborative_weight h else 0)
  + (if Engine.has_user (WeightedHybrid.content_based h) user
     then WeightedHybrid.content_weight h else 0)
  + (if Engine.has_user (WeightedHybrid.matrix_factorization h) user
     then WeightedHybrid.matrix_factorization_weight h else 0).

(** The tolerance of the weight normalisation. *)
Definition sums_to_one (w : Weights.t) : Prop :=
  Qabs (Weights.total w - 1) <= 1e-6.

(** The configured weights with those of the components that lack data for
    the user set to zero. *)
Definition zeroed_weights (h : WeightedHybrid.t) (user : uuid) : Weights.t :=
  {| Weights.collaborative :=
       if Engine.has_user (WeightedHybrid.user_cf h) user
       then WeightedHybrid.collaborative_weight h else 0.0;
     Weights.content :=
       if Engine.has_user (WeightedHybrid.content_based h) user
       then WeightedHybrid.content_weight h else 0.0;
     Weights.matrix_factorization :=
       if Engine.has_user (WeightedHybrid.matrix_factorization h) user
       then WeightedHybrid.matrix_factorization_weight h else 0.0 |}.

(** The user has data in no component. *)
Definition unknown_everywhere (h : WeightedHybrid.t) (user : uuid) : Prop :=
  Engine.has_user (WeightedHybrid.user_cf h) user = false
  /\ Engine.has_user (WeightedHybrid.content_based h) user = false
  /\ Engine.has_user (WeightedHybrid.matrix_factorization h) user = false.

Definition cold_start_weights : Weights.t :=
  {| Weights.collaborative := 0.33;
     Weights.content := 0.33;
     Weights.matrix_factorization := 0.34 |}.

(** [s] keeps some of the elements of [l], in their order. *)
Inductive subsequence {A : Type} : list A -> list A -> Prop :=
| subseq_nil : subsequence [] []
| subseq_keep x s l : subsequence s l -> subsequence (x :: s) (x :: l)
| subseq_drop x s l : subsequence s l -> subsequence s (x :: l).

(** The category under which [_diversify_recommendations] counts an item. *)
Definition category_of (categories : dict uuid string)
    (item : RecommendationItem) : string :=
  match dict_get String.eqb categories (item_id item) with
  | Some c => c
  | None => "unknown"%string
  end.

(** How many items of [l] fall in category [c]. *)
Definition count_category (categories : dict uuid string) (c : string)
    (l : list RecommendationItem) : Z :=
  Z.of_nat (List.length
              (filter (fun item => String.eqb (category_of categories item) c) l)).

(** No item of the request's [exclude_items] is in [l]. *)
Definition respects_exclusion (context : RecommendationContext)
    (l : list RecommendationItem) : Prop :=
  forall x, In x (opt_list (exclude_items context)) ->
            ~ In x (map item_id l).

(** The cell value as the specification words it: the rating when the
    record has one, else its interaction value, 1.0 by default. *)
Definition claimed_value (row : Interaction) : pyfloat :=
  match i_rating row, i_interaction_value row with
  | Some r, _ => Fin r
  | None, Some v => Fin v
  | None, None => Fin 1.0
  end.

(** The cell value as [train] computes it, case by case: a rating counts
    when it is not zero; a record without a rating, in a frame where some
    record has one, reads NaN, which counts as a rating; what remains is
    the interaction value, 1.0 when no record of the frame has one and NaN
    when only other records do. *)
Definition written_value (frame : list Interaction) (row : Interaction)
  : pyfloat :=
  let interaction :=
    match i_interaction_value row with
    | Some v => Fin v
    | None => if DataFrame.has_column i_interaction_value frame
              then NaN else Fin 1.0
    end in
  match i_rating row with
  | Some r => if Qeq_bool r 0 then interaction else Fin r
  | None => if DataFrame.has_column i_rating frame then NaN else interaction
  end.

(** [row.get('interaction_value', 1.0)]: the cell of the row when the frame
    has the column, NaN where the record gave no value. *)
Definition interaction_or_default (frame : list Interaction)
    (row : Interaction) : pyfloat :=
  if DataFrame.has_column i_interaction_value frame
  then DataFrame.cell (i_interaction_value row)
  else Fin 1.0.

(** The row maps to the cell [(u, i)] of the matrix. *)
Definition maps_to (user_mapping item_mapping : dict uuid nat) (u i : nat)
    (row : Interaction) : bool :=
  match dict_get String.eqb user_mapping (i_user_id row),
        dict_get String.eqb item_mapping (i_item_id row) with
  | Some u', Some i' => Nat.eqb u' u && Nat.eqb i' i
  | _, _ => false
  end.

(** The last row, in input order, that maps to the cell. *)
Definition last_write (user_mapping item_mapping : dict uuid nat)
    (rows : list Interaction) (u i : nat) : option Interaction :=
  find (maps_to user_mapping item_mapping u i) (rev rows).

(** A matrix of [nu] rows and [ni] columns. *)
Definition shaped {A : Type} (nu ni : nat) (m : matrix A) : Prop :=
  List.length m = nu /\ Forall (fun row => List.length row = ni) m.

(** The matrix of [train] on the given records: it is built, every kept
    row maps to a cell of it, and each cell holds what the last row that
    maps to it wrote, or 0 when no row does. *)
Definition built_by_last_write (min_interactions : Z)
    (interactions : list Interaction) : Prop :=
  let df := UserBasedCF.filter_frame min_interactions interactions in
  exists b,
    UserBasedCF.build_user_item_matrix min_interactions interactions = Return b
    /\ let um := UserBasedCF.b_user_mapping b in
       let im := UserBasedCF.b_item_mapping b in
       let nu := List.length um in
       let ni := List.length im in
       shaped nu ni (UserBasedCF.b_matrix b)
       /\ (forall row, In row df ->
             exists u i, maps_to um im u i row = true
                         /\ (u < nu)%nat /\ (i < ni)%nat)
       /\ (forall u i, (u < nu)%nat -> (i < ni)%nat ->
             matrix_get (UserBasedCF.b_matrix b) u i
             = Some (match last_write um im df u i with
                     | Some row => written_value interactions row
                     | None => Fin 0
                     end)).

(** The score that a ranking gives to an item: the sum over its entries
    for the item (one entry at most in the rankings of the engines), 0
    when the item is not ranked. *)
Definition popularity (ranking : list RecommendationItem) (x : uuid) : Q :=
  fold_right (fun item acc =>
                if String.eqb (item_id item) x then score item + acc else acc)
             0 ranking.

(** The score accumulated for an item in the merged dict. *)
Definition merged_score (all : dict uuid Merged) (x : uuid) : Q :=
  match dict_get String.eqb all x with
  | Some e => m_score e
  | None => 0
  end.

(** What the collaborative block of the combiner merges: the answer of the
    user-based engine, that of the item-based engine when the user-based
    one raises, nothing when both raise. *)
Definition collaborative_answer (ucf icf : Exc (list RecommendationItem))
  : list RecommendationItem :=
  match ucf with
  | Return l => l
  | Raise _ => returned icf
  end.

(** The combiner [h0] over the four concrete engines. *)
Definition hybrid_over (h0 : WeightedHybrid.t)
    (cosine : list Q -> list Q -> Q) (np_log : Z -> Q)
    (ucf : UserBasedCF.t) (icf : ItemBasedCF.t) (cb : ContentBased.t)
    (svd : SVD.t) : WeightedHybrid.t :=
  with_components h0 (UserBasedCF.as_engine cosine ucf)
                  (ItemBasedCF.as_engine icf)
                  (ContentBased.as_engine cosine cb)
                  (SVD.as_engine np_log cosine svd).

(* ===================================================================== *)
(** ** Further examples and vocabulary *)
(* ===================================================================== *)

(** A ranking of the example catalog, its metadata, and a request that
    uses every filter. *)
Module Sample.

Local Open Scope string_scope.

Definition item (x : uuid) (s : Q) : RecommendationItem :=
  {| item_id := x; score := s; item_reason := None |}.

Definition ranking : list RecommendationItem :=
  [ item "i1" 0.9; item "i3" 0.8; item "i4" 0.7; item "i2" 0.5;
    item "i5" 0.2; item "i6" 0.1 ].

(** The categories of the catalog, as [_apply_filters] takes them. *)
Definition item_metadata : dict uuid (option string) :=
  map (fun e => (fst e, Some (category (snd e)))) Example.catalog.

(** A request for comedies scoring at least 0.5, [i3] excluded. *)
Definition filtered_request : RecommendationContext :=
  {| user_id := "u1";
     tenant_id := "t1";
     num_recommendations := 10;
     exclude_items := Some ["i3"];
     include_categories := Some ["comedy"];
     exclude_categories := Some ["action"];
     min_score := 0.5;
     diversify := true;
     explain := false |}.

(** [EnsembleRecommendationEngine()] after two [add_engine] calls with the
    default weight, and after one with weight 0. *)
Definition ensemble : Ensemble.t :=
  Ensemble.add_engine
    (Ensemble.add_engine Ensemble.init
       (UserBasedCF.as_engine Example.cosine Example.user_cf) 1.0)
    (ContentBased.as_engine Example.cosine Example.content_based) 1.0.

Definition muted_ensemble : Ensemble.t :=
  Ensemble.add_engine Ensemble.init
    (ContentBased.as_engine Example.cosine Example.content_based) 0.0.

(** A component that raises on every call. *)
Definition broken : Engine.BaseRecommendationEngine :=
  {| Engine.name := "broken";
     Engine.is_trained := true;
     Engine.recommend := fun _ => Raise KeyError;
     Engine.get_item_similarity := fun _ _ => Raise KeyError;
     Engine.has_user := fun _ => false |}.

(** The switching combiner over the example engines, after [train]. *)
Definition switching : SwitchingHybrid.t :=
  {| SwitchingHybrid.user_cf := Example.user_cf;
     SwitchingHybrid.item_cf := ItemBasedCF.as_engine Example.item_cf;
     SwitchingHybrid.content_based :=
       ContentBased.as_engine Example.cosine Example.content_based;
     SwitchingHybrid.matrix_factorization :=
       SVD.as_engine Example.np_log Example.cosine Example.svd;
     SwitchingHybrid.min_interactions_for_cf := 10;
     SwitchingHybrid.min_items_for_content := 5;
     SwitchingHybrid.is_trained := true |}.

(** A record without a rating among rated records. *)
Definition rating_missing : list Interaction :=
  [ Example.rated "u1" "i1" 4; Example.viewed "u2" "i1" ].

End Sample.

(** The category that [_apply_filters] reads for an item:
    [item_metadata.get(item_id, {}).get("category")]. *)
Definition metadata_category (item_metadata : dict uuid (option string))
    (item : RecommendationItem) : option string :=
  match dict_get String.eqb item_metadata (item_id item) with
  | Some c => c
  | None => None
  end.

(** The item passes the four filters of the request. *)
Definition passes (context : RecommendationContext)
    (item_metadata : dict uuid (option string)) (item : RecommendationItem)
  : Prop :=
  min_score context <= score item
  /\ ~ In (item_id item) (opt_list (exclude_items context))
  /\ (truthy_list (include_categories context) = true ->
      exists c, metadata_category item_metadata item = Some c
                /\ In c (opt_list (include_categories context)))
  /\ (forall c, metadata_category item_metadata item = Some c ->
                ~ In c (opt_list (exclude_categories context))).

(** A component that answers the request as it is, and is silenced when
    it raises on it. *)
Definition quiet (context : RecommendationContext)
    (e : Engine.BaseRecommendationEngine) : Engine.BaseRecommendationEngine :=
  match Engine.recommend e context with
  | Raise _ => silenced e
  | Return _ => e
  end.

(** The ensemble over other engines, with the same weights. *)
Definition with_engines (self : Ensemble.t)
    (engines : list Engine.BaseRecommendationEngine) : Ensemble.t :=
  {| Ensemble.engines := engines;
     Ensemble.weights := Ensemble.weights self;
     Ensemble.is_trained := Ensemble.is_trained self |}.

(** The score the ensemble owes to an item: over the engines that answer,
    the item's score in the answer times the engine's share of the total
    weight. *)
Definition ensemble_score (self : Ensemble.t) (context : RecommendationContext)
    (x : uuid) : Q :=
  fold_right
    (fun p acc =>
       popularity (returned (Engine.recommend (fst p) context)) x
       * (snd p / sum_list (Ensemble.weights self)) + acc)
    0 (combine (Ensemble.engines self) (Ensemble.weights self)).

(** The items that some engine of the ensemble returns for the request. *)
Definition ensemble_candidates (self : Ensemble.t)
    (context : RecommendationContext) : list uuid :=
  flat_map (fun p => map item_id (returned (Engine.recommend (fst p) context)))
           (combine (Ensemble.engines self) (Ensemble.weights self)).

(** The score accumulated for an item in the ensemble's dict. *)
Definition combined_score (all : dict uuid Ensemble.Combined) (x : uuid) : Q :=
  match dict_get String.eqb all x with
  | Some e => Ensemble.c_score e
  | None => 0
  end.

(** What the ensemble's dict holds while it is filled: one entry per
    item, under the item's own identifier, with the number of engines. *)
Definition ensemble_entries (n : nat) (all : dict uuid Ensemble.Combined)
  : Prop :=
  NoDup (dict_keys all)
  /\ forall k e, In (k, e) all ->
                 Ensemble.c_item_id e = k /\ Ensemble.c_algorithms e = n.

(** The switching combiner with another item-based engine. *)
Definition with_item_cf (self : SwitchingHybrid.t)
    (item_cf : Engine.BaseRecommendationEngine) : SwitchingHybrid.t :=
  {| SwitchingHybrid.user_cf := SwitchingHybrid.user_cf self;
     SwitchingHybrid.item_cf := item_cf;
     SwitchingHybrid.content_based := SwitchingHybrid.content_based self;
     SwitchingHybrid.matrix_factorization :=
       SwitchingHybrid.matrix_factorization self;
     SwitchingHybrid.min_interactions_for_cf :=
       SwitchingHybrid.min_interactions_for_cf self;
     SwitchingHybrid.min_items_for_content :=
       SwitchingHybrid.min_items_for_content self;
     SwitchingHybrid.is_trained := SwitchingHybrid.is_trained self |}.

(** The methods recorded for an item in the merged dict. *)
Definition merged_methods (all : dict uuid Merged) (x : uuid) : list string :=
  match dict_get String.eqb all x with
  | Some e => m_methods e
  | None => []
  end.

(** How many entries of a ranking are for the item. *)
Definition occurrences (ranking : list RecommendationItem) (x : uuid) : nat :=
  List.length (filter (fun item => String.eqb (item_id item) x) ranking).

(** The state that [train] leaves in a collaborative engine, as far as
    [recommend] and [get_item_similarity] read it: the user index is not
    empty and points at rows of the matrix, the matrix has a column for
    every item of the item index, and the reverse item index inverts the
    item index on all columns. *)
Definition cf_consistent (user_mapping item_mapping : dict uuid nat)
    (reverse_item_mapping : dict nat uuid) (user_item_matrix : matrix Q)
  : Prop :=
  let nu := List.length user_mapping in
  let ni := List.length item_mapping in
  user_mapping <> []
  /\ shaped nu ni user_item_matrix
  /\ (forall u k, dict_get String.eqb user_mapping u = Some k -> (k < nu)%nat)
  /\ (forall x k, dict_get String.eqb item_mapping x = Some k -> (k < ni)%nat)
  /\ (forall x k, dict_get String.eqb item_mapping x = Some k <->
                  dict_get Nat.eqb reverse_item_mapping k = Some x)
  /\ (forall k, (k < ni)%nat ->
                exists x, dict_get Nat.eqb reverse_item_mapping k = Some x).

(** sklearn's [cosine_similarity] of a matrix with itself is square, with
    one row per row of the matrix. *)
Definition square_similarity (cosine_similarity : matrix Q -> matrix Q) : Prop :=
  forall m, shaped (List.length m) (List.length m) (cosine_similarity m).
(** The index that [train] builds from the identifiers [ids]: it numbers
    them from 0, the reverse index inverts it, and it knows exactly the
    identifiers of [ids]. *)
Definition numbering (ids : list uuid) (mapping : dict uuid nat)
    (reverse : dict nat uuid) : Prop :=
  (forall x k, dict_get String.eqb mapping x = Some k
               <-> dict_get Nat.eqb reverse k = Some x)
  /\ (forall k, (k < List.length mapping)%nat
                <-> exists x, dict_get String.eqb mapping x = Some k)
  /\ (forall x, dict_mem String.eqb mapping x = true <-> In x ids).

(** The items whose cell in the row [user_vector] satisfies [ok], under
    the reverse item index. *)
Definition cell_is (reverse_item_mapping : dict nat uuid)
    (user_vector : list Q) (ok : Q -> Prop) (x : uuid) : Prop :=
  exists idx mine, dict_get Nat.eqb reverse_item_mapping idx = Some x
                   /\ nth_error user_vector idx = Some mine /\ ok mine.

(** The item that the cold start makes of the column [idx]. *)
Definition popular_item (user_mapping : dict uuid nat)
    (reverse_item_mapping : dict nat uuid) (user_item_matrix : matrix Q)
    (idx : nat) : RecommendationItem :=
  {| item_id := match dict_get Nat.eqb reverse_item_mapping idx with
                | Some x => x
                | None => ""%string
                end;
     score := sum_list (column 0 user_item_matrix idx)
              / inject_Z (Z.of_nat (List.length user_mapping));
     item_reason := Some PopularColdStart |}.

(** The popularity that the content engine's cold start reads for an
    item: its [popularity_score] when that is a number, 0.0 when the item
    has none. *)
Definition has_popularity (features : ItemFeatures) (p : Q) : Prop :=
  exists cf, content_features features = Some cf
             /\ (dict_get String.eqb cf "popularity_score"%string = Some (Num p)
                 \/ (dict_get String.eqb cf "popularity_score"%string = None
                     /\ p = 0.0)).

(** The user [u] of the training set has rated the item [i]. *)
Definition has_rated (ts : Trainset) (u i : nat) : Prop :=
  knows_item ts i = true
  /\ exists rated, dict_get Nat.eqb (ur ts) u = Some rated
                   /\ In i (map fst rated).

(** ** Text, redis and cache keys *)

(** A lower-case letter or a digit. *)
Definition lowercase_or_digit (c : ascii) : bool :=
  let n := nat_of_ascii c in
  Text.between 97 122 n || Text.between 48 57 n.

(** The words of a preprocessed text. *)
Definition plain_word (w : string) : Prop :=
  w <> EmptyString
  /\ Forall (fun c => lowercase_or_digit c = true) (list_ascii_of_string w).

(** A client that cannot reach redis: not connected, or without a
    cluster. *)
Definition unusable (self : RedisClusterClient.t) : Prop :=
  RedisClusterClient._connected self = false
  \/ RedisClusterClient._cluster self = None.

(** The order of [sorted] on the items of [kwargs]. *)
Definition key_le (a b : string * string) : Prop :=
  String.leb (fst a) (fst b) = true.

(* ===================================================================== *)
(** * Properties *)
(* ===================================================================== *)

(** ** Slices, sorting and loops *)

Lemma slice_to_firstn {A : Type} (l : list A) (n : Z) :
  exists k, slice_to l n = firstn k l.
Proof.
  unfold slice_to, slice.
  assert (Ha : clamp_index (Z.of_nat (List.length l)) 0 = 0%Z).
  { unfold clamp_index. simpl. lia. }
  rewrite Ha. simpl. eexists. reflexivity.
Qed.

Lemma slice_to_nil {A : Type} (n : Z) : slice_to (@nil A) n = [].
Proof.
  destruct (slice_to_firstn (@nil A) n) as [k ->]. apply firstn_nil.
Qed.

Lemma length_slice_to {A : Type} (l : list A) (n : Z) :
  (0 <= n)%Z -> (Z.of_nat (List.length (slice_to l n)) <= n)%Z.
Proof.
  intros Hn. unfold slice_to, slice.
  assert (Ha : clamp_index (Z.of_nat (List.length l)) 0 = 0%Z).
  { unfold clamp_index. simpl. lia. }
  rewrite Ha. simpl skipn. rewrite length_firstn.
  unfold clamp_index. destruct (n <? 0)%Z eqn:E; lia.
Qed.

Lemma In_firstn {A : Type} (k : nat) (l : list A) (x : A) :
  In x (firstn k l) -> In x l.
Proof.
  intros H. rewrite <- (firstn_skipn k l). apply in_or_app. now left.
Qed.

Lemma In_skipn {A : Type} (k : nat) (l : list A) (x : A) :
  In x (skipn k l) -> In x l.
Proof.
  intros H. rewrite <- (firstn_skipn k l). apply in_or_app. now right.
Qed.

Lemma slice_incl {A : Type} (l : list A) (a b : Z) (x : A) :
  In x (slice l a b) -> In x l.
Proof.
  unfold slice. intros H.
  apply In_firstn in H. now apply In_skipn in H.
Qed.

Lemma firstn_StronglySorted {A : Type} (R : A -> A -> Prop) (l : list A) :
  StronglySorted R l -> forall k, StronglySorted R (firstn k l).
Proof.
  induction 1 as [|x l Hs IH Hall]; intros [|k]; simpl; try constructor.
  - apply IH.
  - rewrite Forall_forall in *. intros y Hy. apply Hall.
    now apply In_firstn in Hy.
Qed.

Lemma slice_to_descending {A : Type} (key : A -> Q) (l : list A) (n : Z) :
  descending key l -> descending key (slice_to l n).
Proof.
  intros H. destruct (slice_to_firstn l n) as [k ->].
  now apply firstn_StronglySorted.
Qed.

Lemma Qltb_false (x y : Q) : Qltb x y = false -> y <= x.
Proof.
  unfold Qltb. intros H. apply negb_false_iff in H.
  now apply Qle_bool_iff.
Qed.

Lemma Qltb_true (x y : Q) : Qltb x y = true -> x < y.
Proof.
  unfold Qltb. intros H. apply negb_true_iff in H.
  apply Qnot_le_lt. intros Hle. apply Qle_bool_iff in Hle. congruence.
Qed.

Lemma insert_desc_perm {A : Type} (key : A -> Q) (x : A) (l : list A) :
  Permutation (x :: l) (insert_desc key x l).
Proof.
  induction l as [|y t IH]; simpl; [reflexivity|].
  destruct (Qltb (key x) (key y)); [|reflexivity].
  rewrite perm_swap. now constructor.
Qed.

Lemma sort_desc_perm {A : Type} (key : A -> Q) (l : list A) :
  Permutation l (sort_desc key l).
Proof.
  induction l as [|x t IH]; simpl; [constructor|].
  rewrite <- insert_desc_perm. now constructor.
Qed.

Lemma insert_desc_sorted {A : Type} (key : A -> Q) (x : A) (l : list A) :
  descending key l -> descending key (insert_desc key x l).
Proof.
  unfold descending.
  induction 1 as [|y t Hs IH Hall]; simpl.
  - repeat constructor.
  - destruct (Qltb (key x) (key y)) eqn:E.
    + constructor; [exact IH|].
      rewrite Forall_forall in *. intros z Hz.
      apply (Permutation_in _ (Permutation_sym (insert_desc_perm key x t))) in Hz.
      destruct Hz as [<-|Hz]; [|now apply Hall].
      apply Qlt_le_weak. now apply Qltb_true.
    + apply Qltb_false in E.
      constructor; [now constructor|].
      constructor; [exact E|].
      rewrite Forall_forall in *. intros z Hz.
      eapply Qle_trans; [apply Hall, Hz | exact E].
Qed.

Lemma sort_desc_sorted {A : Type} (key : A -> Q) (l : list A) :
  descending key (sort_desc key l).
Proof.
  induction l as [|x t IH]; simpl.
  - constructor.
  - now apply insert_desc_sorted.
Qed.

Lemma bind_inv {A B : Type} (c : Exc A) (k : A -> Exc B) (b : B) :
  bind c k = Return b -> exists a, c = Return a /\ k a = Return b.
Proof.
  destruct c as [e|a]; simpl; [discriminate|]. intros H. now exists a.
Qed.

(** A loop whose body appends at most one element cannot produce more
    elements than it makes steps. *)
Lemma for_each_length {A B : Type} (body : list B -> A -> Exc (list B)) :
  (forall s x s', body s x = Return s' ->
                  (List.length s' <= S (List.length s))%nat) ->
  forall l acc acc',
    for_each l body acc = Return acc' ->
    (List.length acc' <= List.length acc + List.length l)%nat.
Proof.
  intros Hbody. induction l as [|x t IH]; simpl; intros acc acc' H.
  - injection H as <-. lia.
  - destruct (body acc x) as [e|s] eqn:E; simpl in H; [discriminate|].
    apply IH in H. apply Hbody in E. lia.
Qed.

(** ** Untrained engines *)

(** C10: an engine whose [is_trained] flag is still false (it is false at
    construction and only the last line of a successful [train] sets it)
    answers every request with the empty list, without raising: the
    weighted hybrid, both collaborative engines, the content engine and
    both matrix-factorization engines. *)
Theorem untrained_recommend_empty :
  forall context : RecommendationContext,
    (forall h, WeightedHybrid.is_trained h = false ->
               WeightedHybrid.recommend h context = Return [])
    /\ (forall e, UserBasedCF.is_trained e = false ->
                  UserBasedCF.recommend e context = Return [])
    /\ (forall e, ItemBasedCF.is_trained e = false ->
                  ItemBasedCF.recommend e context = Return [])
    /\ (forall cosine e, ContentBased.is_trained e = false ->
                         ContentBased.recommend cosine e context = Return [])
    /\ (forall np_log e, SVD.is_trained e = false ->
                         SVD.recommend np_log e context = Return [])
    /\ (forall e, ImplicitMF.is_trained e = false ->
                  ImplicitMF.recommend e context = Return []).
Proof.
  intros context. repeat split; intros.
  - unfold WeightedHybrid.recommend. now rewrite H.
  - unfold UserBasedCF.recommend. now rewrite H.
  - unfold ItemBasedCF.recommend. now rewrite H.
  - unfold ContentBased.recommend. now rewrite H.
  - unfold SVD.recommend. now rewrite H.
  - unfold ImplicitMF.recommend. now rewrite H.
Qed.

Lemma untrained_recommend_empty_witness :
  let context := Example.request Example.u1 10 None in
  WeightedHybrid.recommend
    (WeightedHybrid.init
       (UserBasedCF.as_engine Example.cosine (UserBasedCF.init 50 5))
       (ItemBasedCF.as_engine (ItemBasedCF.init 50 5))
       (ContentBased.as_engine Example.cosine ContentBased.init)
       (SVD.as_engine Example.np_log Example.cosine SVD.init))
    context = Return []
  /\ UserBasedCF.recommend (UserBasedCF.init 50 5) context = Return []
  /\ ItemBasedCF.recommend (ItemBasedCF.init 50 5) context = Return []
  /\ ContentBased.recommend Example.cosine ContentBased.init context = Return []
  /\ SVD.recommend Example.np_log SVD.init context = Return [].
Proof.
  intros context.
  destruct (untrained_recommend_empty context) as (Hh & Hu & Hi & Hc & Hs & _).
  split; [apply Hh; reflexivity|].
  split; [apply Hu; reflexivity|].
  split; [apply Hi; reflexivity|].
  split; [apply Hc; reflexivity|].
  apply Hs; reflexivity.
Defined.

(** A successful [train] is what sets the flag. *)
Lemma train_sets_is_trained :
  forall cosine_similarity self interactions e,
    UserBasedCF.train cosine_similarity self interactions = Return e ->
    UserBasedCF.is_trained e = true.
Proof.
  unfold UserBasedCF.train. intros cs self interactions e H.
  destruct (UserBasedCF.build_user_item_matrix _ _); simpl in H; [discriminate|].
  destruct (UserBasedCF.finite_matrix _); simpl in H; [discriminate|].
  injection H as <-. reflexivity.
Qed.

(** ** Failure isolation in the combiner *)

Lemma fan_out_returns :
  forall h context w, exists all, WeightedHybrid.fan_out h context w = Return all.
Proof.
  intros h context w. unfold WeightedHybrid.fan_out, WeightedHybrid.ask.
  destruct (Qltb 0 (Weights.collaborative w));
    [destruct (Engine.recommend (WeightedHybrid.user_cf h) context);
     [destruct (Engine.recommend (WeightedHybrid.item_cf h) context)|]|];
    simpl;
    (destruct (Qltb 0 (Weights.content w));
     [destruct (Engine.recommend (WeightedHybrid.content_based h) context)|];
     simpl;
     (destruct (Qltb 0 (Weights.matrix_factorization w));
      [destruct (Engine.recommend (WeightedHybrid.matrix_factorization h) context)|];
      simpl; eexists; reflexivity)).
Qed.

Lemma recommend_returns :
  forall h context, exists l, WeightedHybrid.recommend h context = Return l.
Proof.
  intros h context. unfold WeightedHybrid.recommend.
  destruct (negb (WeightedHybrid.is_trained h)); [eexists; reflexivity|].
  destruct (fan_out_returns h context
              (WeightedHybrid._calculate_adaptive_weights h (user_id context)))
    as [all ->].
  simpl. eexists. reflexivity.
Qed.

Ltac case_fan_out h ctx w :=
  unfold WeightedHybrid.fan_out, WeightedHybrid.ask; simpl;
  destruct (Qltb 0 (Weights.collaborative w));
  destruct (Qltb 0 (Weights.content w));
  destruct (Qltb 0 (Weights.matrix_factorization w));
  destruct (Engine.recommend (WeightedHybrid.user_cf h) ctx);
  destruct (Engine.recommend (WeightedHybrid.item_cf h) ctx);
  destruct (Engine.recommend (WeightedHybrid.content_based h) ctx);
  destruct (Engine.recommend (WeightedHybrid.matrix_factorization h) ctx);
  simpl.

(** C2: the combiner's [recommend] returns a list whatever its components
    do.  A content or matrix-factorization scorer that raises contributes
    as if it had returned nothing; a user-based scorer that raises is
    replaced by the item-based one, and both raising contribute nothing;
    when every component raises the answer is the empty list. *)
Theorem hybrid_swallows_component_failures :
  forall (h : WeightedHybrid.t) (context : RecommendationContext),
    let ucf := WeightedHybrid.user_cf h in
    let icf := WeightedHybrid.item_cf h in
    let cb := WeightedHybrid.content_based h in
    let mf := WeightedHybrid.matrix_factorization h in
    (exists l, WeightedHybrid.recommend h context = Return l)
    /\ (raised (Engine.recommend cb context) ->
        WeightedHybrid.recommend h context =
        WeightedHybrid.recommend (with_components h ucf icf (silenced cb) mf)
                                 context)
    /\ (raised (Engine.recommend mf context) ->
        WeightedHybrid.recommend h context =
        WeightedHybrid.recommend (with_components h ucf icf cb (silenced mf))
                                 context)
    /\ (raised (Engine.recommend ucf context) ->
        WeightedHybrid.recommend h context =
        WeightedHybrid.recommend
          (with_components h (with_recommend ucf (Engine.recommend icf))
                           icf cb mf)
          context)
    /\ (raised (Engine.recommend ucf context) ->
        raised (Engine.recommend icf context) ->
        WeightedHybrid.recommend h context =
        WeightedHybrid.recommend (with_components h (silenced ucf) icf cb mf)
                                 context)
    /\ (raised (Engine.recommend ucf context) ->
        raised (Engine.recommend icf context) ->
        raised (Engine.recommend cb context) ->
        raised (Engine.recommend mf context) ->
        WeightedHybrid.recommend h context = Return []).
Proof.
  intros h ctx ucf icf cb mf.
  split; [apply recommend_returns|].
  unfold WeightedHybrid.recommend, WeightedHybrid._calculate_adaptive_weights.
  simpl.
  destruct (negb (WeightedHybrid.is_trained h));
    [repeat split; intros; reflexivity|].
  set (w := if negb (WeightedHybrid.adaptive_weights h) then _ else _).
  subst ucf icf cb mf.
  repeat split; unfold raised.
  - intros [e He]. case_fan_out h ctx w; try reflexivity; discriminate.
  - intros [e He]. case_fan_out h ctx w; try reflexivity; discriminate.
  - intros [e He]. case_fan_out h ctx w; try reflexivity; discriminate.
  - intros [e He] [e' He'].
    case_fan_out h ctx w; try reflexivity; discriminate.
  - intros [e1 H1] [e2 H2] [e3 H3] [e4 H4].
    case_fan_out h ctx w; try discriminate; now rewrite slice_to_nil.
Qed.

Lemma hybrid_swallows_component_failures_witness :
  let broken :=
    with_recommend (ItemBasedCF.as_engine (ItemBasedCF.init 50 5))
                   (fun _ => Raise KeyError) in
  let h := with_components Example.hybrid broken broken broken broken in
  let context := Example.request Example.u1 10 None in
  (exists l, WeightedHybrid.recommend h context = Return l)
  /\ WeightedHybrid.recommend h context =
     WeightedHybrid.recommend
       (with_components h broken broken (silenced broken) broken) context
  /\ WeightedHybrid.recommend h context =
     WeightedHybrid.recommend
       (with_components h broken broken broken (silenced broken)) context
  /\ WeightedHybrid.recommend h context =
     WeightedHybrid.recommend
       (with_components h (with_recommend broken (Engine.recommend broken))
                        broken broken broken) context
  /\ WeightedHybrid.recommend h context =
     WeightedHybrid.recommend
       (with_components h (silenced broken) broken broken broken) context
  /\ WeightedHybrid.recommend h context = Return [].
Proof.
  intros broken h context.
  assert (R : raised (Engine.recommend broken context))
    by (exists KeyError; reflexivity).
  destruct (hybrid_swallows_component_failures h context)
    as (H0 & H1 & H2 & H3 & H4 & H5).
  split; [exact H0|].
  split; [exact (H1 R)|].
  split; [exact (H2 R)|].
  split; [exact (H3 R)|].
  split; [exact (H4 R R)|].
  exact (H5 R R R R).
Defined.

(** ** Bounded and ordered output *)

Lemma within_slice_to (context : RecommendationContext)
    (l : list RecommendationItem) :
  (0 <= num_recommendations context)%Z ->
  within_request context (slice_to l (num_recommendations context)).
Proof. apply length_slice_to. Qed.

Lemma cf_cold_start_bounded :
  forall m um rim context l,
    (0 <= num_recommendations context)%Z ->
    cf_cold_start m um rim context = Return l ->
    within_request context l.
Proof.
  unfold cf_cold_start, within_request. intros m um rim context l Hn H.
  apply for_each_length in H.
  - pose proof (length_slice_to
                  (rev (argsort (column_sums (ncols m) m))) Hn) as Hs.
    simpl in H. lia.
  - intros s x s' Hb.
    destruct (dict_item Nat.eqb rim x); simpl in Hb; [discriminate|].
    destruct (getitem _ x); simpl in Hb; [discriminate|].
    destruct um; [discriminate|].
    injection Hb as <-. rewrite length_app. simpl. lia.
Qed.

Lemma user_cf_bounded :
  forall e context l,
    (0 <= num_recommendations context)%Z ->
    UserBasedCF.recommend e context = Return l ->
    within_request context l.
Proof.
  unfold UserBasedCF.recommend, UserBasedCF._cold_start_recommend.
  intros e context l Hn H.
  destruct (negb (UserBasedCF.is_trained e)).
  { injection H as <-. unfold within_request. simpl. exact Hn. }
  destruct (dict_get _ _ _).
  - destruct (getitem (UserBasedCF.user_item_matrix e) n); simpl in H;
      [discriminate|].
    destruct (getitem (UserBasedCF.user_similarity_matrix e) n); simpl in H;
      [discriminate|].
    destruct (for_each _ _ _); simpl in H; [discriminate|].
    injection H as <-. now apply within_slice_to.
  - eapply cf_cold_start_bounded; eassumption.
Qed.

Lemma item_cf_bounded :
  forall e context l,
    (0 <= num_recommendations context)%Z ->
    ItemBasedCF.recommend e context = Return l ->
    within_request context l.
Proof.
  unfold ItemBasedCF.recommend, ItemBasedCF._cold_start_recommend.
  intros e context l Hn H.
  destruct (negb (ItemBasedCF.is_trained e)).
  { injection H as <-. unfold within_request. simpl. exact Hn. }
  destruct (dict_get _ _ _).
  - apply bind_inv in H as (user_vector & _ & H).
    destruct (ItemBasedCF.positive_indices user_vector).
    + eapply cf_cold_start_bounded; eassumption.
    + apply bind_inv in H as (recs & _ & H).
      injection H as <-. now apply within_slice_to.
  - eapply cf_cold_start_bounded; eassumption.
Qed.

Lemma content_bounded :
  forall cosine e context l,
    (0 <= num_recommendations context)%Z ->
    ContentBased.recommend cosine e context = Return l ->
    within_request context l.
Proof.
  unfold ContentBased.recommend, ContentBased._cold_start_recommend.
  intros cosine e context l Hn H.
  destruct (negb (ContentBased.is_trained e)).
  { injection H as <-. unfold within_request. simpl. exact Hn. }
  destruct (dict_get _ _ _).
  - destruct (for_each _ _ _); simpl in H; [discriminate|].
    injection H as <-. now apply within_slice_to.
  - destruct (for_each _ _ _); simpl in H; [discriminate|].
    injection H as <-. unfold within_request. rewrite length_map.
    now apply length_slice_to.
Qed.

Lemma svd_bounded :
  forall np_log e context l,
    (0 <= num_recommendations context)%Z ->
    SVD.recommend np_log e context = Return l ->
    within_request context l.
Proof.
  unfold SVD.recommend, SVD._cold_start_recommend.
  intros np_log e context l Hn H.
  destruct (negb (SVD.is_trained e)).
  { injection H as <-. unfold within_request. simpl. exact Hn. }
  destruct (dict_get _ _ _); injection H as <-.
  - now apply within_slice_to.
  - unfold within_request. rewrite length_map. now apply length_slice_to.
Qed.

Lemma implicit_mf_bounded :
  forall e context l,
    (0 <= num_recommendations context)%Z ->
    ImplicitMF.recommend e context = Return l ->
    within_request context l.
Proof.
  unfold ImplicitMF.recommend, ImplicitMF._cold_start_recommend.
  intros e context l Hn H.
  destruct (negb (ImplicitMF.is_trained e)).
  { injection H as <-. unfold within_request. simpl. exact Hn. }
  destruct (dict_get String.eqb _ _).
  - destruct (getitem _ _); simpl in H; [discriminate|].
    destruct (ImplicitMF.model_recommend _ _ _ _); simpl in H; [discriminate|].
    injection H as <-. now apply within_slice_to.
  - unfold within_request. apply for_each_length in H.
    + pose proof (length_slice_to
                    (rev (argsort
                            (column_sums (ncols (ImplicitMF.user_item_matrix e))
                                         (ImplicitMF.user_item_matrix e))))
                    Hn) as Hs.
      simpl in H. lia.
    + intros s x s' Hb.
      destruct (dict_get Nat.eqb _ x).
      * destruct (getitem _ x); simpl in Hb; [discriminate|].
        destruct (ImplicitMF.user_item_matrix e); [discriminate|].
        injection Hb as <-. rewrite length_app. simpl. lia.
      * injection Hb as <-. lia.
Qed.

Lemma hybrid_bounded_sorted :
  forall h context,
    (0 <= num_recommendations context)%Z ->
    exists l, WeightedHybrid.recommend h context = Return l
              /\ within_request context l
              /\ descending score l.
Proof.
  intros h context Hn. unfold WeightedHybrid.recommend.
  destruct (negb (WeightedHybrid.is_trained h)).
  { exists []. repeat split; [exact Hn | constructor]. }
  destruct (fan_out_returns h context
              (WeightedHybrid._calculate_adaptive_weights h (user_id context)))
    as [all ->].
  simpl. eexists. split; [reflexivity|]. split.
  - now apply within_slice_to.
  - apply slice_to_descending, sort_desc_sorted.
Qed.

(** C8, as the code has it: for every request with a non-negative
    [num_recommendations], the combiner returns a list of at most that many
    items, sorted descending by combined score, whatever its components
    answer; and every component engine, on its trained, cold-start and
    untrained paths, returns at most that many items. *)
Theorem recommend_bounded_and_sorted :
  forall context : RecommendationContext,
    (0 <= num_recommendations context)%Z ->
    (forall h, exists l,
        WeightedHybrid.recommend h context = Return l
        /\ within_request context l
        /\ descending score l)
    /\ (forall e l, UserBasedCF.recommend e context = Return l ->
                    within_request context l)
    /\ (forall e l, ItemBasedCF.recommend e context = Return l ->
                    within_request context l)
    /\ (forall cosine e l, ContentBased.recommend cosine e context = Return l ->
                           within_request context l)
    /\ (forall np_log e l, SVD.recommend np_log e context = Return l ->
                           within_request context l)
    /\ (forall e l, ImplicitMF.recommend e context = Return l ->
                    within_request context l).
Proof.
  intros context Hn.
  split; [intros h; now apply hybrid_bounded_sorted|].
  split; [intros e l; now apply user_cf_bounded|].
  split; [intros e l; now apply item_cf_bounded|].
  split; [intros cosine e l; now apply content_bounded|].
  split; [intros np_log e l; now apply svd_bounded|].
  intros e l; now apply implicit_mf_bounded.
Qed.

Lemma recommend_bounded_and_sorted_witness :
  let context := Example.request Example.newcomer 3 None in
  (exists l, WeightedHybrid.recommend Example.hybrid context = Return l
             /\ within_request context l /\ descending score l)
  /\ within_request context
       (returned (UserBasedCF.recommend Example.user_cf context))
  /\ within_request context
       (returned (ItemBasedCF.recommend Example.item_cf context))
  /\ within_request context
       (returned (ContentBased.recommend Example.cosine Example.content_based
                                         context))
  /\ within_request context
       (returned (SVD.recommend Example.np_log Example.svd context)).
Proof.
  intros context.
  assert (Hn : (0 <= num_recommendations context)%Z) by (simpl; lia).
  destruct (recommend_bounded_and_sorted context Hn)
    as (Hh & Hu & Hi & Hc & Hs & _).
  split; [apply Hh|].
  split; [apply (Hu Example.user_cf); vm_compute; reflexivity|].
  split; [apply (Hi Example.item_cf); vm_compute; reflexivity|].
  split; [apply (Hc Example.cosine Example.content_based);
          vm_compute; reflexivity|].
  apply (Hs Example.np_log Example.svd); vm_compute; reflexivity.
Defined.

(** C8 as stated fails on a negative request size: [l[:-1]] drops the last
    element only, so the trained example combiner returns four items for
    [num_recommendations = -1]. *)
Lemma negative_request_exceeds_bound :
  WeightedHybrid.is_trained Example.hybrid = true
  /\ exists l,
       WeightedHybrid.recommend Example.hybrid
                                (Example.request Example.u1 (-1) None)
       = Return l
       /\ List.length l = 4%nat
       /\ ~ within_request (Example.request Example.u1 (-1) None) l.
Proof.
  split; [reflexivity|].
  eexists. split; [vm_compute; reflexivity|].
  split; [reflexivity|].
  unfold within_request. simpl. lia.
Qed.

(** ** Weight resolution *)

Lemma near_one (x : Q) : x == 1 -> Qabs (x - 1) <= 1e-6.
Proof.
  intros H. rewrite H. vm_compute. discriminate.
Qed.

Lemma normalized_total (a b c : Q) :
  ~ a + b + c == 0 ->
  a / (a + b + c) + b / (a + b + c) + c / (a + b + c) == 1.
Proof. intros H. field. exact H. Qed.

Lemma total_zeroed (h : WeightedHybrid.t) (user : uuid) :
  Weights.total (zeroed_weights h user) == available_weight h user.
Proof.
  unfold Weights.total, zeroed_weights, available_weight. simpl.
  destruct (Engine.has_user (WeightedHybrid.user_cf h) user);
    destruct (Engine.has_user (WeightedHybrid.content_based h) user);
    destruct (Engine.has_user (WeightedHybrid.matrix_factorization h) user);
    ring.
Qed.

Lemma adaptive_weights_cases (h : WeightedHybrid.t) (user : uuid) :
  WeightedHybrid.adaptive_weights h = true ->
  let w := WeightedHybrid._calculate_adaptive_weights h user in
  let z := zeroed_weights h user in
  (unknown_everywhere h user /\ w = cold_start_weights)
  \/ (~ unknown_everywhere h user
      /\ Qltb 0 (Weights.total z) = true
      /\ w = {| Weights.collaborative := Weights.collaborative z / Weights.total z;
                Weights.content := Weights.content z / Weights.total z;
                Weights.matrix_factorization :=
                  Weights.matrix_factorization z / Weights.total z |})
  \/ (~ unknown_everywhere h user
      /\ Qltb 0 (Weights.total z) = false
      /\ w = z).
Proof.
  intros Ha w z. subst w z.
  unfold WeightedHybrid._calculate_adaptive_weights, zeroed_weights,
    unknown_everywhere, WeightedHybrid.count_true.
  rewrite Ha. simpl negb. cbv iota.
  destruct (Engine.has_user (WeightedHybrid.user_cf h) user) eqn:E1;
    destruct (Engine.has_user (WeightedHybrid.content_based h) user) eqn:E2;
    destruct (Engine.has_user (WeightedHybrid.matrix_factorization h) user) eqn:E3;
    simpl;
    try (left; split; [auto | reflexivity]);
    right;
    match goal with
    | |- context [Qltb 0 ?t] => destruct (Qltb 0 t) eqn:Et
    end;
    [left | right | left | right | left | right | left | right
     | left | right | left | right | left | right];
    (split; [intros (H1 & H2 & H3); discriminate|]);
    (split; [reflexivity|]); reflexivity.
Qed.

(** C3, as the code has it: with adaptive weighting on (the constructor's
    setting), a user unknown to all three components gets the weights
    0.33/0.33/0.34, which sum to 1.  Otherwise the weight of every
    component lacking data for the user is zero; when the configured
    weights of the components that do have data sum to a positive number,
    each remaining weight is its configured value divided by that sum and
    the three resolved weights sum to 1 (within 1e-6); when that sum is not
    positive, the zeroed weights are returned without normalisation. *)
Theorem adaptive_weights_normalized :
  forall (h : WeightedHybrid.t) (user : uuid),
    WeightedHybrid.adaptive_weights h = true ->
    let w := WeightedHybrid._calculate_adaptive_weights h user in
    let z := zeroed_weights h user in
    (unknown_everywhere h user ->
     w = cold_start_weights /\ Weights.total w == 1 /\ sums_to_one w)
    /\ (~ unknown_everywhere h user ->
        (Engine.has_user (WeightedHybrid.user_cf h) user = false ->
         Weights.collaborative w == 0)
        /\ (Engine.has_user (WeightedHybrid.content_based h) user = false ->
            Weights.content w == 0)
        /\ (Engine.has_user (WeightedHybrid.matrix_factorization h) user = false ->
            Weights.matrix_factorization w == 0)
        /\ (0 < available_weight h user ->
            Weights.total w == 1
            /\ sums_to_one w
            /\ Weights.collaborative w
               == Weights.collaborative z / available_weight h user
            /\ Weights.content w
               == Weights.content z / available_weight h user
            /\ Weights.matrix_factorization w
               == Weights.matrix_factorization z / available_weight h user)
        /\ (~ 0 < available_weight h user -> w = z)).
Proof.
  intros h user Ha w z.
  pose proof (total_zeroed h user) as Ht. fold z in Ht.
  destruct (adaptive_weights_cases h user Ha)
    as [[Hu Hw] | [(Hk & Hpos & Hw) | (Hk & Hneg & Hw)]];
    fold w in Hw; fold z in Hw, Hpos || fold z in Hw, Hneg || idtac.
  - split; [|intros Hk; contradiction].
    intros _. rewrite Hw.
    assert (Hone : Weights.total cold_start_weights == 1) by reflexivity.
    split; [reflexivity|]. split; [exact Hone | now apply near_one].
  - split; [intros Hu; contradiction|]. intros _.
    apply Qltb_true in Hpos.
    assert (Hnz : ~ Weights.total z == 0).
    { intros E. rewrite E in Hpos. now apply Qlt_irrefl in Hpos. }
    assert (Hone : Weights.total w == 1).
    { rewrite Hw. exact (normalized_total Hnz). }
    assert (Hc : Weights.collaborative w
                 == Weights.collaborative z / Weights.total z)
      by (rewrite Hw; reflexivity).
    assert (Hct : Weights.content w == Weights.content z / Weights.total z)
      by (rewrite Hw; reflexivity).
    assert (Hm : Weights.matrix_factorization w
                 == Weights.matrix_factorization z / Weights.total z)
      by (rewrite Hw; reflexivity).
    split; [intros E; rewrite Hc; unfold z, zeroed_weights; simpl; rewrite E;
            unfold Qdiv; ring|].
    split; [intros E; rewrite Hct; unfold z, zeroed_weights; simpl; rewrite E;
            unfold Qdiv; ring|].
    split; [intros E; rewrite Hm; unfold z, zeroed_weights; simpl; rewrite E;
            unfold Qdiv; ring|].
    split.
    + intros _. split; [exact Hone|]. split; [now apply near_one|].
      rewrite <- Ht. now repeat split.
    + intros Hn. exfalso. apply Hn. now rewrite <- Ht.
  - split; [intros Hu; contradiction|]. intros _.
    apply Qltb_false in Hneg.
    rewrite Hw.
    split; [intros E; unfold z, zeroed_weights; simpl; now rewrite E|].
    split; [intros E; unfold z, zeroed_weights; simpl; now rewrite E|].
    split; [intros E; unfold z, zeroed_weights; simpl; now rewrite E|].
    split; [|reflexivity].
    intros Hp. exfalso. rewrite <- Ht in Hp.
    apply (Qlt_irrefl 0). eapply Qlt_le_trans; eassumption.
Qed.

Lemma adaptive_weights_normalized_witness :
  (let w := WeightedHybrid._calculate_adaptive_weights
              Example.hybrid Example.newcomer in
   w = cold_start_weights /\ Weights.total w == 1 /\ sums_to_one w)
  /\ (let w := WeightedHybrid._calculate_adaptive_weights
                 Example.hybrid Example.u1 in
      Weights.total w == 1 /\ sums_to_one w)
  /\ (let w := WeightedHybrid._calculate_adaptive_weights
                 Example.cf_only_hybrid Example.u1 in
      Weights.content w == 0 /\ Weights.matrix_factorization w == 0
      /\ Weights.collaborative w == 1)
  /\ WeightedHybrid._calculate_adaptive_weights Example.cf_only_hybrid Example.u7
     = zeroed_weights Example.cf_only_hybrid Example.u7.
Proof.
  split.
  { apply (proj1 (adaptive_weights_normalized
                    Example.hybrid Example.newcomer eq_refl)).
    repeat split. }
  split.
  { destruct (proj2 (adaptive_weights_normalized
                       Example.hybrid Example.u1 eq_refl))
      as (_ & _ & _ & H & _).
    - intros (H & _). vm_compute in H. discriminate.
    - destruct H as (H1 & H2 & _); [reflexivity|]. now split. }
  split.
  { destruct (proj2 (adaptive_weights_normalized
                       Example.cf_only_hybrid Example.u1 eq_refl))
      as (_ & _ & _ & H & _).
    - intros (H & _). vm_compute in H. discriminate.
    - destruct H as (_ & _ & H1 & H2 & H3); [reflexivity|].
      split; [rewrite H2; reflexivity|].
      split; [rewrite H3; reflexivity|].
      rewrite H1. reflexivity. }
  destruct (proj2 (adaptive_weights_normalized
                     Example.cf_only_hybrid Example.u7 eq_refl))
    as (_ & _ & _ & _ & H).
  - intros (_ & H & _). vm_compute in H. discriminate.
  - apply H. vm_compute. discriminate.
Defined.

(** C3 as stated fails when the components that have data all carry a
    configured weight of zero: a combiner set up for collaborative
    filtering only resolves the weights 0/0/0 for [u7], whose single view
    is below the minimum of the collaborative engine. *)
Lemma cf_only_weights_sum_to_zero :
  Weights.total (WeightedHybrid._calculate_adaptive_weights
                   Example.cf_only_hybrid Example.u7) == 0
  /\ ~ sums_to_one (WeightedHybrid._calculate_adaptive_weights
                      Example.cf_only_hybrid Example.u7).
Proof.
  split; [reflexivity|].
  unfold sums_to_one. vm_compute. intros H. apply H. reflexivity.
Qed.

(** ** Cache failures *)

(** C7: [get] and [set] of the cache client never raise.  When the client
    is not connected, or has no cluster object, [get] answers [None] and
    [set] answers [False]; so they do when the cluster command raises, when
    the stored text does not parse, and when the value does not
    serialize. *)
Theorem cache_failure_is_a_miss :
  forall (Value : Type)
         (json_loads : string -> Exc (option Value))
         (json_dumps : Value -> Exc string)
         (self : RedisClusterClient.t) (key : string)
         (value : Value) (expire : option Z),
    let get := RedisClusterClient.get json_loads self key in
    let set := RedisClusterClient.set json_dumps self key value expire in
    ((exists r, get = Return r) /\ (exists b, set = Return b))
    /\ (RedisClusterClient._connected self = false ->
        get = Return None /\ set = Return false)
    /\ (RedisClusterClient._cluster self = None ->
        get = Return None /\ set = Return false)
    /\ (forall c, RedisClusterClient._cluster self = Some c ->
                  raised (RedisClusterClient.cluster_get c key) ->
                  get = Return None)
    /\ (forall c text,
           RedisClusterClient._cluster self = Some c ->
           RedisClusterClient.cluster_get c key = Return (Some text) ->
           raised (json_loads text) ->
           get = Return None)
    /\ (raised (json_dumps value) -> set = Return false)
    /\ (forall c serialized_value,
           RedisClusterClient._cluster self = Some c ->
           json_dumps value = Return serialized_value ->
           raised (RedisClusterClient.cluster_set c key serialized_value expire) ->
           set = Return false).
Proof.
  intros Value json_loads json_dumps self key value expire get set.
  subst get set. unfold RedisClusterClient.get, RedisClusterClient.set,
    RedisClusterClient.cluster, raised.
  repeat split.
  - destruct (RedisClusterClient._connected self); simpl;
      [|eexists; reflexivity].
    destruct (RedisClusterClient._cluster self) as [c|]; simpl;
      [|eexists; reflexivity].
    destruct (RedisClusterClient.cluster_get c key) as [e|[[|a text]|]]; simpl;
      try (eexists; reflexivity).
    destruct (json_loads (String a text)); simpl; eexists; reflexivity.
  - destruct (RedisClusterClient._connected self); simpl;
      [|eexists; reflexivity].
    destruct (json_dumps value); simpl; [eexists; reflexivity|].
    destruct (RedisClusterClient._cluster self) as [c|]; simpl;
      [|eexists; reflexivity].
    destruct (RedisClusterClient.cluster_set c key a expire); simpl;
      eexists; reflexivity.
  - now rewrite H.
  - now rewrite H.
  - rewrite H. now destruct (RedisClusterClient._connected self).
  - rewrite H. destruct (RedisClusterClient._connected self); simpl;
      [|reflexivity].
    now destruct (json_dumps value).
  - intros c Hc [e He]. rewrite Hc. simpl. rewrite He.
    now destruct (RedisClusterClient._connected self).
  - intros c text Hc Hg [e He]. rewrite Hc. simpl. rewrite Hg.
    destruct (RedisClusterClient._connected self); simpl; [|reflexivity].
    destruct text; [reflexivity|]. now rewrite He.
  - intros [e He]. rewrite He.
    now destruct (RedisClusterClient._connected self).
  - intros c s Hc Hd [e He]. rewrite Hc, Hd. simpl. rewrite He.
    now destruct (RedisClusterClient._connected self).
Qed.

Lemma cache_failure_is_a_miss_witness :
  let get := RedisClusterClient.get CacheExample.json_loads in
  let set := RedisClusterClient.set CacheExample.json_dumps in
  (get RedisClusterClient.init "rec|u1|hybrid|10"%string = Return None
   /\ set RedisClusterClient.init "rec|u1|hybrid|10"%string "[]"%string
          (Some 1800%Z) = Return false)
  /\ get CacheExample.unreachable "rec|u1|hybrid|10"%string = Return None
  /\ get CacheExample.garbled "rec|u1|hybrid|10"%string = Return None
  /\ set CacheExample.garbled "rec|u1|hybrid|10"%string ""%string
         (Some 1800%Z) = Return false
  /\ set CacheExample.unreachable "rec|u1|hybrid|10"%string "[]"%string
         (Some 1800%Z) = Return false.
Proof.
  intros get set. subst get set.
  split.
  { apply (proj1 (proj2 (cache_failure_is_a_miss
                           CacheExample.json_loads CacheExample.json_dumps
                           RedisClusterClient.init _ _ _))).
    reflexivity. }
  split.
  { destruct (cache_failure_is_a_miss
                CacheExample.json_loads CacheExample.json_dumps
                CacheExample.unreachable "rec|u1|hybrid|10"%string
                "[]"%string (Some 1800%Z)) as (_ & _ & _ & H & _).
    apply (H CacheExample.failing_cluster); [reflexivity|].
    exists RedisError. reflexivity. }
  split.
  { destruct (cache_failure_is_a_miss
                CacheExample.json_loads CacheExample.json_dumps
                CacheExample.garbled "rec|u1|hybrid|10"%string
                "[]"%string (Some 1800%Z)) as (_ & _ & _ & _ & H & _).
    apply (H CacheExample.garbled_cluster "{"%string);
      [reflexivity | reflexivity |].
    exists JSONError. reflexivity. }
  split.
  { destruct (cache_failure_is_a_miss
                CacheExample.json_loads CacheExample.json_dumps
                CacheExample.garbled "rec|u1|hybrid|10"%string
                ""%string (Some 1800%Z)) as (_ & _ & _ & _ & _ & H & _).
    apply H. exists JSONError. reflexivity. }
  destruct (cache_failure_is_a_miss
              CacheExample.json_loads CacheExample.json_dumps
              CacheExample.unreachable "rec|u1|hybrid|10"%string
              "[]"%string (Some 1800%Z)) as (_ & _ & _ & _ & _ & _ & H).
  apply (H CacheExample.failing_cluster "[]"%string);
    [reflexivity | reflexivity |].
  exists RedisError. reflexivity.
Defined.

(** ** Exclusion *)

Lemma for_each_invariant {A S : Type} (P : S -> Prop)
    (body : S -> A -> Exc S) :
  (forall s x s', P s -> body s x = Return s' -> P s') ->
  forall l acc acc',
    P acc -> for_each l body acc = Return acc' -> P acc'.
Proof.
  intros Hbody. induction l as [|x t IH]; simpl; intros acc acc' Hp H.
  - now injection H as <-.
  - apply bind_inv in H as (s & Hs & H).
    eapply IH; [|exact H]. eapply Hbody; eassumption.
Qed.

Lemma mem_In (x : string) (l : list string) : mem x l = true <-> In x l.
Proof.
  unfold mem. rewrite existsb_exists. split.
  - intros (y & Hy & E). apply String.eqb_eq in E. now subst.
  - intros H. exists x. split; [exact H | apply String.eqb_refl].
Qed.

Lemma exclusion_test_sound (o : option (list uuid)) (x : uuid) :
  truthy_list o && mem x (opt_list o) = false -> ~ In x (opt_list o).
Proof.
  intros E Hin. apply mem_In in Hin. rewrite Hin in E.
  destruct o as [[|y t]|]; simpl in *; discriminate.
Qed.

(** The content engine, for a user with a profile, leaves out every
    excluded item. *)
Lemma content_profile_respects_exclusion :
  forall cosine e context profile l,
    ContentBased.is_trained e = true ->
    dict_get String.eqb (ContentBased.user_profiles e) (user_id context)
      = Some profile ->
    ContentBased.recommend cosine e context = Return l ->
    respects_exclusion context l.
Proof.
  unfold ContentBased.recommend, respects_exclusion.
  intros cosine e context profile l Ht Hp H x Hx Hin.
  rewrite Ht, Hp in H. simpl in H.
  apply bind_inv in H as (recs & Hrec & H). injection H as <-.
  apply in_map_iff in Hin as (item & <- & Hin).
  destruct (slice_to_firstn (sort_desc score recs) (num_recommendations context))
    as [k Hk].
  rewrite Hk in Hin. apply In_firstn in Hin.
  apply (Permutation_in _ (Permutation_sym (sort_desc_perm score recs))) in Hin.
  set (P := fun acc : list RecommendationItem =>
              forall it, In it acc ->
                         ~ In (item_id it) (opt_list (exclude_items context))).
  assert (HP : P recs).
  { eapply (for_each_invariant P); [| |exact Hrec]; [|intros it []].
    clear. intros s p s' Hs Hb.
    apply bind_inv in Hb as (id & _ & Hb).
    destruct (truthy_list (exclude_items context)
              && mem id (opt_list (exclude_items context))) eqn:E.
    { now injection Hb as <-. }
    apply exclusion_test_sound in E.
    apply bind_inv in Hb as (f & _ & Hb).
    destruct (truthy_list (include_categories context) && _);
      [now injection Hb as <-|].
    destruct (truthy_list (exclude_categories context) && _);
      [now injection Hb as <-|].
    injection Hb as <-. intros it Hi.
    apply in_app_or in Hi as [Hi | [<- | []]]; [now apply Hs | exact E]. }
  exact (HP item Hin Hx).
Qed.

(** C1 fails on the code: the trained example combiner, asked for [u1]
    with [exclude_items = [i6]], returns [i6].  The content engine leaves
    [i6] out, the user-based and matrix-factorization engines return it,
    and the combiner does not filter. *)
Theorem excluded_item_is_recommended :
  In Example.i6
     (opt_list (exclude_items
                  (Example.request Example.u1 10 (Some [Example.i6]))))
  /\ (exists l,
        WeightedHybrid.recommend
          Example.hybrid (Example.request Example.u1 10 (Some [Example.i6]))
        = Return l
        /\ In Example.i6 (map item_id l))
  /\ In Example.i6
        (map item_id
             (returned (UserBasedCF.recommend
                          Example.user_cf
                          (Example.request Example.u1 10 (Some [Example.i6])))))
  /\ In Example.i6
        (map item_id
             (returned (SVD.recommend
                          Example.np_log Example.svd
                          (Example.request Example.u1 10 (Some [Example.i6])))))
  /\ ~ In Example.i6
         (map item_id
              (returned (ContentBased.recommend
                           Example.cosine Example.content_based
                           (Example.request Example.u1 10
                                            (Some [Example.i6]))))).
Proof.
  split; [left; reflexivity|].
  split.
  { eexists. split; [vm_compute; reflexivity|]. vm_compute. tauto. }
  split; [vm_compute; tauto|].
  split; [vm_compute; tauto|].
  vm_compute. intros H.
  repeat (destruct H as [H|H]; [discriminate|]). exact H.
Qed.

(** ** Diversification *)

Section DictFacts.
Variables K V : Type.
Variable eqb : K -> K -> bool.
Hypothesis eqb_spec : forall x y, eqb x y = true <-> x = y.

Lemma eqb_same (x : K) : eqb x x = true.
Proof. now apply eqb_spec. Qed.

Lemma eqb_other (x y : K) : x <> y -> eqb x y = false.
Proof.
  intros H. destruct (eqb x y) eqn:E; [|reflexivity].
  apply eqb_spec in E. contradiction.
Qed.

Lemma dict_get_set_same (d : dict K V) (k : K) (v : V) :
  dict_get eqb (dict_set eqb d k v) k = Some v.
Proof.
  induction d as [|[k' v'] t IH]; simpl.
  - now rewrite eqb_same.
  - destruct (eqb k k') eqn:E; simpl; rewrite E; [reflexivity | exact IH].
Qed.

Lemma dict_get_set_other (d : dict K V) (k k' : K) (v : V) :
  k' <> k ->
  dict_get eqb (dict_set eqb d k v) k' = dict_get eqb d k'.
Proof.
  intros Hne. induction d as [|[k0 v0] t IH]; simpl.
  - now rewrite (eqb_other Hne).
  - destruct (eqb k k0) eqn:E; simpl.
    + apply eqb_spec in E. subst k0. now rewrite (eqb_other Hne).
    + now rewrite IH.
Qed.
End DictFacts.

Lemma diversify_loop_cap :
  forall categories max_per_category c recs counts,
    let seen := match dict_get String.eqb counts c with
                | Some n => n
                | None => 0%Z
                end in
    (count_category categories c
       (Base.diversify_loop categories max_per_category counts recs)
     <= Z.max 0 (max_per_category - seen))%Z.
Proof.
  intros categories mx c. unfold count_category.
  induction recs as [|item rest IH]; intros counts;
    cbn [Base.diversify_loop].
  - cbn [filter List.length Z.of_nat]. lia.
  - fold (category_of categories item).
    set (c0 := category_of categories item).
    set (current := match dict_get String.eqb counts c0 with
                    | Some n => n
                    | None => 0%Z
                    end).
    destruct (current <? mx)%Z eqn:E.
    + apply Z.ltb_lt in E. cbn [filter]. fold c0.
      specialize (IH (dict_set String.eqb counts c0 (current + 1)%Z)).
      destruct (String.eqb c0 c) eqn:Ec.
      * apply String.eqb_eq in Ec. subst c.
        rewrite (dict_get_set_same String.eqb String.eqb_eq) in IH.
        fold current. cbn [List.length].
        rewrite Nat2Z.inj_succ. lia.
      * apply String.eqb_neq in Ec.
        rewrite (dict_get_set_other String.eqb String.eqb_eq) in IH
          by congruence.
        exact IH.
    + apply IH.
Qed.

(** With a category map, the helper keeps at most [max_per_category] items
    of any category. *)
Lemma diversify_caps_every_category :
  forall recs categories max_per_category c,
    categories <> [] ->
    (0 <= max_per_category)%Z ->
    (count_category categories c
       (Base._diversify_recommendations recs categories max_per_category)
     <= max_per_category)%Z.
Proof.
  intros recs categories mx c Hne Hmx.
  unfold Base._diversify_recommendations.
  destruct categories as [|entry rest]; [contradiction|].
  pose proof (diversify_loop_cap (entry :: rest) mx c recs []) as H.
  cbn [dict_get] in H. cbv zeta in H. lia.
Qed.

Lemma diversify_loop_subsequence :
  forall categories max_per_category recs counts,
    subsequence (Base.diversify_loop categories max_per_category counts recs)
                recs.
Proof.
  intros categories mx. induction recs as [|item rest IH]; intros counts; simpl.
  - constructor.
  - destruct (_ <? mx)%Z; constructor; apply IH.
Qed.

Lemma subsequence_refl {A : Type} (l : list A) : subsequence l l.
Proof. induction l; constructor; assumption. Qed.

(** The helper keeps the surviving items in their relative order. *)
Lemma diversify_keeps_order :
  forall recs categories max_per_category,
    subsequence
      (Base._diversify_recommendations recs categories max_per_category) recs.
Proof.
  intros recs [|entry rest] mx; simpl.
  - apply subsequence_refl.
  - apply diversify_loop_subsequence.
Qed.

Lemma subsequence_Forall {A : Type} (P : A -> Prop) (s l : list A) :
  subsequence s l -> Forall P l -> Forall P s.
Proof.
  induction 1 as [|x s l Hs IH|x s l Hs IH]; intros Hf;
    inversion Hf; subst; try constructor; auto.
Qed.

Lemma subsequence_descending {A : Type} (key : A -> Q) (s l : list A) :
  subsequence s l -> descending key l -> descending key s.
Proof.
  unfold descending. induction 1 as [|x s l Hs IH|x s l Hs IH]; intros Hd.
  - constructor.
  - inversion Hd; subst. constructor; [auto|].
    eapply subsequence_Forall; eassumption.
  - inversion Hd; subst. auto.
Qed.

(** C5 fails on the code: with [diversify] set, the trained example
    combiner returns five comedy titles for [u1], two more than the cap of
    three; [recommend] never calls [_diversify_recommendations], which
    would have kept three of them. *)
Theorem diversify_flag_is_ignored :
  diversify (Example.request Example.u1 10 None) = true
  /\ exists l,
       WeightedHybrid.recommend Example.hybrid
                                (Example.request Example.u1 10 None)
       = Return l
       /\ count_category Example.categories "comedy" l = 5%Z
       /\ (Base.default_max_per_category < 5)%Z
       /\ count_category Example.categories "comedy"
            (Base._diversify_recommendations l Example.categories
                                             Base.default_max_per_category)
          = 3%Z.
Proof.
  split; [reflexivity|].
  eexists. split; [vm_compute; reflexivity|].
  split; [vm_compute; reflexivity|].
  split; [reflexivity|].
  vm_compute. reflexivity.
Qed.

(** ** Item similarity *)

Lemma insert_asc_perm {A : Type} (key : A -> Q) (x : A) (l : list A) :
  Permutation (x :: l) (insert_asc key x l).
Proof.
  induction l as [|y t IH]; simpl; [reflexivity|].
  destruct (Qltb (key y) (key x)); [|reflexivity].
  rewrite perm_swap. now constructor.
Qed.

Lemma map_fst_enumerate {A : Type} (l : list A) :
  map fst (enumerate l) = seq 0 (List.length l).
Proof.
  unfold enumerate. generalize 0%nat.
  induction l as [|x t IH]; intros n; simpl; [reflexivity|].
  now rewrite IH.
Qed.

(** [np.argsort] returns every index once. *)
Lemma argsort_permutation (a : list Q) :
  Permutation (argsort a) (seq 0 (List.length a)).
Proof.
  unfold argsort. rewrite <- map_fst_enumerate.
  apply Permutation_map.
  induction (enumerate a) as [|x t IH]; simpl; [constructor|].
  rewrite <- insert_asc_perm. now constructor.
Qed.

Lemma uniform_item_lookup (idx : nat) :
  (idx < 5)%nat ->
  dict_item Nat.eqb (ItemBasedCF.reverse_item_mapping Example.uniform_item_cf)
            idx
  = Return (nth idx Example.item_names ""%string)
  /\ getitem Example.uniform_row idx = Return 1.
Proof.
  intros H.
  do 5 (destruct idx as [|idx]; [split; vm_compute; reflexivity|]).
  lia.
Qed.

Lemma uniform_row_loop (rest : list nat) :
  (forall idx, In idx rest -> (idx < 5)%nat) ->
  forall acc,
    for_each rest
      (fun result idx =>
         similar_item <-
           dict_item Nat.eqb
                     (ItemBasedCF.reverse_item_mapping Example.uniform_item_cf)
                     idx ;;
         similarity_score <- getitem Example.uniform_row idx ;;
         Return (result ++ [(similar_item, similarity_score)]))
      acc
    = Return (acc ++ map (fun idx => (nth idx Example.item_names ""%string, 1))
                         rest).
Proof.
  induction rest as [|idx t IH]; intros Hlt acc; cbn [for_each map].
  - now rewrite app_nil_r.
  - destruct (uniform_item_lookup (Hlt idx (or_introl eq_refl))) as [-> ->].
    cbn [bind]. rewrite IH by (intros; apply Hlt; now right).
    now rewrite <- app_assoc.
Qed.

(** In the uniform tenant, asking for the ten nearest neighbours of an
    item returns the item itself, unless its index is the one that the
    descending order of the row puts first. *)
Lemma tied_query_returns_itself :
  forall (np_argsort : list Q -> list nat) (x : uuid) (k : nat),
    Permutation (np_argsort Example.uniform_row) (seq 0 5) ->
    dict_get String.eqb (ItemBasedCF.item_mapping Example.uniform_item_cf) x
    = Some k ->
    nth k Example.item_names ""%string = x ->
    (k < 5)%nat ->
    hd_error (rev (np_argsort Example.uniform_row)) <> Some k ->
    exists l,
      ItemBasedCF.get_item_similarity_with np_argsort Example.uniform_item_cf
                                           x 10
      = Return l
      /\ In x (map fst l).
Proof.
  intros np_argsort x k Hperm Hidx Hname Hk Hfirst.
  assert (Htrained : ItemBasedCF.is_trained Example.uniform_item_cf = true)
    by (vm_compute; reflexivity).
  assert (Hrow : getitem (ItemBasedCF.item_similarity_matrix
                            Example.uniform_item_cf) k
                 = Return Example.uniform_row).
  { do 5 (destruct k as [|k]; [vm_compute; reflexivity|]). lia. }
  unfold ItemBasedCF.get_item_similarity_with.
  rewrite Htrained, Hidx, Hrow. unfold bind at 1.
  set (p := np_argsort Example.uniform_row) in *.
  assert (Hlen : List.length (rev p) = 5%nat).
  { rewrite length_rev, (Permutation_length Hperm). apply length_seq. }
  destruct (rev p) as [|d rest] eqn:Erev; [discriminate|].
  assert (Hslice : slice (d :: rest) 1 (10 + 1) = rest).
  { unfold slice. rewrite Hlen.
    change (firstn 4 (skipn 1 (d :: rest)) = rest).
    cbn [skipn]. apply firstn_all2. simpl in Hlen. lia. }
  rewrite Hslice.
  assert (Hlt : forall idx, In idx rest -> (idx < 5)%nat).
  { intros idx Hin.
    assert (Hp : In idx p).
    { apply in_rev. rewrite Erev. now right. }
    apply (Permutation_in _ Hperm) in Hp. apply in_seq in Hp. lia. }
  rewrite uniform_row_loop by exact Hlt. eexists. split; [reflexivity|].
  simpl app. rewrite map_map. simpl.
  apply in_map_iff. exists k. split; [exact Hname|].
  assert (Hp : In k (rev p)).
  { apply in_rev. rewrite rev_involutive.
    apply (Permutation_in _ (Permutation_sym Hperm)). apply in_seq. lia. }
  rewrite Erev in Hp. destruct Hp as [-> | Hp]; [|exact Hp].
  exfalso. apply Hfirst. reflexivity.
Qed.

(** C4 fails on the item-based engine: it drops the first index of the
    descending order of the similarity row as "the item itself", but an
    item with a parallel interaction column ties with it.  In the engine
    trained on the uniform tenant all titles tie, so whatever order
    [np.argsort] gives to equal values, asking for the ten nearest
    neighbours of [i1] or of [i2] returns the queried item among them. *)
Theorem item_similarity_contains_queried_item :
  forall np_argsort : list Q -> list nat,
    (forall a, Permutation (np_argsort a) (seq 0 (List.length a))) ->
    exists x l,
      ItemBasedCF.is_trained Example.uniform_item_cf = true
      /\ In x [Example.i1; Example.i2]
      /\ ItemBasedCF.get_item_similarity_with
           np_argsort Example.uniform_item_cf x 10
         = Return l
      /\ In x (map fst l).
Proof.
  intros np_argsort Hperm.
  specialize (Hperm Example.uniform_row). simpl List.length in Hperm.
  destruct (Nat.eq_dec
              (match hd_error (rev (np_argsort Example.uniform_row)) with
               | Some d => d
               | None => 0%nat
               end) 0) as [E|E].
  - destruct (@tied_query_returns_itself np_argsort Example.i2 1 Hperm)
      as (l & Hl & Hin);
      try (vm_compute; reflexivity); [lia | |].
    + destruct (hd_error _); [|discriminate]. intros H. injection H as ->.
      discriminate.
    + exists Example.i2, l. repeat split; [right; left; reflexivity | |];
        assumption.
  - destruct (@tied_query_returns_itself np_argsort Example.i1 0 Hperm)
      as (l & Hl & Hin);
      try (vm_compute; reflexivity); [lia | |].
    + destruct (hd_error _); [|discriminate]. intros H. injection H as ->.
      now apply E.
    + exists Example.i1, l. repeat split; [left; reflexivity | |];
        assumption.
Qed.

Lemma item_similarity_contains_queried_item_witness :
  exists x l,
    In x [Example.i1; Example.i2]
    /\ ItemBasedCF.get_item_similarity Example.uniform_item_cf x 10 = Return l
    /\ In x (map fst l).
Proof.
  destruct (@item_similarity_contains_queried_item argsort argsort_permutation)
    as (x & l & _ & Hx & Hl & Hin).
  exists x, l. repeat split; assumption.
Defined.

(** With ties taken in index order, the ten nearest neighbours of [i1]
    are [i4], [i3], [i2] and [i1] itself. *)
Lemma item_similarity_of_i1 :
  ItemBasedCF.get_item_similarity Example.uniform_item_cf Example.i1 10
  = Return [("i4"%string, 1); ("i3"%string, 1); ("i2"%string, 1);
            (Example.i1, 1)].
Proof. vm_compute. reflexivity. Qed.

(** The content engine skips the queried index, so it never returns the
    queried item when [reverse_item_mapping] inverts [item_mapping], which
    is how [train] builds it; and it sorts what it returns. *)
Lemma content_similarity_excludes_query :
  forall cosine e x top_k l,
    (forall idx, dict_get Nat.eqb (ContentBased.reverse_item_mapping e) idx
                 = Some x ->
                 dict_get String.eqb (ContentBased.item_mapping e) x = Some idx) ->
    ContentBased.get_item_similarity cosine e x top_k = Return l ->
    ~ In x (map fst l) /\ descending snd l.
Proof.
  unfold ContentBased.get_item_similarity.
  intros cosine e x top_k l Hinv H.
  destruct (ContentBased.is_trained e);
    [|injection H as <-; split; [intros [] | constructor]].
  destruct (dict_get String.eqb (ContentBased.item_mapping e) x)
    as [item_idx|] eqn:Eidx;
    [|injection H as <-; split; [intros [] | constructor]].
  destruct (nth_error _ item_idx) as [row|]; [|discriminate].
  apply bind_inv in H as (sims & Hloop & H). injection H as <-.
  split; [|apply slice_to_descending, sort_desc_sorted].
  intros Hin. apply in_map_iff in Hin as (pr & Hfst & Hin).
  destruct (slice_to_firstn (sort_desc snd sims) top_k) as [k Hk].
  rewrite Hk in Hin. apply In_firstn in Hin.
  apply (Permutation_in _ (Permutation_sym (sort_desc_perm snd sims))) in Hin.
  set (P := fun acc : list (uuid * Q) => forall pr, In pr acc -> fst pr <> x).
  assert (HP : P sims).
  { eapply (for_each_invariant P); [| |exact Hloop]; [|intros ? []].
    intros s p s' Hs Hb.
    cbv beta zeta in Hb.
    destruct (Nat.eqb (fst p) item_idx) eqn:E; [now injection Hb as <-|].
    apply bind_inv in Hb as (other & Hother & Hb). injection Hb as <-.
    unfold dict_item in Hother.
    destruct (dict_get Nat.eqb _ (fst p)) as [u|] eqn:Eg; [|discriminate].
    injection Hother as Ho.
    intros q Hq. apply in_app_or in Hq as [Hq | [<- | []]]; [now apply Hs|].
    simpl. intros Hx. assert (Hu : u = x) by congruence.
    rewrite Hu in Eg. apply Hinv in Eg. injection Eg as Eg.
    rewrite <- Eg, Nat.eqb_refl in E. discriminate. }
  exact (HP pr Hin Hfst).
Qed.

(** ** The interaction matrix *)

Lemma row_value_cases (frame : list Interaction) (row : Interaction) :
  In row frame ->
  UserBasedCF.row_value frame row = written_value frame row.
Proof.
  intros Hin. unfold UserBasedCF.row_value, written_value.
  assert (Hcol : forall field q,
             field row = Some q -> DataFrame.has_column field frame = true).
  { intros field q Hq. unfold DataFrame.has_column.
    apply existsb_exists. exists row. split; [exact Hin | now rewrite Hq]. }
  destruct (i_rating row) as [r|] eqn:Er;
    destruct (i_interaction_value row) as [v|] eqn:Ev;
    try rewrite (Hcol i_rating _ Er); try rewrite (Hcol i_interaction_value _ Ev);
    simpl;
    try destruct (Qeq_bool r 0);
    try destruct (DataFrame.has_column i_rating frame);
    try destruct (DataFrame.has_column i_interaction_value frame);
    reflexivity.
Qed.

Lemma list_set_spec {A : Type} (l : list A) (i : nat) (v : A) :
  (i < List.length l)%nat ->
  exists l', list_set l i v = Some l'
             /\ List.length l' = List.length l
             /\ forall j, nth_error l' j
                          = if Nat.eqb j i then Some v else nth_error l j.
Proof.
  revert i. induction l as [|x t IH]; intros i Hi; simpl in Hi; [lia|].
  destruct i as [|i]; simpl.
  - eexists. split; [reflexivity|]. split; [reflexivity|].
    intros [|j]; reflexivity.
  - destruct (IH i) as (t' & -> & Hlen & Hnth); [lia|].
    simpl. eexists. split; [reflexivity|]. split; [simpl; lia|].
    intros [|j]; simpl; [reflexivity | apply Hnth].
Qed.

Lemma matrix_setitem_spec {A : Type} (nu ni : nat) (m : matrix A)
    (u i : nat) (v : A) :
  shaped nu ni m -> (u < nu)%nat -> (i < ni)%nat ->
  exists m', matrix_setitem m u i v = Return m'
             /\ shaped nu ni m'
             /\ forall u' i',
                 matrix_get m' u' i'
                 = if Nat.eqb u' u && Nat.eqb i' i then Some v
                   else matrix_get m u' i'.
Proof.
  intros [Hlen Hrows] Hu Hi. unfold matrix_setitem.
  destruct (nth_error m u) as [row|] eqn:Erow;
    [|apply nth_error_None in Erow; lia].
  assert (Hrow : List.length row = ni).
  { rewrite Forall_forall in Hrows. apply Hrows.
    eapply nth_error_In; eassumption. }
  destruct (@list_set_spec _ row i v) as (row' & -> & Hlen' & Hnth'); [lia|].
  destruct (@list_set_spec _ m u row') as (m' & -> & Hlenm & Hnthm); [lia|].
  exists m'. split; [reflexivity|]. split.
  - split; [lia|]. rewrite Forall_forall in *. intros r Hr.
    apply In_nth_error in Hr as [j Hj]. rewrite Hnthm in Hj.
    destruct (Nat.eqb j u).
    + injection Hj as <-. lia.
    + apply Hrows. eapply nth_error_In; eassumption.
  - intros u' i'. unfold matrix_get. rewrite Hnthm.
    destruct (Nat.eqb u' u) eqn:Eu; simpl.
    + apply Nat.eqb_eq in Eu. subst u'. rewrite Hnth', Erow.
      now destruct (Nat.eqb i' i).
    + reflexivity.
Qed.

Lemma find_last {A : Type} (f : A -> bool) (l : list A) (x : A) :
  find f (l ++ [x])
  = match find f l with
    | Some y => Some y
    | None => if f x then Some x else None
    end.
Proof.
  induction l as [|y t IH]; simpl; [reflexivity|].
  now destruct (f y).
Qed.

Lemma dict_item_found {K V : Type} (eqb : K -> K -> bool) (d : dict K V)
    (k : K) (v : V) :
  dict_get eqb d k = Some v -> dict_item eqb d k = Return v.
Proof. unfold dict_item. now intros ->. Qed.

Lemma fill_matrix_spec (frame : list Interaction)
    (um im : dict uuid nat) (nu ni : nat) :
  forall rows m,
    shaped nu ni m ->
    (forall r, In r rows ->
       exists u i, dict_get String.eqb um (i_user_id r) = Some u
                   /\ dict_get String.eqb im (i_item_id r) = Some i
                   /\ (u < nu)%nat /\ (i < ni)%nat) ->
    exists m',
      UserBasedCF.fill_matrix frame um im rows m = Return m'
      /\ shaped nu ni m'
      /\ forall u i,
          matrix_get m' u i
          = match last_write um im rows u i with
            | Some r => Some (UserBasedCF.row_value frame r)
            | None => matrix_get m u i
            end.
Proof.
  unfold UserBasedCF.fill_matrix, last_write.
  induction rows as [|r t IH]; intros m Hm Hrows; cbn [for_each].
  - exists m. repeat split; try apply Hm.
  - destruct (Hrows r (or_introl eq_refl)) as (u0 & i0 & Hu0 & Hi0 & Hlu & Hli).
    rewrite (dict_item_found _ _ _ Hu0), (dict_item_found _ _ _ Hi0).
    cbn [bind].
    destruct (@matrix_setitem_spec _ nu ni m u0 i0
                (UserBasedCF.row_value frame r) Hm Hlu Hli)
      as (m1 & -> & Hm1 & Hget1).
    cbn [bind].
    destruct (IH m1 Hm1) as (m' & -> & Hm' & Hget');
      [intros; apply Hrows; now right|].
    exists m'. split; [reflexivity|]. split; [exact Hm'|].
    intros u i. rewrite Hget'. cbn [rev]. rewrite find_last.
    destruct (find _ (rev t)); [reflexivity|].
    rewrite Hget1. unfold maps_to. rewrite Hu0, Hi0.
    rewrite (Nat.eqb_sym u u0), (Nat.eqb_sym i i0).
    now destruct (Nat.eqb u0 u && Nat.eqb i0 i).
Qed.

Lemma index_found (ids : list uuid) (x : uuid) :
  In x ids ->
  forall start,
  exists k, dict_get String.eqb (combine ids (seq start (List.length ids))) x
            = Some k
            /\ (start <= k < start + List.length ids)%nat.
Proof.
  induction ids as [|y t IH]; intros Hin start; [destruct Hin|].
  simpl. destruct (String.eqb x y) eqn:E.
  - exists start. split; [reflexivity | lia].
  - destruct Hin as [-> | Hin]; [rewrite String.eqb_refl in E; discriminate|].
    destruct (IH Hin (S start)) as (k & Hk & Hr).
    exists k. split; [exact Hk | lia].
Qed.

Lemma In_unique (x : uuid) (l : list uuid) : In x l -> In x (unique l).
Proof.
  induction l as [|y t IH]; intros Hin; [destruct Hin|].
  simpl. destruct (String.eqb x y) eqn:E.
  - apply String.eqb_eq in E. now left.
  - right. apply filter_In. destruct Hin as [-> | Hin].
    + rewrite String.eqb_refl in E. discriminate.
    + split; [now apply IH | now rewrite E].
Qed.

Lemma zeros_shaped {A : Type} (z : A) (nu ni : nat) :
  shaped nu ni (repeat (repeat z ni) nu)
  /\ forall u i, (u < nu)%nat -> (i < ni)%nat ->
                 matrix_get (repeat (repeat z ni) nu) u i = Some z.
Proof.
  split; [split|].
  - apply repeat_length.
  - apply Forall_forall. intros row Hrow. apply repeat_spec in Hrow.
    subst row. apply repeat_length.
  - intros u i Hu Hi. unfold matrix_get.
    rewrite nth_error_repeat by exact Hu. now apply nth_error_repeat.
Qed.

Lemma build_unfold (min_interactions : Z) (interactions : list Interaction) :
  let df := UserBasedCF.filter_frame min_interactions interactions in
  let um := UserBasedCF.index_of (unique (map i_user_id df)) in
  let im := UserBasedCF.index_of (unique (map i_item_id df)) in
  df <> [] ->
  UserBasedCF.build_user_item_matrix min_interactions interactions
  = (m <- UserBasedCF.fill_matrix interactions um im df
            (repeat (repeat (Fin 0)
                            (List.length (unique (map i_item_id df))))
                    (List.length (unique (map i_user_id df)))) ;;
     Return {| UserBasedCF.b_user_mapping := um;
               UserBasedCF.b_item_mapping := im;
               UserBasedCF.b_matrix := m |}).
Proof.
  cbv zeta. intros Hdf. unfold UserBasedCF.build_user_item_matrix.
  destruct interactions as [|r0 rest]; [now destruct Hdf|].
  destruct (UserBasedCF.filter_frame min_interactions (r0 :: rest));
    [now destruct Hdf | reflexivity].
Qed.

(** The overwrite policy of the loop.  When the minimum-interaction filter
    keeps at least one row, the matrix is built; every kept row maps to one
    of its cells; a cell that no kept row maps to holds 0; and a cell that
    kept rows map to holds the value written by the last of them in input
    order (rows overwrite, they are not summed), which [written_value]
    gives case by case. *)
Theorem matrix_cell_is_last_write :
  forall (min_interactions : Z) (interactions : list Interaction),
    UserBasedCF.filter_frame min_interactions interactions <> [] ->
    built_by_last_write min_interactions interactions.
Proof.
  intros min_interactions interactions Hdf. unfold built_by_last_write.
  set (df := UserBasedCF.filter_frame min_interactions interactions) in *.
  rewrite (build_unfold min_interactions interactions Hdf). fold df.
  set (users := unique (map i_user_id df)).
  set (items := unique (map i_item_id df)).
  set (um := UserBasedCF.index_of users).
  set (im := UserBasedCF.index_of items).
  assert (Hlu : List.length um = List.length users).
  { unfold um, UserBasedCF.index_of.
    rewrite length_combine, length_seq. apply Nat.min_id. }
  assert (Hli : List.length im = List.length items).
  { unfold im, UserBasedCF.index_of.
    rewrite length_combine, length_seq. apply Nat.min_id. }
  assert (Hrows : forall r, In r df ->
            exists u i, dict_get String.eqb um (i_user_id r) = Some u
                        /\ dict_get String.eqb im (i_item_id r) = Some i
                        /\ (u < List.length users)%nat
                        /\ (i < List.length items)%nat).
  { intros r Hr.
    destruct (@index_found users (i_user_id r)) with (start := 0%nat)
      as (u & Hu & Hru).
    { apply In_unique, in_map, Hr. }
    destruct (@index_found items (i_item_id r)) with (start := 0%nat)
      as (i & Hi & Hri).
    { apply In_unique, in_map, Hr. }
    exists u, i. repeat split; try assumption;
      [exact (proj2 Hru) | exact (proj2 Hri)]. }
  destruct (zeros_shaped (Fin 0) (List.length users) (List.length items))
    as [Hshape Hzero].
  destruct (@fill_matrix_spec interactions um im
              (List.length users) (List.length items) df _ Hshape Hrows)
    as (m & Hfill & Hm & Hget).
  rewrite Hfill. cbn [bind]. eexists. split; [reflexivity|].
  cbn [UserBasedCF.b_user_mapping UserBasedCF.b_item_mapping
       UserBasedCF.b_matrix].
  fold um im. rewrite Hlu, Hli.
  split; [exact Hm|]. split.
  - intros row Hrow. destruct (Hrows row Hrow) as (u & i & Hu & Hi & Hl).
    exists u, i. split; [|exact Hl].
    unfold maps_to. now rewrite Hu, Hi, !Nat.eqb_refl.
  - intros u i Hu Hi. rewrite Hget.
    destruct (last_write um im df u i) as [row|] eqn:El.
    + f_equal. apply row_value_cases.
      unfold last_write in El. apply find_some in El as [Hin _].
      apply in_rev in Hin. unfold df, UserBasedCF.filter_frame in Hin.
      now apply filter_In in Hin.
    + now apply Hzero.
Qed.

Lemma matrix_cell_is_last_write_witness :
  built_by_last_write 1 Example.rated_twice.
Proof.
  apply matrix_cell_is_last_write. vm_compute. discriminate.
Defined.

(** Two ratings of the same title by the same user: the later one stays,
    they are not added up. *)
Lemma rated_twice_keeps_the_later_rating :
  exists b,
    UserBasedCF.build_user_item_matrix 1 Example.rated_twice = Return b
    /\ matrix_get (UserBasedCF.b_matrix b) 0 0 = Some (Fin 5)
    /\ matrix_get (UserBasedCF.b_matrix b) 0 1 = Some (Fin 4).
Proof.
  eexists. split; [vm_compute; reflexivity|]. split; reflexivity.
Qed.

(** A rating of zero: the record has a rating, the specification puts that
    rating (0) in the cell, and the code, which tests the rating for truth,
    writes the default interaction value 1.0. *)
Lemma zero_rating_is_replaced :
  exists b row,
    Example.rated_zero = [row]
    /\ UserBasedCF.build_user_item_matrix 1 Example.rated_zero = Return b
    /\ maps_to (UserBasedCF.b_user_mapping b) (UserBasedCF.b_item_mapping b)
               0 0 row = true
    /\ matrix_get (UserBasedCF.b_matrix b) 0 0 = Some (Fin 1.0)
    /\ claimed_value row = Fin 0
    /\ ~ 1.0 == 0.
Proof.
  eexists. eexists. split; [reflexivity|].
  split; [vm_compute; reflexivity|].
  repeat split. discriminate.
Qed.

Lemma maps_to_unique (um im : dict uuid nat) (u i u' i' : nat)
    (row : Interaction) :
  maps_to um im u i row = true -> maps_to um im u' i' row = true ->
  u = u' /\ i = i'.
Proof.
  unfold maps_to.
  destruct (dict_get String.eqb um (i_user_id row)) as [a|]; [|discriminate].
  destruct (dict_get String.eqb im (i_item_id row)) as [b|]; [|discriminate].
  intros H1 H2.
  apply andb_true_iff in H1 as [H1a H1b].
  apply andb_true_iff in H2 as [H2a H2b].
  apply Nat.eqb_eq in H1a, H1b, H2a, H2b. subst. split; reflexivity.
Qed.

Lemma finite_row_nan (row : list pyfloat) :
  forall i, nth_error row i = Some NaN ->
            UserBasedCF.finite_row row = Raise ValueError.
Proof.
  induction row as [|x t IH]; intros [|i] H; cbn in H; try discriminate.
  - injection H as ->. reflexivity.
  - cbn [UserBasedCF.finite_row]. destruct x as [|q]; [reflexivity|].
    now rewrite (IH i H).
Qed.

Lemma finite_row_raises (row : list pyfloat) (e : exn) :
  UserBasedCF.finite_row row = Raise e -> e = ValueError.
Proof.
  induction row as [|x t IH]; cbn [UserBasedCF.finite_row]; [discriminate|].
  destruct x as [|q]; [congruence|].
  destruct (UserBasedCF.finite_row t) as [e'|r]; cbn [bind];
    [|discriminate].
  intros H. injection H as <-. now apply IH.
Qed.

Lemma finite_matrix_nan (m : matrix pyfloat) :
  forall u i, matrix_get m u i = Some NaN ->
              UserBasedCF.finite_matrix m = Raise ValueError.
Proof.
  unfold matrix_get.
  induction m as [|row t IH]; intros [|u] i H; cbn in H; try discriminate.
  - cbn [UserBasedCF.finite_matrix]. now rewrite (finite_row_nan row i H).
  - cbn [UserBasedCF.finite_matrix].
    destruct (UserBasedCF.finite_row row) as [e|r] eqn:E; cbn [bind].
    + now rewrite (finite_row_raises row E).
    + now rewrite (IH u i H).
Qed.

Lemma written_value_falsy (frame : list Interaction) (row : Interaction) :
  In row frame ->
  (forall r, i_rating row = Some r -> r == 0 ->
             written_value frame row = interaction_or_default frame row)
  /\ (i_rating row = None -> DataFrame.has_column i_rating frame = true ->
      written_value frame row = NaN).
Proof.
  intros Hin. unfold written_value, interaction_or_default. split.
  - intros r -> Hr. apply Qeq_bool_iff in Hr. rewrite Hr.
    destruct (i_interaction_value row) as [v|] eqn:Ev; [|reflexivity].
    replace (DataFrame.has_column i_interaction_value frame) with true;
      [reflexivity|].
    symmetry. unfold DataFrame.has_column. apply existsb_exists.
    exists row. split; [exact Hin | now rewrite Ev].
  - intros -> ->. reflexivity.
Qed.

(** C9 fails on the code: [train] tests the rating for truth where the
    claim asks whether a rating is present.  In every matrix that [train]
    builds, a cell whose last row has a rating of zero holds that row's
    interaction value (1.0 when the records carry none) instead of the
    rating; and a cell whose last row has no rating, in a frame where some
    record has one, holds NaN instead of the interaction value, after which
    [train] raises [ValueError]. *)
Theorem falsy_rating_is_not_written :
  forall (min_interactions : Z) (interactions : list Interaction),
    UserBasedCF.filter_frame min_interactions interactions <> [] ->
    exists b,
      UserBasedCF.build_user_item_matrix min_interactions interactions
      = Return b
      /\ forall u i row,
          last_write (UserBasedCF.b_user_mapping b)
                     (UserBasedCF.b_item_mapping b)
                     (UserBasedCF.filter_frame min_interactions interactions)
                     u i
          = Some row ->
          (forall r, i_rating row = Some r -> r == 0 ->
                     matrix_get (UserBasedCF.b_matrix b) u i
                     = Some (interaction_or_default interactions row))
          /\ (i_rating row = None ->
              DataFrame.has_column i_rating interactions = true ->
              matrix_get (UserBasedCF.b_matrix b) u i = Some NaN
              /\ forall cosine_similarity self,
                  UserBasedCF.min_interactions self = min_interactions ->
                  UserBasedCF.train cosine_similarity self interactions
                  = Raise ValueError).
Proof.
  intros min_interactions interactions Hdf.
  destruct (matrix_cell_is_last_write min_interactions interactions Hdf)
    as (b & Hb & Hshape & Hrows & Hcells).
  cbv zeta in Hrows, Hcells.
  exists b. split; [exact Hb|].
  intros u i row Hlast.
  assert (Hfind := Hlast). unfold last_write in Hfind.
  apply find_some in Hfind as [Hin Hmaps].
  apply in_rev in Hin.
  destruct (Hrows row Hin) as (u' & i' & Hmaps' & Hu' & Hi').
  destruct (maps_to_unique _ _ _ _ _ _ _ Hmaps Hmaps') as [<- <-].
  specialize (Hcells u i Hu' Hi'). rewrite Hlast in Hcells.
  assert (Hframe : In row interactions).
  { unfold UserBasedCF.filter_frame in Hin. now apply filter_In in Hin. }
  destruct (written_value_falsy interactions row Hframe) as [Hzero Hnone].
  split.
  - intros r Hr H0. rewrite Hcells. f_equal. exact (Hzero r Hr H0).
  - intros Hr Hcol.
    assert (Hnan : matrix_get (UserBasedCF.b_matrix b) u i = Some NaN).
    { rewrite Hcells. f_equal. exact (Hnone Hr Hcol). }
    split; [exact Hnan|].
    intros cosine_similarity self Hmin. unfold UserBasedCF.train.
    rewrite Hmin, Hb. cbn [bind].
    now rewrite (finite_matrix_nan _ _ _ Hnan).
Qed.

Lemma falsy_rating_is_not_written_witness :
  UserBasedCF.filter_frame 1 Example.rated_zero <> []
  /\ (exists b row,
         Example.rated_zero = [row]
         /\ UserBasedCF.build_user_item_matrix 1 Example.rated_zero = Return b
         /\ i_rating row = Some 0
         /\ matrix_get (UserBasedCF.b_matrix b) 0 0 = Some (Fin 1.0)
         /\ claimed_value row = Fin 0)
  /\ UserBasedCF.filter_frame 1 Sample.rating_missing <> []
  /\ (exists b,
         UserBasedCF.build_user_item_matrix 1 Sample.rating_missing = Return b
         /\ matrix_get (UserBasedCF.b_matrix b) 1 0 = Some NaN
         /\ claimed_value (Example.viewed "u2"%string Example.i1) = Fin 1.0
         /\ UserBasedCF.train Example.cosine_similarity (UserBasedCF.init 50 1)
                              Sample.rating_missing
            = Raise ValueError).
Proof.
  assert (H0 : UserBasedCF.filter_frame 1 Example.rated_zero <> [])
    by (vm_compute; discriminate).
  assert (H1 : UserBasedCF.filter_frame 1 Sample.rating_missing <> [])
    by (vm_compute; discriminate).
  split; [exact H0|]. split; [|split; [exact H1|]].
  - destruct (falsy_rating_is_not_written 1 Example.rated_zero H0)
      as (b & Hb & Hcells).
    exists b, (Example.rated "u1"%string Example.i1 0).
    split; [reflexivity|]. split; [exact Hb|]. split; [reflexivity|].
    split; [|reflexivity].
    assert (Hb' := Hb). vm_compute in Hb'. injection Hb' as Hb'.
    destruct (Hcells 0%nat 0%nat (Example.rated "u1"%string Example.i1 0)) as [Hzero _].
    { rewrite <- Hb'. reflexivity. }
    apply (Hzero 0); reflexivity.
  - destruct (falsy_rating_is_not_written 1 Sample.rating_missing H1)
      as (b & Hb & Hcells).
    exists b. split; [exact Hb|].
    assert (Hb' := Hb). vm_compute in Hb'. injection Hb' as Hb'.
    destruct (Hcells 1%nat 0%nat (Example.viewed "u2"%string Example.i1)) as [_ Hnone].
    { rewrite <- Hb'. reflexivity. }
    destruct (Hnone eq_refl eq_refl) as [Hnan Htrain].
    split; [exact Hnan|]. split; [reflexivity|].
    apply Htrain. reflexivity.
Defined.

(** A successful [train] stores the matrix built this way, and refuses a
    matrix with a NaN cell. *)
Lemma train_stores_built_matrix :
  forall cosine_similarity self interactions e,
    UserBasedCF.train cosine_similarity self interactions = Return e ->
    exists b,
      UserBasedCF.build_user_item_matrix (UserBasedCF.min_interactions self)
                                         interactions = Return b
      /\ UserBasedCF.finite_matrix (UserBasedCF.b_matrix b)
         = Return (UserBasedCF.user_item_matrix e)
      /\ UserBasedCF.user_mapping e = UserBasedCF.b_user_mapping b
      /\ UserBasedCF.item_mapping e = UserBasedCF.b_item_mapping b.
Proof.
  unfold UserBasedCF.train. intros cs self interactions e H.
  apply bind_inv in H as (b & Hb & H).
  apply bind_inv in H as (m & Hm & H).
  injection H as <-. exists b. now repeat split.
Qed.

(** ** Cold start *)

Lemma dict_set_keys {K V : Type} (eqb : K -> K -> bool)
    (eqb_spec : forall x y, eqb x y = true <-> x = y)
    (d : dict K V) (k : K) (v : V) :
  NoDup (dict_keys d) -> NoDup (dict_keys (dict_set eqb d k v))
  /\ forall k', In k' (dict_keys (dict_set eqb d k v))
                <-> k' = k \/ In k' (dict_keys d).
Proof.
  unfold dict_keys.
  induction d as [|[k0 v0] t IH]; simpl; intros Hnd.
  - split; [repeat constructor; intros []|]. intros k'. intuition.
  - inversion Hnd as [|? ? Hnotin Hnd']; subst.
    destruct (eqb k k0) eqn:E; simpl.
    + apply eqb_spec in E. subst k0. split; [exact Hnd|].
      intros k'. intuition.
    + destruct (IH Hnd') as [IH1 IH2]. split.
      * constructor; [|exact IH1]. intros Hin. apply IH2 in Hin.
        destruct Hin as [-> | Hin]; [|contradiction].
        rewrite (proj2 (eqb_spec k k) eq_refl) in E. discriminate.
      * intros k'. rewrite IH2. intuition.
Qed.

Lemma dict_get_In {K V : Type} (eqb : K -> K -> bool)
    (eqb_spec : forall x y, eqb x y = true <-> x = y)
    (d : dict K V) (k : K) (v : V) :
  NoDup (dict_keys d) -> In (k, v) d -> dict_get eqb d k = Some v.
Proof.
  unfold dict_keys.
  induction d as [|[k0 v0] t IH]; simpl; intros Hnd Hin; [destruct Hin|].
  inversion Hnd as [|? ? Hnotin Hnd']; subst.
  destruct Hin as [Heq | Hin].
  - injection Heq as -> ->. now rewrite (proj2 (eqb_spec k k) eq_refl).
  - destruct (eqb k k0) eqn:E; [|now apply IH].
    apply eqb_spec in E. subst k0. exfalso. apply Hnotin.
    apply in_map_iff. now exists (k, v).
Qed.

Lemma merge_one_spec (weight : Q) (method : string)
    (all : dict uuid Merged) (rec : RecommendationItem) :
  NoDup (dict_keys all) ->
  NoDup (dict_keys (WeightedHybrid.merge_one weight method all rec))
  /\ (forall x, In x (dict_keys (WeightedHybrid.merge_one weight method all rec))
                <-> x = item_id rec \/ In x (dict_keys all))
  /\ forall x,
      merged_score (WeightedHybrid.merge_one weight method all rec) x
      == merged_score all x
         + (if String.eqb (item_id rec) x then score rec * weight else 0).
Proof.
  intros Hnd. unfold WeightedHybrid.merge_one.
  destruct (dict_set_keys String.eqb String.eqb_eq all (item_id rec)
              {| m_score :=
                   m_score match dict_get String.eqb all (item_id rec) with
                           | Some e => e
                           | None => {| m_score := 0.0; m_methods := [] |}
                           end + score rec * weight;
                 m_methods :=
                   m_methods match dict_get String.eqb all (item_id rec) with
                             | Some e => e
                             | None => {| m_score := 0.0; m_methods := [] |}
                             end ++ [method] |} Hnd) as [H1 H2].
  split; [exact H1|]. split; [exact H2|].
  intros x. unfold merged_score.
  destruct (String.eqb (item_id rec) x) eqn:E.
  - apply String.eqb_eq in E. subst x.
    rewrite (dict_get_set_same String.eqb String.eqb_eq). simpl.
    destruct (dict_get String.eqb all (item_id rec)); simpl;
      [reflexivity | ring].
  - apply String.eqb_neq in E.
    rewrite (dict_get_set_other String.eqb String.eqb_eq) by congruence.
    ring.
Qed.

Lemma merge_spec (weight : Q) (method : string)
    (recs : list RecommendationItem) :
  forall all,
    NoDup (dict_keys all) ->
    let all' := WeightedHybrid._merge_recommendations all recs weight method in
    NoDup (dict_keys all')
    /\ (forall x, In x (dict_keys all')
                  <-> In x (map item_id recs) \/ In x (dict_keys all))
    /\ forall x, merged_score all' x
                 == merged_score all x + popularity recs x * weight.
Proof.
  unfold WeightedHybrid._merge_recommendations.
  induction recs as [|rec t IH]; intros all Hnd; simpl.
  - split; [exact Hnd|]. split; [intuition | intros x; ring].
  - destruct (@merge_one_spec weight method all rec Hnd) as (H1 & H2 & H3).
    destruct (IH _ H1) as (I1 & I2 & I3).
    split; [exact I1|]. split.
    + intros x. rewrite I2, H2. intuition.
    + intros x. rewrite I3, H3.
      destruct (String.eqb (item_id rec) x); ring.
Qed.

Lemma fan_out_all_weighted (h : WeightedHybrid.t)
    (ctx : RecommendationContext) (w : Weights.t) :
  Qltb 0 (Weights.collaborative w) = true ->
  Qltb 0 (Weights.content w) = true ->
  Qltb 0 (Weights.matrix_factorization w) = true ->
  WeightedHybrid.fan_out h ctx w
  = Return
      (WeightedHybrid._merge_recommendations
         (WeightedHybrid._merge_recommendations
            (WeightedHybrid._merge_recommendations
               []
               (collaborative_answer
                  (Engine.recommend (WeightedHybrid.user_cf h) ctx)
                  (Engine.recommend (WeightedHybrid.item_cf h) ctx))
               (Weights.collaborative w) "collaborative_filtering")
            (returned (Engine.recommend (WeightedHybrid.content_based h) ctx))
            (Weights.content w) "content_based")
         (returned (Engine.recommend (WeightedHybrid.matrix_factorization h) ctx))
         (Weights.matrix_factorization w) "matrix_factorization").
Proof.
  intros H1 H2 H3.
  unfold WeightedHybrid.fan_out, WeightedHybrid.ask, collaborative_answer,
    returned.
  rewrite H1, H2, H3.
  destruct (Engine.recommend (WeightedHybrid.user_cf h) ctx);
    destruct (Engine.recommend (WeightedHybrid.item_cf h) ctx);
    destruct (Engine.recommend (WeightedHybrid.content_based h) ctx);
    destruct (Engine.recommend (WeightedHybrid.matrix_factorization h) ctx);
    reflexivity.
Qed.

Lemma dict_mem_false {K V : Type} (eqb : K -> K -> bool) (d : dict K V)
    (k : K) :
  dict_mem eqb d k = false -> dict_get eqb d k = None.
Proof.
  unfold dict_mem. now destruct (dict_get eqb d k).
Qed.

(** Each engine answers an unknown user with its popularity ranking. *)
Lemma unknown_user_cold_start :
  forall (cosine : list Q -> list Q -> Q) (np_log : Z -> Q)
         (context : RecommendationContext),
    (forall e, UserBasedCF.is_trained e = true ->
               dict_mem String.eqb (UserBasedCF.user_mapping e)
                        (user_id context) = false ->
               UserBasedCF.recommend e context
               = UserBasedCF._cold_start_recommend e context)
    /\ (forall e, ItemBasedCF.is_trained e = true ->
                  dict_mem String.eqb (ItemBasedCF.user_mapping e)
                           (user_id context) = false ->
                  ItemBasedCF.recommend e context
                  = ItemBasedCF._cold_start_recommend e context)
    /\ (forall e, ContentBased.is_trained e = true ->
                  dict_mem String.eqb (ContentBased.user_profiles e)
                           (user_id context) = false ->
                  ContentBased.recommend cosine e context
                  = ContentBased._cold_start_recommend e context)
    /\ (forall e, SVD.is_trained e = true ->
                  dict_mem String.eqb (SVD.user_mapping e)
                           (user_id context) = false ->
                  SVD.recommend np_log e context
                  = SVD._cold_start_recommend np_log e context).
Proof.
  intros cosine np_log context. repeat split; intros e Ht Hm;
    apply dict_mem_false in Hm.
  - unfold UserBasedCF.recommend. now rewrite Ht, Hm.
  - unfold ItemBasedCF.recommend. now rewrite Ht, Hm.
  - unfold ContentBased.recommend. now rewrite Ht, Hm.
  - unfold SVD.recommend. now rewrite Ht, Hm.
Qed.

Lemma slice_to_nonempty {A : Type} (l : list A) (n : Z) :
  (0 < n)%Z -> l <> [] -> slice_to l n <> [].
Proof.
  intros Hn Hl. unfold slice_to, slice.
  assert (Ha : clamp_index (Z.of_nat (List.length l)) 0 = 0%Z).
  { unfold clamp_index. simpl. lia. }
  rewrite Ha. simpl skipn.
  destruct l as [|x t]; [contradiction|].
  assert (Hb : exists k, Z.to_nat (clamp_index (Z.of_nat (List.length (x :: t))) n - 0)
                         = S k).
  { unfold clamp_index. destruct (n <? 0)%Z eqn:E; [lia|].
    simpl List.length.
    exists (Z.to_nat (Z.min n (Z.of_nat (S (List.length t))) - 1)). lia. }
  destruct Hb as [k ->]. discriminate.
Qed.

Lemma merged_items_of_answers (cf ct mf : list RecommendationItem)
    (wc wt wm : Q) (mc mt mm : string) :
  let all :=
    WeightedHybrid._merge_recommendations
      (WeightedHybrid._merge_recommendations
         (WeightedHybrid._merge_recommendations [] cf wc mc) ct wt mt)
      mf wm mm in
  (forall id e, In (id, e) all ->
     In id (map item_id cf ++ map item_id ct ++ map item_id mf)
     /\ m_score e == wc * popularity cf id + wt * popularity ct id
                     + wm * popularity mf id)
  /\ ((cf <> [] \/ ct <> [] \/ mf <> []) -> all <> []).
Proof.
  intros all. subst all.
  destruct (@merge_spec wc mc cf [] (NoDup_nil _)) as (N1 & K1 & S1).
  destruct (@merge_spec wt mt ct _ N1) as (N2 & K2 & S2).
  destruct (@merge_spec wm mm mf _ N2) as (N3 & K3 & S3).
  cbv zeta in *.
  set (all := WeightedHybrid._merge_recommendations _ mf wm mm) in *.
  split.
  - intros id e Hin.
    assert (Hkey : In id (dict_keys all)).
    { unfold dict_keys. apply in_map_iff. now exists (id, e). }
    split.
    + apply K3 in Hkey. rewrite !in_app_iff.
      destruct Hkey as [Hk | Hk]; [auto|].
      apply K2 in Hk. destruct Hk as [Hk | Hk]; [auto|].
      apply K1 in Hk. destruct Hk as [Hk | []]. auto.
    + pose proof (S3 id) as Hs. unfold merged_score at 1 in Hs.
      rewrite (dict_get_In String.eqb String.eqb_eq all id e N3 Hin) in Hs.
      rewrite Hs, S2, S1. unfold merged_score. simpl. ring.
  - intros Hne Hall.
    assert (Hnone : forall x, ~ In x (dict_keys all)).
    { intros x. rewrite Hall. intros []. }
    assert (Hnil : forall l : list RecommendationItem,
               (forall x, ~ In x (map item_id l)) -> l = []).
    { intros [|it t] Hl; [reflexivity|]. exfalso. apply (Hl (item_id it)).
      now left. }
    destruct Hne as [Hne | [Hne | Hne]]; apply Hne, Hnil; intros x Hx;
      apply (Hnone x), K3; [right; apply K2; right; apply K1 | right; apply K2 | ];
      auto.
Qed.

(** C6, as the code has it: for a user unknown to every trained component
    and a request with a non-negative [num_recommendations], the combiner
    returns, without raising, at most that many items, sorted descending by
    score.  Each component answers such a request with its popularity
    ranking cut to [num_recommendations] items (a component that raises
    answers nothing; the item-based answer stands in for a user-based one
    that raises).  Every returned item is in one of these answers, and its
    score is 0.33 times its score in the collaborative answer plus 0.33
    times that in the content answer plus 0.34 times that in the
    matrix-factorization answer, an answer that does not hold the item
    counting 0.  The list is not empty when some answer is not empty and
    at least one item is asked for. *)
Theorem cold_start_recommend_is_popularity_ranking :
  forall (h0 : WeightedHybrid.t) (cosine : list Q -> list Q -> Q)
         (np_log : Z -> Q) (ucf : UserBasedCF.t) (icf : ItemBasedCF.t)
         (cb : ContentBased.t) (svd : SVD.t)
         (context : RecommendationContext),
    let h := hybrid_over h0 cosine np_log ucf icf cb svd in
    let user := user_id context in
    WeightedHybrid.is_trained h0 = true ->
    WeightedHybrid.adaptive_weights h0 = true ->
    UserBasedCF.is_trained ucf = true ->
    ItemBasedCF.is_trained icf = true ->
    ContentBased.is_trained cb = true ->
    SVD.is_trained svd = true ->
    dict_mem String.eqb (UserBasedCF.user_mapping ucf) user = false ->
    dict_mem String.eqb (ItemBasedCF.user_mapping icf) user = false ->
    dict_mem String.eqb (ContentBased.user_profiles cb) user = false ->
    dict_mem String.eqb (SVD.user_mapping svd) user = false ->
    (0 <= num_recommendations context)%Z ->
    let cf := collaborative_answer
                (UserBasedCF._cold_start_recommend ucf context)
                (ItemBasedCF._cold_start_recommend icf context) in
    let ct := returned (ContentBased._cold_start_recommend cb context) in
    let mf := returned (SVD._cold_start_recommend np_log svd context) in
    exists l,
      WeightedHybrid.recommend h context = Return l
      /\ within_request context l
      /\ descending score l
      /\ within_request context cf
      /\ within_request context ct
      /\ within_request context mf
      /\ (forall item, In item l ->
            In (item_id item)
               (map item_id cf ++ map item_id ct ++ map item_id mf)
            /\ score item == 0.33 * popularity cf (item_id item)
                             + 0.33 * popularity ct (item_id item)
                             + 0.34 * popularity mf (item_id item))
      /\ (cf <> [] \/ ct <> [] \/ mf <> [] ->
          (0 < num_recommendations context)%Z -> l <> []).
Proof.
  intros h0 cosine np_log ucf icf cb svd ctx h user
         Hh Ha Hu Hi Hc Hs Mu Mi Mc Ms Hn cf ct mf.
  destruct (unknown_user_cold_start cosine np_log ctx) as (Cu & Ci & Cc & Cs).
  assert (Bnil : within_request ctx []) by (unfold within_request; simpl; lia).
  assert (Bcf : within_request ctx cf).
  { subst cf. unfold collaborative_answer, returned.
    destruct (UserBasedCF._cold_start_recommend ucf ctx) as [e|l] eqn:Eu.
    - destruct (ItemBasedCF._cold_start_recommend icf ctx) as [e'|l] eqn:Ei;
        [exact Bnil|].
      apply (@item_cf_bounded icf ctx l Hn). now rewrite (Ci icf Hi Mi).
    - apply (@user_cf_bounded ucf ctx l Hn). now rewrite (Cu ucf Hu Mu). }
  assert (Bct : within_request ctx ct).
  { subst ct. unfold returned.
    destruct (ContentBased._cold_start_recommend cb ctx) as [e|l] eqn:Ec;
      [exact Bnil|].
    apply (@content_bounded cosine cb ctx l Hn). now rewrite (Cc cb Hc Mc). }
  assert (Bmf : within_request ctx mf).
  { subst mf. unfold returned.
    destruct (SVD._cold_start_recommend np_log svd ctx) as [e|l] eqn:Es;
      [exact Bnil|].
    apply (@svd_bounded np_log svd ctx l Hn). now rewrite (Cs svd Hs Ms). }
  assert (Hw : WeightedHybrid._calculate_adaptive_weights h (user_id ctx)
               = cold_start_weights).
  { unfold WeightedHybrid._calculate_adaptive_weights. subst h user. simpl.
    now rewrite Ha, Mu, Mc, Ms. }
  unfold WeightedHybrid.recommend.
  replace (WeightedHybrid.is_trained h) with true by (symmetry; exact Hh).
  rewrite Hw. cbn [negb].
  rewrite fan_out_all_weighted by reflexivity.
  replace (Engine.recommend (WeightedHybrid.user_cf h) ctx)
    with (UserBasedCF._cold_start_recommend ucf ctx)
    by (symmetry; apply (Cu ucf Hu Mu)).
  replace (Engine.recommend (WeightedHybrid.item_cf h) ctx)
    with (ItemBasedCF._cold_start_recommend icf ctx)
    by (symmetry; apply (Ci icf Hi Mi)).
  replace (Engine.recommend (WeightedHybrid.content_based h) ctx)
    with (ContentBased._cold_start_recommend cb ctx)
    by (symmetry; apply (Cc cb Hc Mc)).
  replace (Engine.recommend (WeightedHybrid.matrix_factorization h) ctx)
    with (SVD._cold_start_recommend np_log svd ctx)
    by (symmetry; apply (Cs svd Hs Ms)).
  fold cf ct mf. cbn [bind].
  destruct (merged_items_of_answers cf ct mf
              (Weights.collaborative cold_start_weights)
              (Weights.content cold_start_weights)
              (Weights.matrix_factorization cold_start_weights)
              "collaborative_filtering" "content_based" "matrix_factorization")
    as [Hitems Hnonempty].
  cbv zeta in Hitems, Hnonempty.
  set (all := WeightedHybrid._merge_recommendations _ mf _ _) in *.
  eexists. split; [reflexivity|].
  split; [now apply within_slice_to|].
  split; [apply slice_to_descending, sort_desc_sorted|].
  split; [exact Bcf|]. split; [exact Bct|]. split; [exact Bmf|].
  split.
  - intros item Hin.
    destruct (slice_to_firstn (sort_desc score (map WeightedHybrid.to_item all))
                              (num_recommendations ctx)) as [k Hk].
    rewrite Hk in Hin. apply In_firstn in Hin.
    apply (Permutation_in _ (Permutation_sym (sort_desc_perm score _))) in Hin.
    apply in_map_iff in Hin as ([id e] & <- & Hin).
    apply Hitems in Hin. exact Hin.
  - intros Hne Hpos. apply slice_to_nonempty; [exact Hpos|].
    intros Hnil.
    assert (Hlen : List.length (map WeightedHybrid.to_item all) = 0%nat).
    { rewrite (Permutation_length (sort_desc_perm score _)), Hnil.
      reflexivity. }
    rewrite length_map in Hlen. apply length_zero_iff_nil in Hlen.
    now apply Hnonempty.
Qed.

Lemma cold_start_recommend_is_popularity_ranking_witness :
  let h := hybrid_over Example.hybrid Example.cosine Example.np_log
                       Example.user_cf Example.item_cf Example.content_based
                       Example.svd in
  let context := Example.request Example.newcomer 3 None in
  exists l,
    WeightedHybrid.recommend h context = Return l
    /\ within_request context l
    /\ descending score l
    /\ l <> [].
Proof.
  intros h context.
  destruct (@cold_start_recommend_is_popularity_ranking
              Example.hybrid Example.cosine Example.np_log
              Example.user_cf Example.item_cf Example.content_based
              Example.svd context)
    as (l & Hl & Hb & Hd & _ & _ & _ & _ & Hne);
    try reflexivity; [vm_compute; discriminate|].
  exists l. repeat split; try assumption.
  apply Hne; [left; vm_compute; discriminate | reflexivity].
Defined.

(** C6 as stated fails on a negative request size: for the newcomer and
    [num_recommendations = -1] the trained example combiner returns five
    items. *)
Lemma newcomer_negative_request_exceeds_bound :
  unknown_everywhere Example.hybrid Example.newcomer
  /\ exists l,
       WeightedHybrid.recommend Example.hybrid
                                (Example.request Example.newcomer (-1) None)
       = Return l
       /\ List.length l = 5%nat
       /\ ~ within_request (Example.request Example.newcomer (-1) None) l.
Proof.
  split; [repeat split|].
  eexists. split; [vm_compute; reflexivity|].
  split; [reflexivity|].
  unfold within_request. simpl. lia.
Qed.

(** The components cut their rankings before the combiner merges them.
    Asked for three items for the newcomer, the example combiner returns
    [i1], [i3] and [i2], scoring [i2] from the matrix-factorization answer
    alone (0.34 x 1.792 = 0.60928), because the collaborative and the
    content answer for three items do not hold it; asked for ten, it scores
    [i2] 1.04928 and ranks [i4] before it. *)
Lemma newcomer_scores_follow_the_cut_answers :
  map item_id
      (returned (WeightedHybrid.recommend
                   Example.hybrid (Example.request Example.newcomer 3 None)))
  = [Example.i1; "i3"%string; Example.i2]
  /\ popularity
       (returned (WeightedHybrid.recommend
                    Example.hybrid (Example.request Example.newcomer 3 None)))
       Example.i2
     == 0.60928
  /\ popularity
       (returned (UserBasedCF._cold_start_recommend
                    Example.user_cf (Example.request Example.newcomer 3 None)))
       Example.i2
     == 0
  /\ popularity
       (returned (ContentBased._cold_start_recommend
                    Example.content_based
                    (Example.request Example.newcomer 3 None)))
       Example.i2
     == 0
  /\ popularity
       (returned (SVD._cold_start_recommend
                    Example.np_log Example.svd
                    (Example.request Example.newcomer 3 None)))
       Example.i2
     == 1.792
  /\ firstn 4
       (map item_id
            (returned (WeightedHybrid.recommend
                         Example.hybrid
                         (Example.request Example.newcomer 10 None))))
     = [Example.i1; "i3"%string; "i4"%string; Example.i2]
  /\ popularity
       (returned (WeightedHybrid.recommend
                    Example.hybrid (Example.request Example.newcomer 10 None)))
       Example.i2
     == 1.04928.
Proof.
  repeat split; vm_compute; reflexivity.
Qed.

(** ** Helpers that the combiner leaves unused, and its similarity query *)

(** [_apply_filters], which no engine calls, leaves out every excluded
    item and respects a non-negative request size. *)
Lemma apply_filters_respects_exclusion :
  forall recommendations context item_metadata,
    respects_exclusion context
      (Base._apply_filters recommendations context item_metadata)
    /\ ((0 <= num_recommendations context)%Z ->
        within_request context
          (Base._apply_filters recommendations context item_metadata)).
Proof.
  intros recs context md. unfold Base._apply_filters. split.
  - intros x Hx Hin. apply in_map_iff in Hin as (item & <- & Hin).
    destruct (slice_to_firstn (filter (Base.keeps context md) recs)
                              (num_recommendations context)) as [k Hk].
    rewrite Hk in Hin. apply In_firstn in Hin.
    apply filter_In in Hin as [_ Hkeep]. unfold Base.keeps in Hkeep.
    destruct (Qltb (score item) (min_score context)); [discriminate|].
    destruct (truthy_list (exclude_items context)
              && mem (item_id item) (opt_list (exclude_items context))) eqn:E;
      [discriminate|].
    now apply exclusion_test_sound in E.
  - apply within_slice_to.
Qed.

(** The combiner's similarity query answers with the content engine's list
    whenever that engine does not raise, and never raises itself. *)
Lemma hybrid_similarity_prefers_content :
  forall h item top_k,
    (exists l, WeightedHybrid.get_item_similarity h item top_k = Return l)
    /\ forall l,
        Engine.get_item_similarity (WeightedHybrid.content_based h) item top_k
        = Return l ->
        WeightedHybrid.get_item_similarity h item top_k = Return l.
Proof.
  intros h item top_k. unfold WeightedHybrid.get_item_similarity. split.
  - destruct (Engine.get_item_similarity (WeightedHybrid.content_based h) _ _);
      simpl; [|eexists; reflexivity].
    destruct (Engine.get_item_similarity (WeightedHybrid.item_cf h) _ _);
      simpl; [|eexists; reflexivity].
    destruct (Engine.get_item_similarity
                (WeightedHybrid.matrix_factorization h) _ _);
      simpl; eexists; reflexivity.
  - intros l ->. reflexivity.
Qed.

(* ===================================================================== *)
(** * Further properties of the engines *)
(* ===================================================================== *)

(** ** base.py: the two helpers and the ensemble *)

(** X1: given a category map that is not empty and a non-negative cap,
    [_diversify_recommendations] returns items of its input in their input
    order, and at most [max_per_category] of them in any one category
    (items without a category count under "unknown"). *)
Theorem diversify_caps_and_keeps_order :
  forall (recs : list RecommendationItem) (categories : dict uuid string)
         (max_per_category : Z),
    categories <> [] ->
    (0 <= max_per_category)%Z ->
    let l := Base._diversify_recommendations recs categories max_per_category in
    subsequence l recs
    /\ forall c, (count_category categories c l <= max_per_category)%Z.
Proof.
  intros recs categories mx Hne Hmx l. split.
  - apply diversify_keeps_order.
  - intros c. now apply diversify_caps_every_category.
Qed.

Lemma diversify_caps_and_keeps_order_witness :
  let l := Base._diversify_recommendations Sample.ranking Example.categories 3 in
  subsequence l Sample.ranking
  /\ forall c, (count_category Example.categories c l <= 3)%Z.
Proof.
  apply (@diversify_caps_and_keeps_order Sample.ranking Example.categories 3).
  - discriminate.
  - lia.
Defined.

Lemma count_category_cons (categories : dict uuid string) (c : string)
    (item : RecommendationItem) (rest : list RecommendationItem) :
  count_category categories c (item :: rest)
  = ((if String.eqb (category_of categories item) c then 1 else 0)
     + count_category categories c rest)%Z.
Proof.
  unfold count_category. cbn [filter].
  destruct (String.eqb (category_of categories item) c);
    cbn [List.length]; lia.
Qed.

Lemma diversify_loop_within_cap (categories : dict uuid string) (mx : Z) :
  forall recs counts,
    (forall c, (match dict_get String.eqb counts c with
                | Some n => n
                | None => 0
                end + count_category categories c recs <= mx)%Z) ->
    Base.diversify_loop categories mx counts recs = recs.
Proof.
  induction recs as [|item rest IH]; intros counts H; cbn [Base.diversify_loop].
  - reflexivity.
  - fold (category_of categories item).
    set (c0 := category_of categories item) in *.
    set (current := match dict_get String.eqb counts c0 with
                    | Some n => n
                    | None => 0%Z
                    end).
    assert (Hc0 := H c0). rewrite count_category_cons in Hc0.
    fold c0 in Hc0. rewrite String.eqb_refl in Hc0. fold current in Hc0.
    assert (Hpos : (0 <= count_category categories c0 rest)%Z)
      by (unfold count_category; lia).
    destruct (current <? mx)%Z eqn:E; [|apply Z.ltb_ge in E; lia].
    f_equal. apply IH. intros c.
    specialize (H c). rewrite count_category_cons in H. fold c0 in H.
    destruct (String.eqb c0 c) eqn:Ec.
    + apply String.eqb_eq in Ec. subst c.
      rewrite (dict_get_set_same String.eqb String.eqb_eq).
      fold current in H. lia.
    + apply String.eqb_neq in Ec.
      rewrite (dict_get_set_other String.eqb String.eqb_eq) by congruence.
      exact H.
Qed.

Lemma diversify_loop_nothing (categories : dict uuid string) (mx : Z)
    (recs : list RecommendationItem) :
  (mx <= 0)%Z -> Base.diversify_loop categories mx [] recs = [].
Proof.
  intros Hmx. induction recs as [|item rest IH]; cbn [Base.diversify_loop dict_get].
  - reflexivity.
  - destruct (0 <? mx)%Z eqn:E; [apply Z.ltb_lt in E; lia | exact IH].
Qed.

(** X2: [_diversify_recommendations] returns its input unchanged when no
    category holds more than [max_per_category] items of it, and applying
    it a second time changes nothing. *)
Theorem diversify_is_idempotent :
  forall (recs : list RecommendationItem) (categories : dict uuid string)
         (max_per_category : Z),
    ((forall c, (count_category categories c recs <= max_per_category)%Z) ->
     Base._diversify_recommendations recs categories max_per_category = recs)
    /\ Base._diversify_recommendations
         (Base._diversify_recommendations recs categories max_per_category)
         categories max_per_category
       = Base._diversify_recommendations recs categories max_per_category.
Proof.
  intros recs categories mx.
  assert (Hid : forall l,
             (forall c, (count_category categories c l <= mx)%Z) ->
             Base._diversify_recommendations l categories mx = l).
  { intros l H. unfold Base._diversify_recommendations.
    destruct categories as [|entry rest]; [reflexivity|].
    apply diversify_loop_within_cap. intros c. cbn [dict_get]. apply H. }
  split; [apply Hid|].
  destruct categories as [|entry rest]; [reflexivity|].
  destruct (Z.le_gt_cases 0 mx) as [Hmx|Hmx].
  - apply Hid. intros c. apply diversify_caps_every_category;
      [discriminate | exact Hmx].
  - unfold Base._diversify_recommendations.
    rewrite (@diversify_loop_nothing (entry :: rest) mx recs) by lia.
    reflexivity.
Qed.

Lemma diversify_is_idempotent_witness :
  Base._diversify_recommendations (firstn 3 Sample.ranking) Example.categories 3
  = firstn 3 Sample.ranking.
Proof.
  apply (proj1 (diversify_is_idempotent (firstn 3 Sample.ranking)
                                        Example.categories 3)).
  intros c. unfold count_category.
  pose proof (filter_length_le
    (fun item => String.eqb (category_of Example.categories item) c)
    (firstn 3 Sample.ranking)) as H.
  change (List.length (firstn 3 Sample.ranking)) with 3%nat in H.
  lia.
Defined.

Lemma truthy_list_false_nil {A : Type} (o : option (list A)) :
  truthy_list o = false -> opt_list o = [].
Proof. destruct o as [[|x l]|]; simpl; congruence. Qed.

Lemma keeps_passes (context : RecommendationContext)
    (item_metadata : dict uuid (option string)) (item : RecommendationItem) :
  Base.keeps context item_metadata item = true
  <-> passes context item_metadata item.
Proof.
  unfold Base.keeps, passes. fold (metadata_category item_metadata item).
  destruct (Qltb (score item) (min_score context)) eqn:Es.
  { apply Qltb_true in Es. split; [discriminate|].
    intros [H _]. exfalso. apply (Qlt_not_le _ _ Es H). }
  apply Qltb_false in Es.
  destruct (truthy_list (exclude_items context)
            && mem (item_id item) (opt_list (exclude_items context))) eqn:Ex.
  { apply andb_true_iff in Ex as [_ Ex]. apply mem_In in Ex.
    split; [discriminate|]. intros (_ & H & _). contradiction. }
  apply exclusion_test_sound in Ex.
  destruct (metadata_category item_metadata item) as [c|] eqn:Ec.
  - destruct (truthy_list (include_categories context)
              && negb (mem c (opt_list (include_categories context)))) eqn:Ei.
    { apply andb_true_iff in Ei as [Ei1 Ei2]. apply negb_true_iff in Ei2.
      split; [discriminate|]. intros (_ & _ & H & _).
      destruct (H Ei1) as (c' & Hc' & Hin). inversion Hc'; subst c'.
      apply mem_In in Hin. congruence. }
    destruct (truthy_list (exclude_categories context)
              && mem c (opt_list (exclude_categories context))) eqn:Ee.
    { apply andb_true_iff in Ee as [_ Ee]. apply mem_In in Ee.
      split; [discriminate|]. intros (_ & _ & _ & H).
      exfalso. exact (H c eq_refl Ee). }
    split; [intros _|reflexivity].
    repeat split; try assumption.
    + intros Ht. exists c. split; [reflexivity|].
      rewrite Ht in Ei. cbn [andb] in Ei. apply negb_false_iff in Ei.
      now apply mem_In.
    + intros c' Hc'. inversion Hc'; subst c'.
      now apply exclusion_test_sound.
  - cbn [negb]. rewrite andb_true_r, andb_false_r.
    destruct (truthy_list (include_categories context)) eqn:Ei.
    + split; [discriminate|]. intros (_ & _ & H & _).
      destruct (H eq_refl) as (c & Hc & _). discriminate.
    + split; [intros _|reflexivity].
      repeat split; try assumption; [discriminate | intros c; discriminate].
Qed.

Lemma filter_subsequence {A : Type} (f : A -> bool) (l : list A) :
  subsequence (filter f l) l.
Proof.
  induction l as [|x l IH]; cbn [filter]; [constructor|].
  destruct (f x); constructor; exact IH.
Qed.

Lemma firstn_subsequence {A : Type} (l : list A) :
  forall k, subsequence (firstn k l) l.
Proof.
  induction l as [|x l IH]; intros [|k]; cbn [firstn]; try constructor.
  - clear IH. induction l; constructor; assumption.
  - apply IH.
Qed.

Lemma subsequence_trans {A : Type} (a b c : list A) :
  subsequence a b -> subsequence b c -> subsequence a c.
Proof.
  intros Hab Hbc. revert a Hab.
  induction Hbc as [|x s l Hsl IH|x s l Hsl IH]; intros a Hab.
  - exact Hab.
  - inversion Hab; subst.
    + constructor. now apply IH.
    + apply subseq_drop. now apply IH.
  - apply subseq_drop. now apply IH.
Qed.

Lemma slice_to_subsequence {A : Type} (l : list A) (n : Z) :
  subsequence (slice_to l n) l.
Proof.
  destruct (slice_to_firstn l n) as [k ->]. apply firstn_subsequence.
Qed.

Lemma slice_to_all {A : Type} (l : list A) (n : Z) :
  (Z.of_nat (List.length l) <= n)%Z -> slice_to l n = l.
Proof.
  intros H. unfold slice_to, slice, clamp_index.
  assert (Hn : (n <? 0)%Z = false) by (apply Z.ltb_ge; lia).
  rewrite Hn. change (0 <? 0)%Z with false. cbv iota.
  replace (Z.min 0 (Z.of_nat (List.length l))) with 0%Z by lia.
  replace (Z.min n (Z.of_nat (List.length l)))
    with (Z.of_nat (List.length l)) by lia.
  rewrite Z.sub_0_r, Nat2Z.id. cbn [Z.to_nat skipn]. apply firstn_all.
Qed.

(** X3: [_apply_filters] returns items of its input in their input order;
    every one of them scores at least [min_score], is not in
    [exclude_items], has a category listed in [include_categories] when
    that list is not empty, and has no category listed in
    [exclude_categories]; a non-negative request size bounds the length of
    the answer; and when the request size covers the whole input no item
    that passes the filters is left out. *)
Theorem apply_filters_keeps_what_passes :
  forall (recommendations : list RecommendationItem)
         (context : RecommendationContext)
         (item_metadata : dict uuid (option string)),
    let l := Base._apply_filters recommendations context item_metadata in
    subsequence l recommendations
    /\ Forall (passes context item_metadata) l
    /\ ((0 <= num_recommendations context)%Z -> within_request context l)
    /\ ((Z.of_nat (List.length recommendations) <= num_recommendations context)%Z ->
        forall item, In item recommendations ->
                     passes context item_metadata item -> In item l).
Proof.
  intros recs context md l. unfold l, Base._apply_filters.
  repeat split.
  - eapply subsequence_trans; [apply slice_to_subsequence|].
    apply filter_subsequence.
  - apply Forall_forall. intros item Hin.
    apply slice_incl in Hin. apply filter_In in Hin as [_ Hk].
    now apply keeps_passes.
  - apply within_slice_to.
  - intros Hn item Hin Hp.
    rewrite slice_to_all.
    + apply filter_In. split; [exact Hin|]. now apply keeps_passes.
    + pose proof (filter_length_le (Base.keeps context md) recs). lia.
Qed.

Lemma apply_filters_keeps_what_passes_witness :
  let l := Base._apply_filters Sample.ranking Sample.filtered_request
                               Sample.item_metadata in
  within_request Sample.filtered_request l
  /\ In (Sample.item "i4"%string 0.7) l.
Proof.
  pose proof (apply_filters_keeps_what_passes
                Sample.ranking Sample.filtered_request Sample.item_metadata)
    as (_ & _ & Hbound & Hall).
  split.
  - apply Hbound. simpl. lia.
  - apply Hall.
    + simpl. lia.
    + simpl. auto.
    + unfold passes. simpl. repeat split.
      * unfold Qle. simpl. lia.
      * intros [H|[]]. discriminate.
      * intros _. exists "comedy"%string. split; [reflexivity|]. now left.
      * intros c Hc [H|[]]. vm_compute in Hc. congruence.
Defined.

Lemma for_each_returns {A S : Type} (body : S -> A -> Exc S) :
  (forall s x, exists s', body s x = Return s') ->
  forall l s, exists s', for_each l body s = Return s'.
Proof.
  intros Hb. induction l as [|x l IH]; intros s; cbn [for_each].
  - now exists s.
  - destruct (Hb s x) as [s' ->]. cbn [bind]. apply IH.
Qed.

Lemma consult_returns (self : Ensemble.t) (context : RecommendationContext)
    (total_weight : Q) (all : dict uuid Ensemble.Combined)
    (p : Engine.BaseRecommendationEngine * Q) :
  exists all', Ensemble.consult self context total_weight all p = Return all'.
Proof.
  unfold Ensemble.consult, Ensemble.divide.
  destruct (Engine.recommend (fst p) context); cbn [bind try_except];
    [eauto|].
  destruct (Qeq_bool total_weight 0); cbn [bind try_except]; eauto.
Qed.

(** X4: the ensemble's [recommend] never raises, whatever its engines do;
    its answer is in descending order of combined score and, for a
    non-negative request size, no longer than the request. *)
Theorem ensemble_recommend_sorted_and_bounded :
  forall (self : Ensemble.t) (context : RecommendationContext),
    exists l,
      Ensemble.recommend self context = Return l
      /\ descending Ensemble.c_score l
      /\ ((0 <= num_recommendations context)%Z ->
          (Z.of_nat (List.length l) <= num_recommendations context)%Z).
Proof.
  intros self context. unfold Ensemble.recommend.
  destruct (for_each_returns
              (Ensemble.consult self context (sum_list (Ensemble.weights self)))
              (consult_returns self context (sum_list (Ensemble.weights self)))
              (combine (Ensemble.engines self) (Ensemble.weights self)) [])
    as [all ->].
  cbn [bind]. eexists. split; [reflexivity|]. split.
  - apply slice_to_descending, sort_desc_sorted.
  - apply length_slice_to.
Qed.

Lemma consult_zero_total (self : Ensemble.t) (context : RecommendationContext)
    (total_weight : Q) (all : dict uuid Ensemble.Combined)
    (p : Engine.BaseRecommendationEngine * Q) :
  total_weight == 0 ->
  Ensemble.consult self context total_weight all p = Return all.
Proof.
  intros H. unfold Ensemble.consult, Ensemble.divide.
  apply Qeq_bool_iff in H. rewrite H.
  destruct (Engine.recommend (fst p) context); reflexivity.
Qed.

Lemma consult_quiet (self self' : Ensemble.t) (context : RecommendationContext)
    (total_weight : Q) (all : dict uuid Ensemble.Combined)
    (e : Engine.BaseRecommendationEngine) (w : Q) :
  List.length (Ensemble.engines self') = List.length (Ensemble.engines self) ->
  Ensemble.consult self' context total_weight all (quiet context e, w)
  = Ensemble.consult self context total_weight all (e, w).
Proof.
  intros Hlen. unfold Ensemble.consult, quiet. cbn [fst snd]. rewrite Hlen.
  destruct (Engine.recommend e context) as [err|l] eqn:E.
  - cbn [silenced with_recommend Engine.recommend bind try_except].
    unfold Ensemble.divide. destruct (Qeq_bool total_weight 0); reflexivity.
  - rewrite E. reflexivity.
Qed.

Lemma for_each_ext {A S : Type} (f g : S -> A -> Exc S) (l : list A) :
  (forall s x, In x l -> f s x = g s x) ->
  forall s, for_each l f s = for_each l g s.
Proof.
  induction l as [|x l IH]; intros H s; cbn [for_each]; [reflexivity|].
  rewrite (H s x) by now left.
  destruct (g s x); cbn [bind]; [reflexivity|].
  apply IH. intros s' y Hy. apply H. now right.
Qed.

Lemma for_each_map {A B S : Type} (h : A -> B) (body : S -> B -> Exc S)
    (l : list A) :
  forall s, for_each (map h l) body s = for_each l (fun s x => body s (h x)) s.
Proof.
  induction l as [|x l IH]; intros s; cbn [map for_each]; [reflexivity|].
  destruct (body s (h x)); cbn [bind]; [reflexivity | apply IH].
Qed.

Lemma combine_map_l {A B C : Type} (h : A -> C) (l : list A) (r : list B) :
  combine (map h l) r = map (fun p => (h (fst p), snd p)) (combine l r).
Proof.
  revert r. induction l as [|x l IH]; intros [|y r]; cbn [map combine];
    try reflexivity.
  now rewrite IH.
Qed.

(** X5: an engine of the ensemble that raises on the request contributes
    as if it had answered with the empty list; and when the weights sum to
    zero the division by the total fails for every engine, so the answer
    is the empty list. *)
Theorem ensemble_skips_engines_that_fail :
  forall (self : Ensemble.t) (context : RecommendationContext),
    Ensemble.recommend self context
    = Ensemble.recommend
        (with_engines self (map (quiet context) (Ensemble.engines self)))
        context
    /\ (sum_list (Ensemble.weights self) == 0 ->
        Ensemble.recommend self context = Return []).
Proof.
  intros self context. split.
  - unfold Ensemble.recommend, with_engines.
    cbn [Ensemble.engines Ensemble.weights].
    rewrite combine_map_l, for_each_map.
    rewrite (for_each_ext
               (fun s x =>
                  Ensemble.consult
                    {| Ensemble.engines :=
                         map (quiet context) (Ensemble.engines self);
                       Ensemble.weights := Ensemble.weights self;
                       Ensemble.is_trained := Ensemble.is_trained self |}
                    context (sum_list (Ensemble.weights self)) s
                    (quiet context (fst x), snd x))
               (Ensemble.consult self context
                                 (sum_list (Ensemble.weights self)))).
    + reflexivity.
    + intros s [e w] _. cbn [fst snd]. apply consult_quiet.
      cbn [Ensemble.engines]. apply length_map.
  - intros H. unfold Ensemble.recommend.
    assert (Hall : forall l s,
               for_each l (Ensemble.consult self context
                             (sum_list (Ensemble.weights self))) s
               = Return s).
    { induction l as [|p l IH]; intros s; cbn [for_each]; [reflexivity|].
      rewrite consult_zero_total by exact H. cbn [bind]. apply IH. }
    rewrite Hall. cbn [bind map sort_desc fold_right].
    now rewrite slice_to_nil.
Qed.


Lemma subsequence_map {A B : Type} (f : A -> B) (s l : list A) :
  subsequence s l -> subsequence (map f s) (map f l).
Proof. induction 1; cbn [map]; constructor; assumption. Qed.

Lemma subsequence_In {A : Type} (s l : list A) (x : A) :
  subsequence s l -> In x s -> In x l.
Proof.
  induction 1 as [|y s l Hs IH|y s l Hs IH]; cbn [In]; intuition.
Qed.

Lemma subsequence_NoDup {A : Type} (s l : list A) :
  subsequence s l -> NoDup l -> NoDup s.
Proof.
  induction 1 as [|y s l Hs IH|y s l Hs IH]; intros Hnd.
  - constructor.
  - inversion Hnd as [|? ? Hnotin Hnd']; subst. constructor.
    + intros Hin. apply Hnotin. eapply subsequence_In; eassumption.
    + now apply IH.
  - inversion Hnd; subst. now apply IH.
Qed.

Lemma dict_set_In {K V : Type} (eqb : K -> K -> bool)
    (eqb_spec : forall x y, eqb x y = true <-> x = y)
    (d : dict K V) (k : K) (v : V) (k' : K) (v' : V) :
  In (k', v') (dict_set eqb d k v) -> (k' = k /\ v' = v) \/ In (k', v') d.
Proof.
  induction d as [|[k0 v0] t IH]; cbn [dict_set].
  - intros [H|[]]. injection H as <- <-. now left.
  - destruct (eqb k k0) eqn:E.
    + apply eqb_spec in E. subst k0. intros [H|H].
      * injection H as <- <-. now left.
      * right. now right.
    + intros [H|H].
      * right. now left.
      * destruct (IH H) as [?|?]; [now left | right; now right].
Qed.

Lemma dict_get_entry {K V : Type} (eqb : K -> K -> bool)
    (eqb_spec : forall x y, eqb x y = true <-> x = y)
    (d : dict K V) (k : K) (v : V) :
  dict_get eqb d k = Some v -> exists k', k' = k /\ In (k', v) d.
Proof.
  induction d as [|[k0 v0] t IH]; cbn [dict_get]; [discriminate|].
  destruct (eqb k k0) eqn:E.
  - apply eqb_spec in E. subst k0. intros H. injection H as ->.
    exists k. split; [reflexivity | now left].
  - intros H. destruct (IH H) as (k' & -> & Hin). exists k.
    split; [reflexivity | now right].
Qed.

Lemma combine_one_spec (n : nat) (w : Q) (all : dict uuid Ensemble.Combined)
    (rec : RecommendationItem) :
  ensemble_entries n all ->
  ensemble_entries n (Ensemble.combine_one n w all rec)
  /\ (forall x, In x (dict_keys (Ensemble.combine_one n w all rec))
                <-> x = item_id rec \/ In x (dict_keys all))
  /\ forall x,
      combined_score (Ensemble.combine_one n w all rec) x
      == combined_score all x
         + (if String.eqb (item_id rec) x then score rec * w else 0).
Proof.
  intros [Hnd Hent]. unfold Ensemble.combine_one.
  set (old := match dict_get String.eqb all (item_id rec) with
              | Some e => e
              | None => {| Ensemble.c_item_id := item_id rec;
                           Ensemble.c_score := 0.0;
                           Ensemble.c_algorithms := n |}
              end).
  assert (Hold : Ensemble.c_item_id old = item_id rec
                 /\ Ensemble.c_algorithms old = n).
  { unfold old. destruct (dict_get String.eqb all (item_id rec)) as [e|] eqn:E.
    - apply (dict_get_entry String.eqb String.eqb_eq) in E as (k' & -> & Hin).
      now apply Hent.
    - now split. }
  destruct (dict_set_keys String.eqb String.eqb_eq all (item_id rec)
              {| Ensemble.c_item_id := Ensemble.c_item_id old;
                 Ensemble.c_score := Ensemble.c_score old + score rec * w;
                 Ensemble.c_algorithms := Ensemble.c_algorithms old |} Hnd)
    as [H1 H2].
  split; [split; [exact H1|]|split; [exact H2|]].
  - intros k e Hin.
    apply (dict_set_In String.eqb String.eqb_eq) in Hin as [[-> ->]|Hin].
    + exact Hold.
    + now apply Hent.
  - intros x. unfold combined_score.
    destruct (String.eqb (item_id rec) x) eqn:E.
    + apply String.eqb_eq in E. subst x.
      rewrite (dict_get_set_same String.eqb String.eqb_eq).
      cbn [Ensemble.c_score]. unfold old.
      destruct (dict_get String.eqb all (item_id rec));
        cbn [Ensemble.c_score]; [reflexivity | ring].
    + apply String.eqb_neq in E.
      rewrite (dict_get_set_other String.eqb String.eqb_eq) by congruence.
      ring.
Qed.

Lemma combine_all_spec (n : nat) (w : Q) (recs : list RecommendationItem) :
  forall all,
    ensemble_entries n all ->
    let all' := fold_left (Ensemble.combine_one n w) recs all in
    ensemble_entries n all'
    /\ (forall x, In x (dict_keys all')
                  <-> In x (map item_id recs) \/ In x (dict_keys all))
    /\ forall x, combined_score all' x
                 == combined_score all x + popularity recs x * w.
Proof.
  induction recs as [|rec t IH]; intros all Hinv; cbn [fold_left].
  - split; [exact Hinv|]. split; [intros x; cbn [map In]; tauto|].
    intros x. cbn [popularity fold_right]. ring.
  - destruct (combine_one_spec w rec Hinv) as (H1 & H2 & H3).
    destruct (IH _ H1) as (I1 & I2 & I3).
    split; [exact I1|]. split.
    + intros x. rewrite I2, H2. cbn [map In]. intuition.
    + intros x. rewrite I3, H3. cbn [popularity fold_right].
      fold (popularity t x).
      destruct (String.eqb (item_id rec) x); ring.
Qed.

Lemma consult_merges (self : Ensemble.t) (context : RecommendationContext)
    (total_weight : Q) (all : dict uuid Ensemble.Combined)
    (p : Engine.BaseRecommendationEngine * Q) :
  ~ total_weight == 0 ->
  Ensemble.consult self context total_weight all p
  = Return (fold_left
              (Ensemble.combine_one (List.length (Ensemble.engines self))
                                    (snd p / total_weight))
              (returned (Engine.recommend (fst p) context)) all).
Proof.
  intros H. unfold Ensemble.consult, Ensemble.divide.
  destruct (Qeq_bool total_weight 0) eqn:E;
    [apply Qeq_bool_iff in E; contradiction|].
  destruct (Engine.recommend (fst p) context); reflexivity.
Qed.

Lemma consult_all_spec (self : Ensemble.t) (context : RecommendationContext)
    (total_weight : Q) (pairs : list (Engine.BaseRecommendationEngine * Q)) :
  ~ total_weight == 0 ->
  forall all,
    ensemble_entries (List.length (Ensemble.engines self)) all ->
    exists all',
      for_each pairs (Ensemble.consult self context total_weight) all
      = Return all'
      /\ ensemble_entries (List.length (Ensemble.engines self)) all'
      /\ (forall x, In x (dict_keys all')
                    <-> In x (flat_map
                                (fun p => map item_id
                                            (returned (Engine.recommend (fst p)
                                                                        context)))
                                pairs)
                        \/ In x (dict_keys all))
      /\ forall x,
          combined_score all' x
          == combined_score all x
             + fold_right
                 (fun p acc =>
                    popularity (returned (Engine.recommend (fst p) context)) x
                    * (snd p / total_weight) + acc)
                 0 pairs.
Proof.
  intros Hnz. induction pairs as [|p t IH]; intros all Hinv;
    cbn [for_each flat_map fold_right].
  - exists all. split; [reflexivity|]. split; [exact Hinv|].
    split; [intros x; cbn [In]; tauto | intros x; ring].
  - rewrite consult_merges by exact Hnz. cbn [bind].
    destruct (combine_all_spec (snd p / total_weight)
                (returned (Engine.recommend (fst p) context)) Hinv)
      as (H1 & H2 & H3).
    destruct (IH _ H1) as (all' & -> & I1 & I2 & I3).
    exists all'. split; [reflexivity|]. split; [exact I1|]. split.
    + intros x. rewrite I2, H2, in_app_iff. intuition.
    + intros x. rewrite I3, H3. ring.
Qed.

(** X6: when the weights do not sum to zero, the ensemble returns every
    item once, each of them is in the answer of some engine, its score is
    the sum over the engines that answer of the item's score there times
    the engine's weight divided by the total weight, and its reason counts
    all the engines of the ensemble. *)
Theorem ensemble_score_is_weighted_share :
  forall (self : Ensemble.t) (context : RecommendationContext),
    ~ sum_list (Ensemble.weights self) == 0 ->
    exists l,
      Ensemble.recommend self context = Return l
      /\ NoDup (map Ensemble.c_item_id l)
      /\ forall item, In item l ->
           In (Ensemble.c_item_id item) (ensemble_candidates self context)
           /\ Ensemble.c_score item
              == ensemble_score self context (Ensemble.c_item_id item)
           /\ Ensemble.c_algorithms item
              = List.length (Ensemble.engines self).
Proof.
  intros self context Hnz. unfold Ensemble.recommend.
  destruct (@consult_all_spec self context (sum_list (Ensemble.weights self))
              (combine (Ensemble.engines self) (Ensemble.weights self))
              Hnz [])
    as (all & -> & [Hnd Hent] & Hkeys & Hscore).
  { split; [constructor | intros k e []]. }
  cbn [bind]. eexists. split; [reflexivity|].
  assert (Hids : map Ensemble.c_item_id (map snd all) = dict_keys all).
  { unfold dict_keys. rewrite map_map. apply map_ext_in.
    intros [k e] Hin. cbn [fst snd]. now apply Hent. }
  split.
  - eapply (@subsequence_NoDup uuid).
    + apply (@subsequence_map _ _ Ensemble.c_item_id).
      apply slice_to_subsequence.
    + eapply Permutation_NoDup.
      * apply Permutation_map. apply sort_desc_perm.
      * rewrite Hids. exact Hnd.
  - intros item Hin. apply slice_incl in Hin.
    apply (Permutation_in _ (Permutation_sym (sort_desc_perm _ _))) in Hin.
    apply in_map_iff in Hin as ([k e] & <- & Hin). cbn [snd].
    destruct (Hent _ _ Hin) as [Hk Hn].
    split; [|split; [|exact Hn]].
    + unfold ensemble_candidates.
      assert (Hkin : In (Ensemble.c_item_id e) (dict_keys all)).
      { rewrite Hk. unfold dict_keys. apply in_map_iff.
        exists (k, e). now split. }
      apply Hkeys in Hkin as [H|[]]. exact H.
    + specialize (Hscore (Ensemble.c_item_id e)).
      unfold combined_score in Hscore at 1.
      rewrite Hk in Hscore at 1.
      rewrite (@dict_get_In _ _ String.eqb String.eqb_eq all k e Hnd Hin) in Hscore.
      rewrite Hscore. unfold combined_score, ensemble_score.
      cbn [dict_get]. ring.
Qed.



Lemma ensemble_score_is_weighted_share_witness :
  exists l,
    Ensemble.recommend Sample.ensemble (Example.request Example.u1 10 None)
    = Return l
    /\ NoDup (map Ensemble.c_item_id l)
    /\ forall item, In item l ->
         In (Ensemble.c_item_id item)
            (ensemble_candidates Sample.ensemble
                                 (Example.request Example.u1 10 None))
         /\ Ensemble.c_score item
            == ensemble_score Sample.ensemble
                              (Example.request Example.u1 10 None)
                              (Ensemble.c_item_id item)
         /\ Ensemble.c_algorithms item
            = List.length (Ensemble.engines Sample.ensemble).
Proof.
  apply (@ensemble_score_is_weighted_share
           Sample.ensemble (Example.request Example.u1 10 None)).
  intros H. vm_compute in H. discriminate.
Defined.

Lemma ensemble_skips_engines_that_fail_witness :
  Ensemble.recommend Sample.muted_ensemble
                     (Example.request Example.u1 10 None)
  = Return [].
Proof.
  apply (proj2 (ensemble_skips_engines_that_fail
                  Sample.muted_ensemble
                  (Example.request Example.u1 10 None))).
  vm_compute. reflexivity.
Defined.

(** X7: the ensemble's [get_item_similarity] never raises: it returns the
    answer of the first engine, in the order of [add_engine], that does not
    raise, and the empty list when all of them raise. *)
Theorem ensemble_similarity_is_first_answer :
  forall (self : Ensemble.t) (item : uuid) (top_k : Z),
    (exists l, Ensemble.get_item_similarity self item top_k = Return l)
    /\ (forall pre engine post l,
          Ensemble.engines self = pre ++ engine :: post ->
          Forall (fun e => raised (Engine.get_item_similarity e item top_k))
                 pre ->
          Engine.get_item_similarity engine item top_k = Return l ->
          Ensemble.get_item_similarity self item top_k = Return l)
    /\ (Forall (fun e => raised (Engine.get_item_similarity e item top_k))
               (Ensemble.engines self) ->
        Ensemble.get_item_similarity self item top_k = Return []).
Proof.
  intros self item top_k. unfold Ensemble.get_item_similarity.
  generalize (Ensemble.engines self) as engines. intros engines.
  repeat split.
  - induction engines as [|e rest IH]; cbn [Ensemble.first_similarity].
    + now exists [].
    + destruct (Engine.get_item_similarity e item top_k);
        cbn [try_except]; [exact IH | eauto].
  - intros pre engine post l -> Hpre Hl.
    induction Hpre as [|e pre [err He] _ IH];
      cbn [app Ensemble.first_similarity].
    + now rewrite Hl.
    + rewrite He. exact IH.
  - intros Hall. induction Hall as [|e rest [err He] _ IH];
      cbn [Ensemble.first_similarity]; [reflexivity|].
    rewrite He. exact IH.
Qed.

Lemma ensemble_similarity_is_first_answer_witness :
  Ensemble.get_item_similarity
    (Ensemble.add_engine
       (Ensemble.add_engine Ensemble.init Sample.broken 1.0)
       (ItemBasedCF.as_engine (ItemBasedCF.init 50 5)) 1.0)
    Example.i1 10
  = Return [].
Proof.
  apply (proj1 (proj2 (ensemble_similarity_is_first_answer
                         (Ensemble.add_engine
                            (Ensemble.add_engine Ensemble.init
                                                 Sample.broken 1.0)
                            (ItemBasedCF.as_engine (ItemBasedCF.init 50 5))
                            1.0)
                         Example.i1 10))
         [Sample.broken] (ItemBasedCF.as_engine (ItemBasedCF.init 50 5)) []).
  - reflexivity.
  - constructor; [|constructor]. exists KeyError. reflexivity.
  - reflexivity.
Defined.

(** ** hybrid.py: merging, the weights and the switching combiner *)

Lemma dict_set_keys_append {K V : Type} (eqb : K -> K -> bool)
    (eqb_spec : forall x y, eqb x y = true <-> x = y)
    (d : dict K V) (k : K) (v : V) :
  dict_keys (dict_set eqb d k v)
  = dict_keys d ++ (if dict_mem eqb d k then [] else [k]).
Proof.
  unfold dict_keys, dict_mem.
  induction d as [|[k0 v0] t IH]; cbn [dict_set dict_get map app fst].
  - reflexivity.
  - destruct (eqb k k0) eqn:E; cbn [map fst].
    + apply eqb_spec in E. subst k0. now rewrite app_nil_r.
    + rewrite IH. reflexivity.
Qed.

Lemma merge_one_methods (weight : Q) (method : string)
    (all : dict uuid Merged) (rec : RecommendationItem) (x : uuid) :
  merged_methods (WeightedHybrid.merge_one weight method all rec) x
  = merged_methods all x
    ++ (if String.eqb (item_id rec) x then [method] else []).
Proof.
  unfold merged_methods, WeightedHybrid.merge_one.
  destruct (String.eqb (item_id rec) x) eqn:E.
  - apply String.eqb_eq in E. subst x.
    rewrite (dict_get_set_same String.eqb String.eqb_eq).
    cbn [m_methods].
    destruct (dict_get String.eqb all (item_id rec)); reflexivity.
  - apply String.eqb_neq in E.
    rewrite (dict_get_set_other String.eqb String.eqb_eq) by congruence.
    now rewrite app_nil_r.
Qed.

(** X8: [_merge_recommendations] keeps one entry per item and the entries
    that were there in their position, adds an entry for each new item of
    the list, raises the score of an item by its scores in the list times
    the weight, and appends the method name once per entry of the list for
    the item. *)
Theorem merge_accumulates_weighted_scores :
  forall (all : dict uuid Merged) (recs : list RecommendationItem)
         (weight : Q) (method : string),
    NoDup (dict_keys all) ->
    let all' := WeightedHybrid._merge_recommendations all recs weight method in
    NoDup (dict_keys all')
    /\ (exists fresh, dict_keys all' = dict_keys all ++ fresh)
    /\ (forall x, In x (dict_keys all')
                  <-> In x (map item_id recs) \/ In x (dict_keys all))
    /\ (forall x, merged_score all' x
                  == merged_score all x + popularity recs x * weight)
    /\ (forall x, merged_methods all' x
                  = merged_methods all x ++ repeat method (occurrences recs x)).
Proof.
  intros all recs weight method Hnd all'.
  destruct (@merge_spec weight method recs all Hnd) as (H1 & H2 & H3).
  split; [exact H1|]. split; [|split; [exact H2|split; [exact H3|]]].
  - unfold all', WeightedHybrid._merge_recommendations. clear.
    revert all. induction recs as [|rec t IH]; intros all; cbn [fold_left].
    + exists []. now rewrite app_nil_r.
    + destruct (IH (WeightedHybrid.merge_one weight method all rec))
        as [fresh ->].
      unfold WeightedHybrid.merge_one at 1.
      rewrite (dict_set_keys_append String.eqb String.eqb_eq).
      rewrite <- app_assoc. eauto.
  - unfold all', WeightedHybrid._merge_recommendations. clear.
    revert all. induction recs as [|rec t IH]; intros all x; cbn [fold_left].
    + cbn. now rewrite app_nil_r.
    + rewrite IH, merge_one_methods, <- app_assoc. f_equal.
      unfold occurrences. cbn [filter].
      destruct (String.eqb (item_id rec) x); reflexivity.
Qed.

Lemma merge_accumulates_weighted_scores_witness :
  let all' := WeightedHybrid._merge_recommendations
                [] (Sample.ranking ++ firstn 2 Sample.ranking) 0.4
                "collaborative_filtering"%string in
  NoDup (dict_keys all')
  /\ merged_score all' Example.i1 == 0.72
  /\ merged_methods all' Example.i1
     = ["collaborative_filtering"%string; "collaborative_filtering"%string].
Proof.
  destruct (@merge_accumulates_weighted_scores
              [] (Sample.ranking ++ firstn 2 Sample.ranking) 0.4
              "collaborative_filtering"%string)
    as (H1 & _ & _ & H4 & H5).
  - constructor.
  - split; [exact H1|]. split.
    + rewrite H4. vm_compute. reflexivity.
    + rewrite H5. reflexivity.
Defined.

Lemma fan_out_ignores_unweighted_cf (h : WeightedHybrid.t)
    (ctx : RecommendationContext) (w : Weights.t)
    (ucf icf : Engine.BaseRecommendationEngine) :
  Qltb 0 (Weights.collaborative w) = false ->
  WeightedHybrid.fan_out h ctx w
  = WeightedHybrid.fan_out
      (with_components h ucf icf (WeightedHybrid.content_based h)
                       (WeightedHybrid.matrix_factorization h)) ctx w.
Proof.
  intros H. unfold WeightedHybrid.fan_out. rewrite H. reflexivity.
Qed.

Lemma fan_out_ignores_unweighted_content (h : WeightedHybrid.t)
    (ctx : RecommendationContext) (w : Weights.t)
    (cb : Engine.BaseRecommendationEngine) :
  Qltb 0 (Weights.content w) = false ->
  WeightedHybrid.fan_out h ctx w
  = WeightedHybrid.fan_out
      (with_components h (WeightedHybrid.user_cf h) (WeightedHybrid.item_cf h)
                       cb (WeightedHybrid.matrix_factorization h)) ctx w.
Proof.
  intros H. unfold WeightedHybrid.fan_out. rewrite H. reflexivity.
Qed.

Lemma fan_out_ignores_unweighted_mf (h : WeightedHybrid.t)
    (ctx : RecommendationContext) (w : Weights.t)
    (mf : Engine.BaseRecommendationEngine) :
  Qltb 0 (Weights.matrix_factorization w) = false ->
  WeightedHybrid.fan_out h ctx w
  = WeightedHybrid.fan_out
      (with_components h (WeightedHybrid.user_cf h) (WeightedHybrid.item_cf h)
                       (WeightedHybrid.content_based h) mf) ctx w.
Proof.
  intros H. unfold WeightedHybrid.fan_out. rewrite H. reflexivity.
Qed.

Lemma fan_out_ignores_item_cf (h : WeightedHybrid.t)
    (ctx : RecommendationContext) (w : Weights.t)
    (icf : Engine.BaseRecommendationEngine) (l : list RecommendationItem) :
  Engine.recommend (WeightedHybrid.user_cf h) ctx = Return l ->
  WeightedHybrid.fan_out h ctx w
  = WeightedHybrid.fan_out
      (with_components h (WeightedHybrid.user_cf h) icf
                       (WeightedHybrid.content_based h)
                       (WeightedHybrid.matrix_factorization h)) ctx w.
Proof.
  intros H. unfold WeightedHybrid.fan_out, WeightedHybrid.ask.
  cbn [with_components WeightedHybrid.user_cf WeightedHybrid.item_cf
       WeightedHybrid.content_based WeightedHybrid.matrix_factorization].
  rewrite H. reflexivity.
Qed.

Lemma Qltb_nonpositive (x : Q) : x <= 0 -> Qltb 0 x = false.
Proof.
  intros H. unfold Qltb. apply negb_false_iff. now apply Qle_bool_iff.
Qed.

Lemma weights_with_components (h : WeightedHybrid.t) (user : uuid)
    (ucf icf cb mf : Engine.BaseRecommendationEngine) :
  Engine.has_user ucf user = Engine.has_user (WeightedHybrid.user_cf h) user ->
  Engine.has_user cb user
  = Engine.has_user (WeightedHybrid.content_based h) user ->
  Engine.has_user mf user
  = Engine.has_user (WeightedHybrid.matrix_factorization h) user ->
  WeightedHybrid._calculate_adaptive_weights
    (with_components h ucf icf cb mf) user
  = WeightedHybrid._calculate_adaptive_weights h user.
Proof.
  intros H1 H2 H3. unfold WeightedHybrid._calculate_adaptive_weights.
  cbn [with_components WeightedHybrid.user_cf WeightedHybrid.item_cf
       WeightedHybrid.content_based WeightedHybrid.matrix_factorization
       WeightedHybrid.adaptive_weights WeightedHybrid.collaborative_weight
       WeightedHybrid.content_weight
       WeightedHybrid.matrix_factorization_weight].
  now rewrite H1, H2, H3.
Qed.

Lemma recommend_with_components (h : WeightedHybrid.t)
    (ctx : RecommendationContext)
    (ucf icf cb mf : Engine.BaseRecommendationEngine) :
  Engine.has_user ucf (user_id ctx)
  = Engine.has_user (WeightedHybrid.user_cf h) (user_id ctx) ->
  Engine.has_user cb (user_id ctx)
  = Engine.has_user (WeightedHybrid.content_based h) (user_id ctx) ->
  Engine.has_user mf (user_id ctx)
  = Engine.has_user (WeightedHybrid.matrix_factorization h) (user_id ctx) ->
  WeightedHybrid.fan_out h ctx
    (WeightedHybrid._calculate_adaptive_weights h (user_id ctx))
  = WeightedHybrid.fan_out (with_components h ucf icf cb mf) ctx
      (WeightedHybrid._calculate_adaptive_weights h (user_id ctx)) ->
  WeightedHybrid.recommend h ctx
  = WeightedHybrid.recommend (with_components h ucf icf cb mf) ctx.
Proof.
  intros H1 H2 H3 Hf. unfold WeightedHybrid.recommend.
  rewrite weights_with_components by assumption.
  cbn [with_components WeightedHybrid.is_trained].
  destruct (negb (WeightedHybrid.is_trained h)); [reflexivity|].
  cbv zeta. now rewrite Hf.
Qed.

(** X9: the weighted combiner asks a component only when its resolved
    weight is positive: with a weight that is not positive, what the
    component would answer (for the collaborative weight, what the
    user-based and the item-based engine would answer) does not change the
    result; and the item-based engine is not asked when the user-based
    engine returns. *)
Theorem hybrid_asks_only_weighted_components :
  forall (h : WeightedHybrid.t) (context : RecommendationContext),
    let w := WeightedHybrid._calculate_adaptive_weights h (user_id context) in
    let ucf := WeightedHybrid.user_cf h in
    let icf := WeightedHybrid.item_cf h in
    let cb := WeightedHybrid.content_based h in
    let mf := WeightedHybrid.matrix_factorization h in
    (Weights.collaborative w <= 0 ->
     forall f g,
       WeightedHybrid.recommend h context
       = WeightedHybrid.recommend
           (with_components h (with_recommend ucf f) (with_recommend icf g)
                            cb mf) context)
    /\ (Weights.content w <= 0 ->
        forall f,
          WeightedHybrid.recommend h context
          = WeightedHybrid.recommend
              (with_components h ucf icf (with_recommend cb f) mf) context)
    /\ (Weights.matrix_factorization w <= 0 ->
        forall f,
          WeightedHybrid.recommend h context
          = WeightedHybrid.recommend
              (with_components h ucf icf cb (with_recommend mf f)) context)
    /\ (forall l, Engine.recommend ucf context = Return l ->
        forall g,
          WeightedHybrid.recommend h context
          = WeightedHybrid.recommend
              (with_components h ucf (with_recommend icf g) cb mf) context).
Proof.
  intros h context w ucf icf cb mf. repeat split.
  - intros Hw f g. apply recommend_with_components; try reflexivity.
    apply fan_out_ignores_unweighted_cf. now apply Qltb_nonpositive.
  - intros Hw f. apply recommend_with_components; try reflexivity.
    apply fan_out_ignores_unweighted_content. now apply Qltb_nonpositive.
  - intros Hw f. apply recommend_with_components; try reflexivity.
    apply fan_out_ignores_unweighted_mf. now apply Qltb_nonpositive.
  - intros l Hl g. apply recommend_with_components; try reflexivity.
    eapply fan_out_ignores_item_cf. exact Hl.
Qed.

Lemma hybrid_asks_only_weighted_components_witness :
  WeightedHybrid.recommend Example.hybrid
                           (Example.request Example.u7 10 None)
  = WeightedHybrid.recommend
      (with_components Example.hybrid
         (with_recommend (WeightedHybrid.user_cf Example.hybrid)
                         (fun _ => Raise KeyError))
         (with_recommend (WeightedHybrid.item_cf Example.hybrid)
                         (fun _ => Raise KeyError))
         (WeightedHybrid.content_based Example.hybrid)
         (WeightedHybrid.matrix_factorization Example.hybrid))
      (Example.request Example.u7 10 None).
Proof.
  apply (proj1 (hybrid_asks_only_weighted_components
                  Example.hybrid (Example.request Example.u7 10 None))).
  vm_compute. discriminate.
Defined.

(** X10: the weighted combiner's [get_item_similarity] never raises and
    returns the content engine's answer whenever that engine returns; in
    particular, for an item that the content engine does not know, or with
    an untrained content engine, the answer is the empty list and the
    other engines are not asked. *)
Theorem hybrid_similarity_stops_at_content :
  forall (h : WeightedHybrid.t) (item : uuid) (top_k : Z),
    (exists l, WeightedHybrid.get_item_similarity h item top_k = Return l)
    /\ (forall l,
          Engine.get_item_similarity (WeightedHybrid.content_based h)
                                     item top_k = Return l ->
          WeightedHybrid.get_item_similarity h item top_k = Return l)
    /\ (forall cosine cb,
          WeightedHybrid.content_based h = ContentBased.as_engine cosine cb ->
          ContentBased.is_trained cb = false
          \/ dict_get String.eqb (ContentBased.item_mapping cb) item = None ->
          WeightedHybrid.get_item_similarity h item top_k = Return []).
Proof.
  intros h item top_k.
  destruct (hybrid_similarity_prefers_content h item top_k) as [H1 H2].
  split; [exact H1|]. split; [exact H2|].
  intros cosine cb Hcb Hun. apply H2. rewrite Hcb.
  cbn [ContentBased.as_engine Engine.get_item_similarity].
  unfold ContentBased.get_item_similarity.
  destruct Hun as [-> | ->]; [reflexivity|].
  now destruct (ContentBased.is_trained cb).
Qed.

Lemma hybrid_similarity_stops_at_content_witness :
  WeightedHybrid.get_item_similarity Example.hybrid "i9"%string 10
  = Return [].
Proof.
  apply (proj2 (proj2 (hybrid_similarity_stops_at_content
                         Example.hybrid "i9"%string 10))
         Example.cosine Example.content_based).
  - reflexivity.
  - right. reflexivity.
Defined.

Lemma choose_method_names (self : SwitchingHybrid.t) (user : uuid)
    (method : string) :
  SwitchingHybrid._choose_method self user = Return method ->
  method = "collaborative_filtering"%string
  \/ method = "content_based"%string
  \/ method = "matrix_factorization"%string.
Proof.
  unfold SwitchingHybrid._choose_method. intros H.
  apply bind_inv in H as (count & _ & H).
  destruct (_ <=? count)%Z; [injection H as <-; auto|].
  destruct (Engine.has_user (SwitchingHybrid.content_based self) user);
    [injection H as <-; auto|].
  destruct (Engine.has_user (SwitchingHybrid.matrix_factorization self) user);
    injection H as <-; auto.
Qed.

(** X11: [_choose_method] answers with one of the three names
    "collaborative_filtering", "content_based" and "matrix_factorization",
    so that the branch of the switching combiner's [recommend] that falls
    back to the item-based engine is never taken: the result does not
    depend on that engine. *)
Theorem switching_never_asks_item_cf :
  forall (self : SwitchingHybrid.t) (context : RecommendationContext),
    match SwitchingHybrid._choose_method self (user_id context) with
    | Return method =>
        In method ["collaborative_filtering"%string; "content_based"%string;
                   "matrix_factorization"%string]
    | Raise _ => True
    end
    /\ forall item_cf,
        SwitchingHybrid.recommend (with_item_cf self item_cf) context
        = SwitchingHybrid.recommend self context.
Proof.
  intros self context. split.
  { destruct (SwitchingHybrid._choose_method self (user_id context))
      as [e|method] eqn:E; [exact I|].
    destruct (choose_method_names _ _ E) as [-> | [-> | ->]]; cbn [In]; auto. }
  intros item_cf. unfold SwitchingHybrid.recommend.
  cbn [with_item_cf SwitchingHybrid.is_trained].
  destruct (negb (SwitchingHybrid.is_trained self)); [reflexivity|].
  change (SwitchingHybrid._choose_method (with_item_cf self item_cf)
                                         (user_id context))
    with (SwitchingHybrid._choose_method self (user_id context)).
  destruct (SwitchingHybrid._choose_method self (user_id context))
    as [e|method] eqn:E; cbn [bind]; [reflexivity|].
  cbn [with_item_cf SwitchingHybrid.user_cf SwitchingHybrid.item_cf
       SwitchingHybrid.content_based SwitchingHybrid.matrix_factorization].
  destruct (choose_method_names _ _ E) as [-> | [-> | ->]]; reflexivity.
Qed.

(** X12: the switching combiner's [recommend] returns the empty list when
    untrained and a list whenever [_choose_method] returns.  For a user
    outside the user-based index, with a positive collaborative threshold,
    who has a content profile or is unknown to the factorization, it is
    the content engine's answer, or the empty list when that engine
    raises; when the collaborative method is chosen, it is the user-based
    engine's answer, or else the content engine's. *)
Theorem switching_falls_back_to_content :
  forall (self : SwitchingHybrid.t) (context : RecommendationContext),
    let user := user_id context in
    let content := Engine.recommend (SwitchingHybrid.content_based self)
                                    context in
    (SwitchingHybrid.is_trained self = false ->
     SwitchingHybrid.recommend self context = Return [])
    /\ (forall method,
          SwitchingHybrid._choose_method self user = Return method ->
          exists l, SwitchingHybrid.recommend self context = Return l)
    /\ (SwitchingHybrid.is_trained self = true ->
        (0 < SwitchingHybrid.min_interactions_for_cf self)%Z ->
        dict_get String.eqb
                 (UserBasedCF.user_mapping (SwitchingHybrid.user_cf self)) user
        = None ->
        Engine.has_user (SwitchingHybrid.content_based self) user = true
        \/ Engine.has_user (SwitchingHybrid.matrix_factorization self) user
           = false ->
        SwitchingHybrid.recommend self context = Return (returned content))
    /\ (SwitchingHybrid.is_trained self = true ->
        SwitchingHybrid._choose_method self user
        = Return "collaborative_filtering"%string ->
        SwitchingHybrid.recommend self context
        = Return (match UserBasedCF.recommend (SwitchingHybrid.user_cf self)
                                              context with
                  | Return l => l
                  | Raise _ => returned content
                  end)).
Proof.
  intros self context user content. unfold SwitchingHybrid.recommend.
  repeat split.
  - intros ->. reflexivity.
  - intros method Hm. destruct (negb (SwitchingHybrid.is_trained self));
      [now exists []|].
    fold user. rewrite Hm. cbn [bind].
    match goal with
    | |- exists l, try_except ?c _ = _ => destruct c
    end; cbn [try_except]; [|eauto].
    destruct (Engine.recommend (SwitchingHybrid.content_based self) context);
      cbn [try_except]; eauto.
  - intros -> Hmin Hun Hc. cbn [negb]. fold user.
    unfold SwitchingHybrid._choose_method. rewrite Hun. cbn [bind].
    destruct (_ <=? 0)%Z eqn:E; [apply Z.leb_le in E; lia|].
    assert (Hchoice :
              (if Engine.has_user (SwitchingHybrid.content_based self) user
               then Return "content_based"%string
               else if Engine.has_user
                         (SwitchingHybrid.matrix_factorization self) user
                    then Return "matrix_factorization"%string
                    else Return "content_based"%string)
              = Return "content_based"%string).
    { destruct Hc as [-> | ->]; [reflexivity|].
      now destruct (Engine.has_user (SwitchingHybrid.content_based self) user). }
    rewrite Hchoice. cbn [bind String.eqb Ascii.eqb Bool.eqb andb].
    fold content. destruct content; reflexivity.
  - intros -> Hm. cbn [negb]. fold user. rewrite Hm.
    cbn [bind String.eqb Ascii.eqb Bool.eqb andb].
    destruct (UserBasedCF.recommend (SwitchingHybrid.user_cf self) context);
      cbn [try_except]; [|reflexivity].
    fold content. destruct content; reflexivity.
Qed.

Lemma switching_falls_back_to_content_witness :
  (exists l,
      SwitchingHybrid.recommend Sample.switching
                                (Example.request Example.newcomer 3 None)
      = Return l)
  /\ SwitchingHybrid.recommend Sample.switching
                               (Example.request Example.newcomer 3 None)
     = Return (returned
                 (ContentBased._cold_start_recommend
                    Example.content_based
                    (Example.request Example.newcomer 3 None))).
Proof.
  pose proof (switching_falls_back_to_content
                Sample.switching (Example.request Example.newcomer 3 None))
    as (_ & Hret & Hcold & _).
  split.
  - apply (Hret "content_based"%string). reflexivity.
  - apply Hcold.
    + reflexivity.
    + reflexivity.
    + reflexivity.
    + right. reflexivity.
Defined.

(** ** collaborative_filtering.py: the trained state *)

Lemma unique_In (x : uuid) (l : list uuid) : In x (unique l) <-> In x l.
Proof.
  split; [|apply In_unique].
  induction l as [|y t IH]; cbn [unique In]; [tauto|].
  intros [H|H]; [now left|].
  apply filter_In in H as [H _]. right. now apply IH.
Qed.

Lemma unique_NoDup (l : list uuid) : NoDup (unique l).
Proof.
  induction l as [|y t IH]; cbn [unique]; constructor.
  - intros H. apply filter_In in H as [_ H].
    rewrite String.eqb_refl in H. discriminate.
  - now apply NoDup_filter.
Qed.

Lemma combine_seq_get (ids : list uuid) (x : uuid) :
  NoDup ids ->
  forall start k,
    dict_get String.eqb (combine ids (seq start (List.length ids))) x = Some k
    <-> (start <= k)%nat /\ nth_error ids (k - start) = Some x.
Proof.
  induction ids as [|id rest IH]; intros Hnd start k;
    cbn [List.length seq combine dict_get].
  - split; [discriminate|]. intros [_ H]. now destruct (k - start)%nat.
  - inversion Hnd as [|? ? Hnotin Hnd']; subst.
    destruct (String.eqb x id) eqn:E.
    + apply String.eqb_eq in E. subst id. split.
      * intros H. injection H as <-. rewrite Nat.sub_diag. now split.
      * intros [Hle H]. destruct (k - start)%nat as [|j] eqn:Ej.
        -- f_equal. lia.
        -- cbn [nth_error] in H. apply nth_error_In in H. contradiction.
    + apply String.eqb_neq in E. rewrite (IH Hnd' (S start) k). split.
      * intros [Hle H]. split; [lia|].
        replace (k - start)%nat with (S (k - S start)) by lia. exact H.
      * intros [Hle H]. destruct (k - start)%nat as [|j] eqn:Ej.
        -- cbn [nth_error] in H. congruence.
        -- cbn [nth_error] in H. split; [lia|].
           replace (k - S start)%nat with j by lia. exact H.
Qed.

Lemma index_of_get (ids : list uuid) (x : uuid) (k : nat) :
  NoDup ids ->
  dict_get String.eqb (UserBasedCF.index_of ids) x = Some k
  <-> nth_error ids k = Some x.
Proof.
  intros Hnd. unfold UserBasedCF.index_of.
  rewrite (combine_seq_get x Hnd 0 k), Nat.sub_0_r.
  split; [tauto | intros H; split; [lia | exact H]].
Qed.

Lemma reverse_seq_get (ids : list uuid) (x : uuid) :
  forall start k,
    dict_get Nat.eqb
             (UserBasedCF.reverse_index
                (combine ids (seq start (List.length ids)))) k = Some x
    <-> (start <= k)%nat /\ nth_error ids (k - start) = Some x.
Proof.
  unfold UserBasedCF.reverse_index.
  induction ids as [|id rest IH]; intros start k;
    cbn [List.length seq combine map dict_get fst snd].
  - split; [discriminate|]. intros [_ H]. now destruct (k - start)%nat.
  - destruct (Nat.eqb k start) eqn:E.
    + apply Nat.eqb_eq in E. subst k. rewrite Nat.sub_diag. cbn [nth_error].
      split; [intros H; split; [lia | exact H] | tauto].
    + apply Nat.eqb_neq in E. rewrite (IH (S start) k). split.
      * intros [Hle H]. split; [lia|].
        replace (k - start)%nat with (S (k - S start)) by lia. exact H.
      * intros [Hle H]. split; [lia|].
        replace (k - start)%nat with (S (k - S start)) in H by lia. exact H.
Qed.

Lemma reverse_index_get (ids : list uuid) (x : uuid) (k : nat) :
  dict_get Nat.eqb (UserBasedCF.reverse_index (UserBasedCF.index_of ids)) k
  = Some x
  <-> nth_error ids k = Some x.
Proof.
  unfold UserBasedCF.index_of. rewrite (reverse_seq_get ids x 0 k), Nat.sub_0_r.
  split; [tauto | intros H; split; [lia | exact H]].
Qed.

Lemma index_of_length (ids : list uuid) :
  List.length (UserBasedCF.index_of ids) = List.length ids.
Proof.
  unfold UserBasedCF.index_of. rewrite length_combine, length_seq. lia.
Qed.

Lemma finite_row_map (row : list pyfloat) (r : list Q) :
  UserBasedCF.finite_row row = Return r -> row = map Fin r.
Proof.
  revert r. induction row as [|[|q] t IH]; intros r;
    cbn [UserBasedCF.finite_row].
  - intros H. now injection H as <-.
  - discriminate.
  - intros H. apply bind_inv in H as (r' & Hr' & H). injection H as <-.
    cbn [map]. f_equal. now apply IH.
Qed.

Lemma finite_matrix_map (m : matrix pyfloat) (m' : matrix Q) :
  UserBasedCF.finite_matrix m = Return m' -> m = map (map Fin) m'.
Proof.
  revert m'. induction m as [|row t IH]; intros m';
    cbn [UserBasedCF.finite_matrix].
  - intros H. now injection H as <-.
  - intros H. apply bind_inv in H as (r & Hr & H).
    apply bind_inv in H as (rest & Hrest & H). injection H as <-.
    cbn [map]. f_equal; [now apply finite_row_map | now apply IH].
Qed.

Lemma shaped_map {A B : Type} (f : A -> B) (nu ni : nat) (m : matrix A) :
  shaped nu ni (map (map f) m) -> shaped nu ni m.
Proof.
  intros [H1 H2]. rewrite length_map in H1. split; [exact H1|].
  apply Forall_forall. intros row Hrow.
  rewrite Forall_forall in H2. specialize (H2 (map f row)).
  rewrite length_map in H2. apply H2. now apply in_map.
Qed.

Lemma build_inv (min_interactions : Z) (interactions : list Interaction)
    (b : UserBasedCF.Built) :
  UserBasedCF.build_user_item_matrix min_interactions interactions = Return b ->
  let df := UserBasedCF.filter_frame min_interactions interactions in
  let users := unique (map i_user_id df) in
  let items := unique (map i_item_id df) in
  df <> []
  /\ UserBasedCF.b_user_mapping b = UserBasedCF.index_of users
  /\ UserBasedCF.b_item_mapping b = UserBasedCF.index_of items
  /\ shaped (List.length users) (List.length items) (UserBasedCF.b_matrix b).
Proof.
  intros H df users items.
  assert (Hdf : df <> []).
  { intros Hdf. unfold UserBasedCF.build_user_item_matrix in H.
    destruct interactions; [discriminate|]. fold df in H. rewrite Hdf in H.
    discriminate. }
  split; [exact Hdf|].
  rewrite (build_unfold min_interactions interactions Hdf) in H.
  fold df in H. fold users in H. fold items in H.
  destruct (@fill_matrix_spec interactions
              (UserBasedCF.index_of users) (UserBasedCF.index_of items)
              (List.length users) (List.length items) df
              (repeat (repeat (Fin 0) (List.length items)) (List.length users)))
    as (m' & Hm' & Hshape & _).
  - apply zeros_shaped.
  - intros r Hr.
    destruct (@index_found users (i_user_id r)) with (start := 0%nat)
      as (u & Hu & Hu').
    { apply In_unique. apply in_map_iff. now exists r. }
    destruct (@index_found items (i_item_id r)) with (start := 0%nat)
      as (i & Hi & Hi').
    { apply In_unique. apply in_map_iff. now exists r. }
    exists u, i. split; [exact Hu|]. split; [exact Hi|].
    split; [exact (proj2 Hu') | exact (proj2 Hi')].
  - rewrite Hm' in H. cbn [bind] in H. injection H as <-.
    cbn [UserBasedCF.b_user_mapping UserBasedCF.b_item_mapping
         UserBasedCF.b_matrix].
    repeat split; try reflexivity; apply Hshape.
Qed.

Lemma build_consistent (min_interactions : Z) (interactions : list Interaction)
    (b : UserBasedCF.Built) (m : matrix Q) :
  UserBasedCF.build_user_item_matrix min_interactions interactions = Return b ->
  UserBasedCF.finite_matrix (UserBasedCF.b_matrix b) = Return m ->
  cf_consistent (UserBasedCF.b_user_mapping b) (UserBasedCF.b_item_mapping b)
                (UserBasedCF.reverse_index (UserBasedCF.b_item_mapping b)) m.
Proof.
  intros Hb Hm. destruct (build_inv _ _ Hb) as (Hdf & Hum & Him & Hshape).
  set (df := UserBasedCF.filter_frame min_interactions interactions) in *.
  set (users := unique (map i_user_id df)) in *.
  set (items := unique (map i_item_id df)) in *.
  rewrite Hum, Him. unfold cf_consistent. rewrite !index_of_length.
  split; [|split; [|split; [|split; [|split]]]].
  - intros Hnil. apply (f_equal (@List.length _)) in Hnil.
    rewrite index_of_length in Hnil. cbn [List.length] in Hnil.
    destruct df as [|r rest] eqn:Edf; [now apply Hdf|].
    assert (Hin : In (i_user_id r) users).
    { apply In_unique. cbn [map]. now left. }
    destruct users; [destruct Hin | discriminate].
  - apply (shaped_map Fin). rewrite <- (finite_matrix_map _ Hm). apply Hshape.
  - intros u k Hk. apply index_of_get in Hk; [|apply unique_NoDup].
    apply nth_error_Some. congruence.
  - intros x k Hk. apply index_of_get in Hk; [|apply unique_NoDup].
    apply nth_error_Some. congruence.
  - intros x k. split; intros H.
    + apply reverse_index_get. apply index_of_get in H;
        [exact H | apply unique_NoDup].
    + apply index_of_get; [apply unique_NoDup|].
      now apply reverse_index_get.
  - intros k Hk. destruct (nth_error items k) as [x|] eqn:E.
    + exists x. now apply reverse_index_get.
    + apply nth_error_None in E. exfalso. apply (Nat.lt_irrefl k).
      eapply Nat.lt_le_trans; eassumption.
Qed.

(** ** collaborative_filtering.py: answers of the trained engines *)

Lemma getitem_lt {A : Type} (l : list A) (i : nat) :
  (i < List.length l)%nat ->
  exists x, getitem l i = Return x /\ nth_error l i = Some x.
Proof.
  intros H. unfold getitem. destruct (nth_error l i) as [x|] eqn:E.
  - now exists x.
  - apply nth_error_None in E. lia.
Qed.

Lemma getitem_nth {A : Type} (l : list A) (i : nat) (x : A) :
  getitem l i = Return x -> nth_error l i = Some x.
Proof.
  unfold getitem. destruct (nth_error l i); [|discriminate].
  intros H. now injection H as ->.
Qed.

Lemma enumerate_In {A : Type} (l : list A) (p : nat * A) :
  In p (enumerate l) -> nth_error l (fst p) = Some (snd p).
Proof.
  unfold enumerate. destruct p as [i x]. cbn [fst snd].
  assert (H : forall start i,
             In (i, x) (combine (seq start (List.length l)) l) ->
             (start <= i)%nat /\ nth_error l (i - start) = Some x).
  { induction l as [|y t IH]; intros start j; cbn [List.length seq combine In];
      [tauto|].
    intros [H|H].
    - injection H as -> ->. rewrite Nat.sub_diag. now split.
    - apply IH in H as [Hle H]. split; [lia|].
      replace (j - start)%nat with (S (j - S start)) by lia. exact H. }
  intros Hin. apply H in Hin as [_ Hin]. now rewrite Nat.sub_0_r in Hin.
Qed.

Lemma for_each_returns_in {A S : Type} (body : S -> A -> Exc S) (l : list A) :
  (forall s x, In x l -> exists s', body s x = Return s') ->
  forall s, exists s', for_each l body s = Return s'.
Proof.
  induction l as [|x l IH]; intros Hb s; cbn [for_each].
  - now exists s.
  - destruct (Hb s x) as [s' ->]; [now left|]. cbn [bind].
    apply IH. intros s0 y Hy. apply Hb. now right.
Qed.

Lemma argsort_lt (a : list Q) (k : nat) :
  In k (argsort a) -> (k < List.length a)%nat.
Proof.
  intros H. apply (Permutation_in _ (argsort_permutation a)) in H.
  apply in_seq in H. lia.
Qed.

Lemma ranked_lt (a : list Q) (start stop : Z) (k : nat) :
  In k (slice (rev (argsort a)) start stop) -> (k < List.length a)%nat.
Proof.
  intros H. apply slice_incl in H. apply in_rev in H. now apply argsort_lt.
Qed.

Lemma shaped_row {A : Type} (nu ni : nat) (m : matrix A) (u : nat)
    (row : list A) :
  shaped nu ni m -> nth_error m u = Some row -> List.length row = ni.
Proof.
  intros [_ H] Hrow. rewrite Forall_forall in H. apply H.
  eapply nth_error_In. exact Hrow.
Qed.

Lemma shaped_ncols {A : Type} (nu ni : nat) (m : matrix A) :
  shaped nu ni m -> (0 < nu)%nat -> ncols m = ni.
Proof.
  intros [H1 H2] Hnu. destruct m as [|row rest]; cbn [List.length] in H1;
    [lia|].
  cbn [ncols]. now inversion H2.
Qed.

Lemma column_sums_length (n : nat) (m : matrix Q) :
  List.length (column_sums n m) = n.
Proof. unfold column_sums. now rewrite length_map, length_seq. Qed.

Lemma consistent_users (um im : dict uuid nat) (rim : dict nat uuid)
    (m : matrix Q) :
  cf_consistent um im rim m -> (0 < List.length um)%nat.
Proof.
  intros (Hne & _). destruct um; [contradiction | cbn [List.length]; lia].
Qed.

Lemma consistent_lookup (um im : dict uuid nat) (rim : dict nat uuid)
    (m : matrix Q) (k : nat) :
  cf_consistent um im rim m -> (k < List.length im)%nat ->
  exists x, dict_item Nat.eqb rim k = Return x
            /\ dict_get String.eqb im x = Some k.
Proof.
  intros (_ & _ & _ & _ & Hinv & Hall) Hk.
  destruct (Hall k Hk) as [x Hx]. exists x. split.
  - now apply dict_item_found.
  - now apply Hinv.
Qed.

Lemma consistent_row (um im : dict uuid nat) (rim : dict nat uuid)
    (m : matrix Q) (u : nat) :
  cf_consistent um im rim m -> (u < List.length um)%nat ->
  exists row, getitem m u = Return row /\ List.length row = List.length im.
Proof.
  intros (_ & Hshape & _) Hu.
  destruct (@getitem_lt _ m u) as (row & Hrow & Hnth).
  { destruct Hshape as [-> _]. exact Hu. }
  exists row. split; [exact Hrow|]. eapply shaped_row; eassumption.
Qed.

Lemma cf_cold_start_returns (um im : dict uuid nat) (rim : dict nat uuid)
    (m : matrix Q) (context : RecommendationContext) :
  cf_consistent um im rim m ->
  exists l, cf_cold_start m um rim context = Return l.
Proof.
  intros Hc. unfold cf_cold_start.
  pose proof (consistent_users Hc) as Hnu.
  assert (Hcols : ncols m = List.length im).
  { destruct Hc as (_ & Hshape & _). eapply shaped_ncols; eassumption. }
  apply for_each_returns_in. intros s idx Hidx.
  apply slice_incl, in_rev, argsort_lt in Hidx.
  rewrite column_sums_length, Hcols in Hidx.
  destruct (consistent_lookup Hc Hidx) as (x & -> & _). cbn [bind].
  destruct (@getitem_lt _ (column_sums (ncols m) m) idx) as (p & -> & _).
  { now rewrite column_sums_length, Hcols. }
  cbn [bind]. destruct um; [cbn [List.length] in Hnu; lia | eauto].
Qed.

Lemma user_cf_returns (e : UserBasedCF.t) (context : RecommendationContext) :
  cf_consistent (UserBasedCF.user_mapping e) (UserBasedCF.item_mapping e)
                (UserBasedCF.reverse_item_mapping e)
                (UserBasedCF.user_item_matrix e) ->
  shaped (List.length (UserBasedCF.user_mapping e))
         (List.length (UserBasedCF.user_mapping e))
         (UserBasedCF.user_similarity_matrix e) ->
  exists l, UserBasedCF.recommend e context = Return l.
Proof.
  intros Hc Hsim. unfold UserBasedCF.recommend.
  destruct (negb (UserBasedCF.is_trained e)); [now exists []|].
  destruct (dict_get String.eqb (UserBasedCF.user_mapping e) (user_id context))
    as [user_idx|] eqn:Eu;
    [|unfold UserBasedCF._cold_start_recommend;
      apply (cf_cold_start_returns context Hc)].
  assert (Hu : (user_idx < List.length (UserBasedCF.user_mapping e))%nat).
  { destruct Hc as (_ & _ & H & _). eapply H. exact Eu. }
  destruct (consistent_row Hc Hu) as (user_vector & -> & Hlen). cbn [bind].
  destruct (@getitem_lt _ (UserBasedCF.user_similarity_matrix e) user_idx)
    as (sims & -> & Hsims).
  { destruct Hsim as [-> _]. exact Hu. }
  cbn [bind].
  assert (Hsl : List.length sims = List.length (UserBasedCF.user_mapping e)).
  { eapply shaped_row; eassumption. }
  match goal with
  | |- exists _, bind (for_each ?items ?body ?acc) _ = _ =>
      assert (Hloop : exists recs, for_each items body acc = Return recs);
      [apply for_each_returns_in | destruct Hloop as [recs ->]]
  end.
  - intros s idx Hidx. apply ranked_lt in Hidx. rewrite Hsl in Hidx.
    destruct (@getitem_lt _ sims idx) as (sc & -> & _);
      [now rewrite Hsl|].
    cbn [bind].
    destruct (consistent_row Hc Hidx) as (vec & -> & Hvlen). cbn [bind].
    apply for_each_returns_in. intros s' p Hp.
    pose proof (enumerate_In _ _ Hp) as Hnth.
    assert (Hi : (fst p < List.length (UserBasedCF.item_mapping e))%nat).
    { rewrite <- Hvlen. apply nth_error_Some. congruence. }
    destruct (Qltb 0 (snd p)); [|eauto].
    destruct (@getitem_lt _ user_vector (fst p)) as (mine & -> & _);
      [now rewrite Hlen|].
    cbn [bind]. destruct (Qeq_bool mine 0); [|eauto].
    destruct (consistent_lookup Hc Hi) as (x & -> & _). cbn [bind]. eauto.
  - cbn [bind]. eauto.
Qed.

Lemma positive_indices_lt (v : list Q) (k : nat) :
  In k (ItemBasedCF.positive_indices v) ->
  exists x, nth_error v k = Some x /\ 0 < x.
Proof.
  unfold ItemBasedCF.positive_indices. intros H.
  apply in_map_iff in H as ([i x] & <- & H). cbn [fst].
  apply filter_In in H as [H Hpos]. apply enumerate_In in H.
  exists x. split; [exact H | now apply Qltb_true].
Qed.

Lemma item_cf_returns (e : ItemBasedCF.t) (context : RecommendationContext) :
  cf_consistent (ItemBasedCF.user_mapping e) (ItemBasedCF.item_mapping e)
                (ItemBasedCF.reverse_item_mapping e)
                (ItemBasedCF.user_item_matrix e) ->
  shaped (List.length (ItemBasedCF.item_mapping e))
         (List.length (ItemBasedCF.item_mapping e))
         (ItemBasedCF.item_similarity_matrix e) ->
  exists l, ItemBasedCF.recommend e context = Return l.
Proof.
  intros Hc Hsim. unfold ItemBasedCF.recommend.
  destruct (negb (ItemBasedCF.is_trained e)); [now exists []|].
  destruct (dict_get String.eqb (ItemBasedCF.user_mapping e) (user_id context))
    as [user_idx|] eqn:Eu;
    [|unfold ItemBasedCF._cold_start_recommend;
      apply (cf_cold_start_returns context Hc)].
  assert (Hu : (user_idx < List.length (ItemBasedCF.user_mapping e))%nat).
  { destruct Hc as (_ & _ & H & _). eapply H. exact Eu. }
  destruct (consistent_row Hc Hu) as (user_vector & -> & Hlen). cbn [bind].
  destruct (ItemBasedCF.positive_indices user_vector) as [|i0 rest] eqn:Epos;
    [unfold ItemBasedCF._cold_start_recommend;
     apply (cf_cold_start_returns context Hc)|].
  rewrite <- Epos.
  match goal with
  | |- exists _, bind (for_each ?items ?body ?acc) _ = _ =>
      assert (Hloop : exists recs, for_each items body acc = Return recs);
      [apply for_each_returns_in | destruct Hloop as [recs ->]]
  end.
  - intros s idx Hidx. apply positive_indices_lt in Hidx as (r & Hr & _).
    assert (Hi : (idx < List.length (ItemBasedCF.item_mapping e))%nat).
    { rewrite <- Hlen. apply nth_error_Some. congruence. }
    unfold getitem at 1. rewrite Hr. cbn [bind].
    destruct (@getitem_lt _ (ItemBasedCF.item_similarity_matrix e) idx)
      as (sims & -> & Hsims).
    { destruct Hsim as [-> _]. exact Hi. }
    cbn [bind].
    assert (Hsl : List.length sims = List.length (ItemBasedCF.item_mapping e)).
    { eapply shaped_row; eassumption. }
    apply for_each_returns_in. intros s' k Hk.
    apply ranked_lt in Hk. rewrite Hsl in Hk.
    destruct (@getitem_lt _ user_vector k) as (mine & -> & _);
      [now rewrite Hlen|].
    cbn [bind]. destruct (Qltb 0 mine); [eauto|].
    destruct (@getitem_lt _ sims k) as (sc & -> & _); [now rewrite Hsl|].
    cbn [bind].
    destruct (consistent_lookup Hc Hk) as (x & -> & _). cbn [bind]. eauto.
  - cbn [bind]. eauto.
Qed.

Lemma transpose_length {A : Type} (d : A) (n : nat) (m : matrix A) :
  List.length (transpose d n m) = n.
Proof. unfold transpose. now rewrite length_map, length_seq. Qed.

Lemma user_train_consistent (cosine_similarity : matrix Q -> matrix Q)
    (self e : UserBasedCF.t) (interactions : list Interaction) :
  square_similarity cosine_similarity ->
  UserBasedCF.train cosine_similarity self interactions = Return e ->
  UserBasedCF.is_trained e = true
  /\ cf_consistent (UserBasedCF.user_mapping e) (UserBasedCF.item_mapping e)
                   (UserBasedCF.reverse_item_mapping e)
                   (UserBasedCF.user_item_matrix e)
  /\ shaped (List.length (UserBasedCF.user_mapping e))
            (List.length (UserBasedCF.user_mapping e))
            (UserBasedCF.user_similarity_matrix e).
Proof.
  intros Hsq H. unfold UserBasedCF.train in H.
  apply bind_inv in H as (b & Hb & H). apply bind_inv in H as (m & Hm & H).
  injection H as <-.
  cbn [UserBasedCF.is_trained UserBasedCF.user_mapping UserBasedCF.item_mapping
       UserBasedCF.reverse_item_mapping UserBasedCF.user_item_matrix
       UserBasedCF.user_similarity_matrix].
  pose proof (build_consistent _ _ Hb Hm) as Hc.
  split; [reflexivity|]. split; [exact Hc|].
  destruct Hc as (_ & [Hlen _] & _). rewrite <- Hlen. apply Hsq.
Qed.

Lemma item_train_consistent (cosine_similarity : matrix Q -> matrix Q)
    (self e : ItemBasedCF.t) (interactions : list Interaction) :
  square_similarity cosine_similarity ->
  ItemBasedCF.train cosine_similarity self interactions = Return e ->
  ItemBasedCF.is_trained e = true
  /\ cf_consistent (ItemBasedCF.user_mapping e) (ItemBasedCF.item_mapping e)
                   (ItemBasedCF.reverse_item_mapping e)
                   (ItemBasedCF.user_item_matrix e)
  /\ shaped (List.length (ItemBasedCF.item_mapping e))
            (List.length (ItemBasedCF.item_mapping e))
            (ItemBasedCF.item_similarity_matrix e).
Proof.
  intros Hsq H. unfold ItemBasedCF.train in H.
  apply bind_inv in H as (b & Hb & H). apply bind_inv in H as (m & Hm & H).
  injection H as <-.
  cbn [ItemBasedCF.is_trained ItemBasedCF.user_mapping ItemBasedCF.item_mapping
       ItemBasedCF.reverse_item_mapping ItemBasedCF.user_item_matrix
       ItemBasedCF.item_similarity_matrix].
  pose proof (build_consistent _ _ Hb Hm) as Hc.
  split; [reflexivity|]. split; [exact Hc|].
  pose proof (Hsq (transpose 0 (List.length (UserBasedCF.b_item_mapping b)) m))
    as Hs.
  now rewrite transpose_length in Hs.
Qed.

Lemma user_similarity_returns (cosine : list Q -> list Q -> Q)
    (e : UserBasedCF.t) (item : uuid) (top_k : Z) :
  cf_consistent (UserBasedCF.user_mapping e) (UserBasedCF.item_mapping e)
                (UserBasedCF.reverse_item_mapping e)
                (UserBasedCF.user_item_matrix e) ->
  exists l, UserBasedCF.get_item_similarity cosine e item top_k = Return l.
Proof.
  intros Hc. unfold UserBasedCF.get_item_similarity.
  destruct (UserBasedCF.is_trained e); [|now exists []].
  destruct (dict_get String.eqb (UserBasedCF.item_mapping e) item)
    as [item_idx|]; [|now exists []].
  assert (Hcols : ncols (UserBasedCF.user_item_matrix e)
                  = List.length (UserBasedCF.item_mapping e)).
  { pose proof (consistent_users Hc). destruct Hc as (_ & Hshape & _).
    eapply shaped_ncols; eassumption. }
  match goal with
  | |- exists _, bind (for_each ?items ?body ?acc) _ = _ =>
      assert (Hloop : exists recs, for_each items body acc = Return recs);
      [apply for_each_returns_in | destruct Hloop as [recs ->]]
  end.
  - intros s idx Hidx. apply in_seq in Hidx. rewrite Hcols in Hidx.
    destruct (Nat.eqb idx item_idx); [eauto|].
    destruct (@consistent_lookup _ _ _ _ idx Hc) as (x & -> & _); [lia|].
    cbn [bind]. eauto.
  - cbn [bind]. eauto.
Qed.

Lemma item_similarity_returns (e : ItemBasedCF.t) (item : uuid) (top_k : Z) :
  cf_consistent (ItemBasedCF.user_mapping e) (ItemBasedCF.item_mapping e)
                (ItemBasedCF.reverse_item_mapping e)
                (ItemBasedCF.user_item_matrix e) ->
  shaped (List.length (ItemBasedCF.item_mapping e))
         (List.length (ItemBasedCF.item_mapping e))
         (ItemBasedCF.item_similarity_matrix e) ->
  exists l, ItemBasedCF.get_item_similarity e item top_k = Return l.
Proof.
  intros Hc Hsim.
  unfold ItemBasedCF.get_item_similarity, ItemBasedCF.get_item_similarity_with.
  destruct (ItemBasedCF.is_trained e); [|now exists []].
  destruct (dict_get String.eqb (ItemBasedCF.item_mapping e) item)
    as [item_idx|] eqn:Ei; [|now exists []].
  assert (Hi : (item_idx < List.length (ItemBasedCF.item_mapping e))%nat).
  { destruct Hc as (_ & _ & _ & H & _). eapply H. exact Ei. }
  destruct (@getitem_lt _ (ItemBasedCF.item_similarity_matrix e) item_idx)
    as (sims & -> & Hsims).
  { destruct Hsim as [-> _]. exact Hi. }
  cbn [bind].
  assert (Hsl : List.length sims = List.length (ItemBasedCF.item_mapping e)).
  { eapply shaped_row; eassumption. }
  apply for_each_returns_in. intros s k Hk.
  apply ranked_lt in Hk. rewrite Hsl in Hk.
  destruct (consistent_lookup Hc Hk) as (x & -> & _). cbn [bind].
  destruct (@getitem_lt _ sims k) as (sc & -> & _); [now rewrite Hsl|].
  cbn [bind]. eauto.
Qed.

(** X13: after a successful [train], with a similarity routine that
    returns a square matrix, the user-based and the item-based engine
    answer every request and every similarity query without raising. *)
Theorem trained_engines_always_answer :
  forall (cosine_similarity : matrix Q -> matrix Q)
         (cosine : list Q -> list Q -> Q)
         (interactions : list Interaction),
    square_similarity cosine_similarity ->
    (forall self e,
        UserBasedCF.train cosine_similarity self interactions = Return e ->
        forall context item top_k,
          (exists l, UserBasedCF.recommend e context = Return l)
          /\ (exists l, UserBasedCF.get_item_similarity cosine e item top_k
                        = Return l))
    /\ (forall self e,
          ItemBasedCF.train cosine_similarity self interactions = Return e ->
          forall context item top_k,
            (exists l, ItemBasedCF.recommend e context = Return l)
            /\ (exists l, ItemBasedCF.get_item_similarity e item top_k
                          = Return l)).
Proof.
  intros cosine_similarity cosine interactions Hsq. split.
  - intros self e He context item top_k.
    destruct (user_train_consistent _ _ Hsq He) as (_ & Hc & Hs). split.
    + now apply user_cf_returns.
    + now apply user_similarity_returns.
  - intros self e He context item top_k.
    destruct (item_train_consistent _ _ Hsq He) as (_ & Hc & Hs). split.
    + now apply item_cf_returns.
    + now apply item_similarity_returns.
Qed.

Lemma example_similarity_square : square_similarity Example.cosine_similarity.
Proof.
  intros m. unfold Example.cosine_similarity. split.
  - apply length_map.
  - apply Forall_forall. intros row Hrow.
    apply in_map_iff in Hrow as (a & <- & _). apply length_map.
Qed.

Lemma trained_engines_always_answer_witness :
  (exists l, UserBasedCF.recommend Example.user_cf
                                   (Example.request Example.u1 10 None)
             = Return l)
  /\ (exists l, ItemBasedCF.recommend Example.item_cf
                                      (Example.request Example.newcomer 10 None)
                = Return l).
Proof.
  destruct (@trained_engines_always_answer
              Example.cosine_similarity Example.cosine Example.interactions
              example_similarity_square) as [Hu Hi].
  split.
  - apply (Hu (UserBasedCF.init 50 5) Example.user_cf);
      [vm_compute; reflexivity | exact Example.i1 | exact 10%Z].
  - apply (Hi (ItemBasedCF.init 50 5) Example.item_cf);
      [vm_compute; reflexivity | exact Example.i1 | exact 10%Z].
Defined.

Lemma user_train_state (cosine_similarity : matrix Q -> matrix Q)
    (self e : UserBasedCF.t) (interactions : list Interaction) :
  UserBasedCF.train cosine_similarity self interactions = Return e ->
  let df := UserBasedCF.filter_frame (UserBasedCF.min_interactions self)
                                     interactions in
  UserBasedCF.is_trained e = true
  /\ df <> []
  /\ UserBasedCF.user_mapping e
     = UserBasedCF.index_of (unique (map i_user_id df))
  /\ UserBasedCF.item_mapping e
     = UserBasedCF.index_of (unique (map i_item_id df))
  /\ UserBasedCF.reverse_user_mapping e
     = UserBasedCF.reverse_index (UserBasedCF.user_mapping e)
  /\ UserBasedCF.reverse_item_mapping e
     = UserBasedCF.reverse_index (UserBasedCF.item_mapping e)
  /\ cf_consistent (UserBasedCF.user_mapping e) (UserBasedCF.item_mapping e)
                   (UserBasedCF.reverse_item_mapping e)
                   (UserBasedCF.user_item_matrix e).
Proof.
  intros H df. unfold UserBasedCF.train in H.
  apply bind_inv in H as (b & Hb & H). apply bind_inv in H as (m & Hm & H).
  injection H as <-.
  cbn [UserBasedCF.is_trained UserBasedCF.user_mapping UserBasedCF.item_mapping
       UserBasedCF.reverse_item_mapping UserBasedCF.reverse_user_mapping
       UserBasedCF.user_item_matrix].
  pose proof (build_consistent _ _ Hb Hm) as Hc.
  destruct (build_inv _ _ Hb) as (Hdf & Hum & Him & _).
  repeat (split; [first [reflexivity | assumption]|]). exact Hc.
Qed.

Lemma item_train_state (cosine_similarity : matrix Q -> matrix Q)
    (self e : ItemBasedCF.t) (interactions : list Interaction) :
  ItemBasedCF.train cosine_similarity self interactions = Return e ->
  let df := UserBasedCF.filter_frame (ItemBasedCF.min_interactions self)
                                     interactions in
  ItemBasedCF.is_trained e = true
  /\ df <> []
  /\ ItemBasedCF.user_mapping e
     = UserBasedCF.index_of (unique (map i_user_id df))
  /\ ItemBasedCF.item_mapping e
     = UserBasedCF.index_of (unique (map i_item_id df))
  /\ ItemBasedCF.reverse_user_mapping e
     = UserBasedCF.reverse_index (ItemBasedCF.user_mapping e)
  /\ ItemBasedCF.reverse_item_mapping e
     = UserBasedCF.reverse_index (ItemBasedCF.item_mapping e)
  /\ cf_consistent (ItemBasedCF.user_mapping e) (ItemBasedCF.item_mapping e)
                   (ItemBasedCF.reverse_item_mapping e)
                   (ItemBasedCF.user_item_matrix e).
Proof.
  intros H df. unfold ItemBasedCF.train in H.
  apply bind_inv in H as (b & Hb & H). apply bind_inv in H as (m & Hm & H).
  injection H as <-.
  cbn [ItemBasedCF.is_trained ItemBasedCF.user_mapping ItemBasedCF.item_mapping
       ItemBasedCF.reverse_item_mapping ItemBasedCF.reverse_user_mapping
       ItemBasedCF.user_item_matrix].
  pose proof (build_consistent _ _ Hb Hm) as Hc.
  destruct (build_inv _ _ Hb) as (Hdf & Hum & Him & _).
  repeat (split; [first [reflexivity | assumption]|]). exact Hc.
Qed.

Lemma dict_mem_get {K V : Type} (eqb : K -> K -> bool) (d : dict K V) (k : K) :
  dict_mem eqb d k = true <-> exists v, dict_get eqb d k = Some v.
Proof.
  unfold dict_mem. destruct (dict_get eqb d k) as [v|].
  - split; [eauto | reflexivity].
  - split; [discriminate | intros [v H]; discriminate].
Qed.

Lemma index_of_mem (ids : list uuid) (x : uuid) :
  NoDup ids ->
  dict_mem String.eqb (UserBasedCF.index_of ids) x = true <-> In x ids.
Proof.
  intros Hnd. rewrite dict_mem_get. split.
  - intros [k Hk]. apply index_of_get in Hk; [|exact Hnd].
    eapply nth_error_In. exact Hk.
  - intros Hin. apply In_nth_error in Hin as [k Hk]. exists k.
    now apply index_of_get.
Qed.

Lemma index_of_numbering (ids : list uuid) :
  numbering ids (UserBasedCF.index_of (unique ids))
            (UserBasedCF.reverse_index (UserBasedCF.index_of (unique ids))).
Proof.
  pose proof (unique_NoDup ids) as Hnd. split; [|split].
  - intros x k. rewrite reverse_index_get. now apply index_of_get.
  - intros k. rewrite index_of_length. split.
    + intros Hk. destruct (nth_error (unique ids) k) as [x|] eqn:E.
      * exists x. now apply index_of_get.
      * apply nth_error_None in E. exfalso. apply (Nat.lt_irrefl k).
        eapply Nat.lt_le_trans; eassumption.
    + intros [x Hx]. apply index_of_get in Hx; [|exact Hnd].
      apply nth_error_Some. congruence.
  - intros x. rewrite (index_of_mem x Hnd). apply unique_In.
Qed.

(** X14: a successful [train] numbers the users and the items of the rows
    that pass the minimum-interaction filter: the index and the reverse
    index are inverse to each other, the numbers are exactly those below
    the size of the index, the index knows exactly the identifiers of the
    kept rows, and the matrix has one row per user and one column per
    item. *)
Theorem train_numbers_users_and_items :
  forall (cosine_similarity : matrix Q -> matrix Q)
         (interactions : list Interaction),
    (forall self e,
        UserBasedCF.train cosine_similarity self interactions = Return e ->
        let df := UserBasedCF.filter_frame (UserBasedCF.min_interactions self)
                                           interactions in
        numbering (map i_user_id df) (UserBasedCF.user_mapping e)
                  (UserBasedCF.reverse_user_mapping e)
        /\ numbering (map i_item_id df) (UserBasedCF.item_mapping e)
                     (UserBasedCF.reverse_item_mapping e)
        /\ shaped (List.length (UserBasedCF.user_mapping e))
                  (List.length (UserBasedCF.item_mapping e))
                  (UserBasedCF.user_item_matrix e))
    /\ (forall self e,
          ItemBasedCF.train cosine_similarity self interactions = Return e ->
          let df := UserBasedCF.filter_frame (ItemBasedCF.min_interactions self)
                                             interactions in
          numbering (map i_user_id df) (ItemBasedCF.user_mapping e)
                    (ItemBasedCF.reverse_user_mapping e)
          /\ numbering (map i_item_id df) (ItemBasedCF.item_mapping e)
                       (ItemBasedCF.reverse_item_mapping e)
          /\ shaped (List.length (ItemBasedCF.user_mapping e))
                    (List.length (ItemBasedCF.item_mapping e))
                    (ItemBasedCF.user_item_matrix e)).
Proof.
  intros cosine_similarity interactions. split; intros self e He df.
  - destruct (user_train_state _ _ _ He)
      as (_ & _ & Hum & Him & Hrum & Hrim & Hc).
    fold df in Hum, Him.
    split; [|split].
    + rewrite Hrum, Hum. apply index_of_numbering.
    + rewrite Hrim, Him. apply index_of_numbering.
    + apply Hc.
  - destruct (item_train_state _ _ _ He)
      as (_ & _ & Hum & Him & Hrum & Hrim & Hc).
    fold df in Hum, Him.
    split; [|split].
    + rewrite Hrum, Hum. apply index_of_numbering.
    + rewrite Hrim, Him. apply index_of_numbering.
    + apply Hc.
Qed.

Lemma train_numbers_users_and_items_witness :
  numbering (map i_user_id
                 (UserBasedCF.filter_frame 5 Example.interactions))
            (UserBasedCF.user_mapping Example.user_cf)
            (UserBasedCF.reverse_user_mapping Example.user_cf)
  /\ shaped 6 6 (UserBasedCF.user_item_matrix Example.user_cf).
Proof.
  destruct (proj1 (train_numbers_users_and_items
                     Example.cosine_similarity Example.interactions)
                  (UserBasedCF.init 50 5) Example.user_cf)
    as (Hu & _ & Hs).
  - vm_compute. reflexivity.
  - split; [exact Hu | exact Hs].
Defined.

Lemma filter_frame_too_few (min_interactions : Z)
    (interactions : list Interaction) :
  (forall r, In r interactions ->
     (DataFrame.value_count i_user_id interactions (i_user_id r)
      < min_interactions)%Z
     \/ (DataFrame.value_count i_item_id interactions (i_item_id r)
         < min_interactions)%Z) ->
  UserBasedCF.filter_frame min_interactions interactions = [].
Proof.
  intros H. unfold UserBasedCF.filter_frame.
  destruct (filter _ interactions) as [|r rest] eqn:E; [reflexivity|].
  assert (Hin : In r (r :: rest)) by now left.
  rewrite <- E in Hin. apply filter_In in Hin as [Hin Hk].
  apply andb_true_iff in Hk as [Hu Hi].
  apply Z.leb_le in Hu. apply Z.leb_le in Hi.
  destruct (H r Hin); lia.
Qed.

Lemma value_count_le (field : Interaction -> uuid) (df : list Interaction)
    (x : uuid) :
  (DataFrame.value_count field df x <= Z.of_nat (List.length df))%Z.
Proof.
  unfold DataFrame.value_count.
  pose proof (filter_length_le (fun r => String.eqb (field r) x) df). lia.
Qed.

Lemma build_too_few (min_interactions : Z) (interactions : list Interaction) :
  (interactions = [] ->
   UserBasedCF.build_user_item_matrix min_interactions interactions
   = Raise KeyError)
  /\ (interactions <> [] ->
      UserBasedCF.filter_frame min_interactions interactions = [] ->
      UserBasedCF.build_user_item_matrix min_interactions interactions
      = Raise ValueError).
Proof.
  unfold UserBasedCF.build_user_item_matrix. split.
  - now intros ->.
  - intros Hne Hf. destruct interactions; [contradiction|]. now rewrite Hf.
Qed.

(** X15: [train] raises [ValueError] on records of which none has both a
    user and an item with at least [min_interactions] records; in
    particular on fewer than [min_interactions] records. *)
Theorem train_needs_enough_interactions :
  forall (cosine_similarity : matrix Q -> matrix Q)
         (interactions : list Interaction),
    interactions <> [] ->
    (forall self,
        (forall r, In r interactions ->
           (DataFrame.value_count i_user_id interactions (i_user_id r)
            < UserBasedCF.min_interactions self)%Z
           \/ (DataFrame.value_count i_item_id interactions (i_item_id r)
               < UserBasedCF.min_interactions self)%Z) ->
        UserBasedCF.train cosine_similarity self interactions
        = Raise ValueError)
    /\ (forall self,
          (forall r, In r interactions ->
             (DataFrame.value_count i_user_id interactions (i_user_id r)
              < ItemBasedCF.min_interactions self)%Z
             \/ (DataFrame.value_count i_item_id interactions (i_item_id r)
                 < ItemBasedCF.min_interactions self)%Z) ->
          ItemBasedCF.train cosine_similarity self interactions
          = Raise ValueError)
    /\ (forall self,
          (Z.of_nat (List.length interactions)
           < UserBasedCF.min_interactions self)%Z ->
          UserBasedCF.train cosine_similarity self interactions
          = Raise ValueError)
    /\ (forall self,
          (Z.of_nat (List.length interactions)
           < ItemBasedCF.min_interactions self)%Z ->
          ItemBasedCF.train cosine_similarity self interactions
          = Raise ValueError).
Proof.
  intros cosine_similarity interactions Hne.
  assert (Hu : forall self,
             (forall r, In r interactions ->
                (DataFrame.value_count i_user_id interactions (i_user_id r)
                 < UserBasedCF.min_interactions self)%Z
                \/ (DataFrame.value_count i_item_id interactions (i_item_id r)
                    < UserBasedCF.min_interactions self)%Z) ->
             UserBasedCF.train cosine_similarity self interactions
             = Raise ValueError).
  { intros self H. unfold UserBasedCF.train.
    rewrite (proj2 (build_too_few _ interactions) Hne
                   (@filter_frame_too_few _ _ H)).
    reflexivity. }
  assert (Hi : forall self,
             (forall r, In r interactions ->
                (DataFrame.value_count i_user_id interactions (i_user_id r)
                 < ItemBasedCF.min_interactions self)%Z
                \/ (DataFrame.value_count i_item_id interactions (i_item_id r)
                    < ItemBasedCF.min_interactions self)%Z) ->
             ItemBasedCF.train cosine_similarity self interactions
             = Raise ValueError).
  { intros self H. unfold ItemBasedCF.train.
    rewrite (proj2 (build_too_few _ interactions) Hne
                   (@filter_frame_too_few _ _ H)).
    reflexivity. }
  split; [exact Hu|]. split; [exact Hi|]. split.
  - intros self Hlen. apply Hu. intros r _. left.
    pose proof (value_count_le i_user_id interactions (i_user_id r)). lia.
  - intros self Hlen. apply Hi. intros r _. left.
    pose proof (value_count_le i_user_id interactions (i_user_id r)). lia.
Qed.

Lemma train_needs_enough_interactions_witness :
  UserBasedCF.train Example.cosine_similarity (UserBasedCF.init 50 5)
                    Example.rated_twice
  = Raise ValueError.
Proof.
  apply (proj1 (proj2 (proj2 (@train_needs_enough_interactions
                                Example.cosine_similarity Example.rated_twice
                                ltac:(discriminate))))
               (UserBasedCF.init 50 5)).
  vm_compute. reflexivity.
Defined.

Lemma dict_set_keys_In {K V : Type} (eqb : K -> K -> bool)
    (eqb_spec : forall x y, eqb x y = true <-> x = y)
    (d : dict K V) (k : K) (v : V) (k' : K) :
  In k' (dict_keys (dict_set eqb d k v)) -> k' = k \/ In k' (dict_keys d).
Proof.
  rewrite (dict_set_keys_append eqb eqb_spec), in_app_iff.
  intros [H|H]; [now right|].
  destruct (dict_mem eqb d k); [destruct H|].
  destruct H as [<-|[]]. now left.
Qed.

Lemma add_score_keys (d : dict uuid Q) (item : uuid) (v : Q) (k : uuid) :
  In k (dict_keys (add_score d item v)) -> k = item \/ In k (dict_keys d).
Proof. unfold add_score. apply (dict_set_keys_In String.eqb String.eqb_eq). Qed.

Lemma dict_item_get {K V : Type} (eqb : K -> K -> bool) (d : dict K V)
    (k : K) (v : V) :
  dict_item eqb d k = Return v -> dict_get eqb d k = Some v.
Proof.
  unfold dict_item. destruct (dict_get eqb d k); [|discriminate].
  intros H. now injection H as ->.
Qed.

Lemma ranked_items_In (r : reason) (d : dict uuid Q) (n : Z)
    (item : RecommendationItem) :
  In item (slice_to (sort_desc score (to_items r d)) n) ->
  In (item_id item) (dict_keys d).
Proof.
  intros H. apply slice_incl in H.
  apply (Permutation_in _ (Permutation_sym (sort_desc_perm _ _))) in H.
  unfold to_items in H. apply in_map_iff in H as (p & <- & Hp).
  cbn [item_id]. unfold dict_keys. now apply in_map.
Qed.

Lemma user_cf_keys_unseen (e : UserBasedCF.t) (context : RecommendationContext)
    (user_idx : nat) (user_vector : list Q) (l : list RecommendationItem) :
  UserBasedCF.is_trained e = true ->
  dict_get String.eqb (UserBasedCF.user_mapping e) (user_id context)
  = Some user_idx ->
  nth_error (UserBasedCF.user_item_matrix e) user_idx = Some user_vector ->
  UserBasedCF.recommend e context = Return l ->
  forall item, In item l ->
    cell_is (UserBasedCF.reverse_item_mapping e) user_vector
            (fun mine => mine == 0) (item_id item).
Proof.
  intros Ht Hu Hrow H item Hin. unfold UserBasedCF.recommend in H.
  rewrite Ht, Hu in H. cbn [negb] in H.
  unfold getitem at 1 in H. rewrite Hrow in H. cbn [bind] in H.
  apply bind_inv in H as (sims & _ & H).
  apply bind_inv in H as (recs & Hloop & H). injection H as <-.
  apply ranked_items_In in Hin.
  set (P := fun d : dict uuid Q =>
              forall x, In x (dict_keys d) ->
                        cell_is (UserBasedCF.reverse_item_mapping e) user_vector
                                (fun mine => mine == 0) x).
  assert (HP : P recs); [|exact (HP _ Hin)].
  refine (@for_each_invariant _ _ P _ _ _ _ _ _ Hloop); [|intros x []].
  intros s idx s' Hs Hbody.
  apply bind_inv in Hbody as (sc & _ & Hbody).
  apply bind_inv in Hbody as (vec & _ & Hbody).
  refine (@for_each_invariant _ _ P _ _ _ _ _ Hs Hbody).
  intros s0 p s1 Hs0 Hstep.
  destruct (Qltb 0 (snd p)); [|injection Hstep as <-; exact Hs0].
  apply bind_inv in Hstep as (mine & Hmine & Hstep).
  destruct (Qeq_bool mine 0) eqn:E; [|injection Hstep as <-; exact Hs0].
  apply bind_inv in Hstep as (x0 & Hx0 & Hstep). injection Hstep as <-.
  intros x Hx. apply add_score_keys in Hx as [-> | Hx]; [|now apply Hs0].
  exists (fst p), mine. split; [now apply dict_item_get|].
  split; [now apply getitem_nth | now apply Qeq_bool_iff].
Qed.

Lemma cell_is_consistent (um im : dict uuid nat) (rim : dict nat uuid)
    (m : matrix Q) (user_idx : nat) (user_vector : list Q) (ok : Q -> Prop)
    (x : uuid) :
  cf_consistent um im rim m ->
  nth_error m user_idx = Some user_vector ->
  cell_is rim user_vector ok x ->
  exists idx c, dict_get String.eqb im x = Some idx
                /\ matrix_get m user_idx idx = Some c /\ ok c.
Proof.
  intros (_ & _ & _ & _ & Hinv & _) Hrow (idx & mine & Hx & Hm & Hok).
  exists idx, mine. split; [now apply Hinv|]. split; [|exact Hok].
  unfold matrix_get. now rewrite Hrow.
Qed.

(** X16: for a user of the index, the user-based engine recommends only
    items of the item index whose cell in the user's row of the matrix is
    zero. *)
Theorem user_cf_recommends_unseen_items :
  forall (cosine_similarity : matrix Q -> matrix Q) (self e : UserBasedCF.t)
         (interactions : list Interaction) (context : RecommendationContext)
         (user_idx : nat) (l : list RecommendationItem),
    UserBasedCF.train cosine_similarity self interactions = Return e ->
    dict_get String.eqb (UserBasedCF.user_mapping e) (user_id context)
    = Some user_idx ->
    UserBasedCF.recommend e context = Return l ->
    forall item, In item l ->
      exists idx c,
        dict_get String.eqb (UserBasedCF.item_mapping e) (item_id item)
        = Some idx
        /\ matrix_get (UserBasedCF.user_item_matrix e) user_idx idx = Some c
        /\ c == 0.
Proof.
  intros cosine_similarity self e interactions context user_idx l He Hu Hl
         item Hin.
  destruct (user_train_state _ _ _ He) as (Ht & _ & _ & _ & _ & _ & Hc).
  assert (Hlt : (user_idx < List.length (UserBasedCF.user_mapping e))%nat).
  { destruct Hc as (_ & _ & H & _). eapply H. exact Hu. }
  destruct (consistent_row Hc Hlt) as (user_vector & Hrow & _).
  apply getitem_nth in Hrow.
  eapply (@cell_is_consistent _ _ _ _ _ _ (fun c => c == 0));
    [exact Hc|exact Hrow|].
  eapply user_cf_keys_unseen; eassumption.
Qed.

Lemma user_cf_recommends_unseen_items_witness :
  Forall
    (fun item =>
       exists idx c,
         dict_get String.eqb (UserBasedCF.item_mapping Example.user_cf)
                  (item_id item) = Some idx
         /\ matrix_get (UserBasedCF.user_item_matrix Example.user_cf) 0 idx
            = Some c
         /\ c == 0)
    (returned (UserBasedCF.recommend
                 Example.user_cf (Example.request Example.u1 10 None))).
Proof.
  apply Forall_forall.
  apply (@user_cf_recommends_unseen_items
           Example.cosine_similarity (UserBasedCF.init 50 5) Example.user_cf
           Example.interactions (Example.request Example.u1 10 None) 0%nat).
  - vm_compute. reflexivity.
  - vm_compute. reflexivity.
  - vm_compute. reflexivity.
Defined.

Lemma cf_cold_start_items (um : dict uuid nat) (rim : dict nat uuid)
    (m : matrix Q) (context : RecommendationContext)
    (l : list RecommendationItem) :
  cf_cold_start m um rim context = Return l ->
  forall item, In item l ->
    exists idx, dict_get Nat.eqb rim idx = Some (item_id item).
Proof.
  intros H. unfold cf_cold_start in H.
  set (P := fun recs : list RecommendationItem =>
              forall item, In item recs ->
                exists idx, dict_get Nat.eqb rim idx = Some (item_id item)).
  refine (@for_each_invariant _ _ P _ _ _ _ _ _ H); [|intros item []].
  intros s idx s' Hs Hbody.
  apply bind_inv in Hbody as (x & Hx & Hbody).
  apply bind_inv in Hbody as (p & _ & Hbody).
  destruct um; [discriminate|]. injection Hbody as <-.
  intros item Hin. apply in_app_iff in Hin as [Hin|[<-|[]]]; [now apply Hs|].
  exists idx. cbn [item_id]. now apply dict_item_get.
Qed.

Lemma nth_error_enumerate {A : Type} (l : list A) (i : nat) (x : A) :
  nth_error l i = Some x -> In (i, x) (enumerate l).
Proof.
  unfold enumerate.
  assert (H : forall start,
             nth_error l i = Some x ->
             In ((start + i)%nat, x) (combine (seq start (List.length l)) l)).
  { revert i. induction l as [|y t IH]; intros i start Hi.
    - now destruct i.
    - destruct i as [|i]; cbn [nth_error] in Hi;
        cbn [List.length seq combine In].
      + injection Hi as ->. left. f_equal. lia.
      + right. replace (start + S i)%nat with (S start + i)%nat by lia.
        now apply IH. }
  intros Hi. exact (H 0%nat Hi).
Qed.

Lemma no_positive_indices (v : list Q) (k : nat) (x : Q) :
  ItemBasedCF.positive_indices v = [] -> nth_error v k = Some x -> x <= 0.
Proof.
  intros Hnil Hk. apply Qltb_false.
  destruct (Qltb 0 x) eqn:E; [|reflexivity]. exfalso.
  assert (Hin : In k (ItemBasedCF.positive_indices v)).
  { unfold ItemBasedCF.positive_indices. apply in_map_iff.
    exists (k, x). split; [reflexivity|]. apply filter_In.
    split; [now apply nth_error_enumerate | exact E]. }
  rewrite Hnil in Hin. destruct Hin.
Qed.

Lemma item_cf_keys_unseen (e : ItemBasedCF.t) (context : RecommendationContext)
    (user_idx : nat) (user_vector : list Q) (l : list RecommendationItem) :
  cf_consistent (ItemBasedCF.user_mapping e) (ItemBasedCF.item_mapping e)
                (ItemBasedCF.reverse_item_mapping e)
                (ItemBasedCF.user_item_matrix e) ->
  ItemBasedCF.is_trained e = true ->
  dict_get String.eqb (ItemBasedCF.user_mapping e) (user_id context)
  = Some user_idx ->
  nth_error (ItemBasedCF.user_item_matrix e) user_idx = Some user_vector ->
  ItemBasedCF.recommend e context = Return l ->
  forall item, In item l ->
    cell_is (ItemBasedCF.reverse_item_mapping e) user_vector
            (fun mine => mine <= 0) (item_id item).
Proof.
  intros Hc Ht Hu Hrow H item Hin. unfold ItemBasedCF.recommend in H.
  rewrite Ht, Hu in H. cbn [negb] in H.
  unfold getitem at 1 in H. rewrite Hrow in H. cbn [bind] in H.
  destruct (ItemBasedCF.positive_indices user_vector) as [|i0 rest] eqn:Epos.
  - unfold ItemBasedCF._cold_start_recommend in H.
    destruct (@cf_cold_start_items _ _ _ _ _ H item Hin) as [idx Hidx].
    assert (Hi : dict_get String.eqb (ItemBasedCF.item_mapping e)
                          (item_id item) = Some idx).
    { destruct Hc as (_ & _ & _ & _ & Hinv & _). now apply Hinv. }
    assert (Hlt : (idx < List.length (ItemBasedCF.item_mapping e))%nat).
    { destruct Hc as (_ & _ & _ & Hb & _). eapply Hb. exact Hi. }
    assert (Hlen : List.length user_vector
                   = List.length (ItemBasedCF.item_mapping e)).
    { destruct Hc as (_ & Hshape & _). eapply shaped_row; eassumption. }
    destruct (nth_error user_vector idx) as [mine|] eqn:Em.
    + exists idx, mine. split; [exact Hidx|]. split; [exact Em|].
      eapply no_positive_indices; eassumption.
    + apply nth_error_None in Em. lia.
  - rewrite <- Epos in H. clear Epos.
    apply bind_inv in H as (recs & Hloop & H). injection H as <-.
    apply ranked_items_In in Hin.
    set (P := fun d : dict uuid Q =>
                forall x, In x (dict_keys d) ->
                  cell_is (ItemBasedCF.reverse_item_mapping e) user_vector
                          (fun mine => mine <= 0) x).
    assert (HP : P recs); [|exact (HP _ Hin)].
    refine (@for_each_invariant _ _ P _ _ _ _ _ _ Hloop); [|intros x []].
    intros s idx s' Hs Hbody.
    apply bind_inv in Hbody as (rating & _ & Hbody).
    apply bind_inv in Hbody as (sims & _ & Hbody).
    refine (@for_each_invariant _ _ P _ _ _ _ _ Hs Hbody).
    intros s0 k s1 Hs0 Hstep.
    apply bind_inv in Hstep as (mine & Hmine & Hstep).
    destruct (Qltb 0 mine) eqn:E; [injection Hstep as <-; exact Hs0|].
    apply bind_inv in Hstep as (sc & _ & Hstep).
    apply bind_inv in Hstep as (x0 & Hx0 & Hstep). injection Hstep as <-.
    intros x Hx. apply add_score_keys in Hx as [-> | Hx]; [|now apply Hs0].
    exists k, mine. split; [now apply dict_item_get|].
    split; [now apply getitem_nth | now apply Qltb_false].
Qed.

(** X17: for a user of the index, the item-based engine recommends only
    items of the item index whose cell in the user's row of the matrix is
    not positive. *)
Theorem item_cf_recommends_unseen_items :
  forall (cosine_similarity : matrix Q -> matrix Q) (self e : ItemBasedCF.t)
         (interactions : list Interaction) (context : RecommendationContext)
         (user_idx : nat) (l : list RecommendationItem),
    ItemBasedCF.train cosine_similarity self interactions = Return e ->
    dict_get String.eqb (ItemBasedCF.user_mapping e) (user_id context)
    = Some user_idx ->
    ItemBasedCF.recommend e context = Return l ->
    forall item, In item l ->
      exists idx c,
        dict_get String.eqb (ItemBasedCF.item_mapping e) (item_id item)
        = Some idx
        /\ matrix_get (ItemBasedCF.user_item_matrix e) user_idx idx = Some c
        /\ c <= 0.
Proof.
  intros cosine_similarity self e interactions context user_idx l He Hu Hl
         item Hin.
  destruct (item_train_state _ _ _ He) as (Ht & _ & _ & _ & _ & _ & Hc).
  assert (Hlt : (user_idx < List.length (ItemBasedCF.user_mapping e))%nat).
  { destruct Hc as (_ & _ & H & _). eapply H. exact Hu. }
  destruct (consistent_row Hc Hlt) as (user_vector & Hrow & _).
  apply getitem_nth in Hrow.
  eapply (@cell_is_consistent _ _ _ _ _ _ (fun c => c <= 0));
    [exact Hc|exact Hrow|].
  eapply item_cf_keys_unseen; eassumption.
Qed.

Lemma item_cf_recommends_unseen_items_witness :
  Forall
    (fun item =>
       exists idx c,
         dict_get String.eqb (ItemBasedCF.item_mapping Example.item_cf)
                  (item_id item) = Some idx
         /\ matrix_get (ItemBasedCF.user_item_matrix Example.item_cf) 0 idx
            = Some c
         /\ c <= 0)
    (returned (ItemBasedCF.recommend
                 Example.item_cf (Example.request Example.u1 10 None))).
Proof.
  apply Forall_forall.
  apply (@item_cf_recommends_unseen_items
           Example.cosine_similarity (ItemBasedCF.init 50 5) Example.item_cf
           Example.interactions (Example.request Example.u1 10 None) 0%nat).
  - vm_compute. reflexivity.
  - vm_compute. reflexivity.
  - vm_compute. reflexivity.
Defined.

(** ** numpy's argsort and the rankings built on it *)

Lemma insert_asc_sorted {A : Type} (key : A -> Q) (x : A) (l : list A) :
  StronglySorted (fun a b => key a <= key b) l ->
  StronglySorted (fun a b => key a <= key b) (insert_asc key x l).
Proof.
  induction 1 as [|y t Hs IH Hall]; cbn [insert_asc].
  - repeat constructor.
  - destruct (Qltb (key y) (key x)) eqn:E.
    + constructor; [exact IH|].
      apply (Permutation_Forall (insert_asc_perm key x t)).
      constructor; [|exact Hall]. apply Qlt_le_weak. now apply Qltb_true.
    + apply Qltb_false in E. constructor; [now constructor|].
      constructor; [exact E|].
      eapply Forall_impl; [|exact Hall]. intros z Hz. cbv beta in *.
      eapply Qle_trans; eassumption.
Qed.

Lemma sorted_pairs (a : list Q) :
  StronglySorted (fun p q : nat * Q => snd p <= snd q)
                 (fold_right (insert_asc snd) [] (enumerate a)).
Proof.
  induction (enumerate a) as [|p t IH]; cbn [fold_right].
  - constructor.
  - now apply insert_asc_sorted.
Qed.

Lemma sorted_pairs_perm (a : list Q) :
  Permutation (enumerate a) (fold_right (insert_asc snd) [] (enumerate a)).
Proof.
  induction (enumerate a) as [|p t IH]; cbn [fold_right].
  - constructor.
  - eapply Permutation_trans; [|apply insert_asc_perm].
    now constructor.
Qed.

Lemma StronglySorted_map {A B : Type} (R : B -> B -> Prop) (f : A -> B)
    (l : list A) :
  StronglySorted (fun a b => R (f a) (f b)) l -> StronglySorted R (map f l).
Proof.
  induction 1 as [|x t Hs IH Hall]; cbn [map]; constructor.
  - exact IH.
  - apply Forall_map. exact Hall.
Qed.

Lemma StronglySorted_impl_in {A : Type} (R R' : A -> A -> Prop) (l : list A) :
  (forall a b, In a l -> In b l -> R a b -> R' a b) ->
  StronglySorted R l -> StronglySorted R' l.
Proof.
  intros H Hs. induction Hs as [|x t Hs IH Hall]; constructor.
  - apply IH. intros a b Ha Hb. apply H; now right.
  - apply Forall_forall. intros b Hb. rewrite Forall_forall in Hall.
    apply H; [now left | now right | now apply Hall].
Qed.

Lemma StronglySorted_app {A : Type} (R : A -> A -> Prop) (l r : list A) :
  StronglySorted R l -> StronglySorted R r ->
  (forall a b, In a l -> In b r -> R a b) ->
  StronglySorted R (l ++ r).
Proof.
  intros Hl Hr Hlr. induction Hl as [|x t Hs IH Hall]; cbn [app];
    [exact Hr|].
  constructor.
  - apply IH. intros a b Ha Hb. apply Hlr; [now right | exact Hb].
  - apply Forall_app. split; [exact Hall|].
    apply Forall_forall. intros b Hb. apply Hlr; [now left | exact Hb].
Qed.

Lemma StronglySorted_rev {A : Type} (R : A -> A -> Prop) (l : list A) :
  StronglySorted R l -> StronglySorted (fun a b => R b a) (rev l).
Proof.
  induction 1 as [|x t Hs IH Hall]; cbn [rev]; [constructor|].
  apply StronglySorted_app; [exact IH | repeat constructor|].
  intros a b Ha [<-|[]]. apply in_rev in Ha.
  rewrite Forall_forall in Hall. now apply Hall.
Qed.

Lemma skipn_StronglySorted {A : Type} (R : A -> A -> Prop) (l : list A) :
  StronglySorted R l -> forall k, StronglySorted R (skipn k l).
Proof.
  induction 1 as [|x t Hs IH Hall]; intros [|k]; cbn [skipn];
    try constructor; try assumption.
  apply IH.
Qed.

Lemma slice_StronglySorted {A : Type} (R : A -> A -> Prop) (l : list A)
    (a b : Z) :
  StronglySorted R l -> StronglySorted R (slice l a b).
Proof.
  intros H. unfold slice. apply firstn_StronglySorted.
  now apply skipn_StronglySorted.
Qed.

(** The indices of [a] from the largest value to the smallest. *)
Lemma ranked_descending (a : list Q) (start stop : Z) :
  StronglySorted (fun i j => nth j a 0 <= nth i a 0)
                 (slice (rev (argsort a)) start stop).
Proof.
  apply slice_StronglySorted.
  apply (@StronglySorted_rev _ (fun i j => nth i a 0 <= nth j a 0)).
  unfold argsort. apply StronglySorted_map.
  eapply StronglySorted_impl_in; [|apply sorted_pairs].
  intros p q Hp Hq Hpq. cbv beta.
  apply (Permutation_in _ (Permutation_sym (sorted_pairs_perm a))) in Hp.
  apply (Permutation_in _ (Permutation_sym (sorted_pairs_perm a))) in Hq.
  apply enumerate_In in Hp. apply enumerate_In in Hq.
  rewrite (nth_error_nth _ _ 0 Hp), (nth_error_nth _ _ 0 Hq). exact Hpq.
Qed.

Lemma ranked_NoDup (a : list Q) (start stop : Z) :
  NoDup (slice (rev (argsort a)) start stop).
Proof.
  assert (Hnd : NoDup (rev (argsort a))).
  { apply (Permutation_NoDup (Permutation_rev (argsort a))).
    apply (Permutation_NoDup (Permutation_sym (argsort_permutation a))).
    apply seq_NoDup. }
  unfold slice. generalize (rev (argsort a)) Hnd. intros l H.
  apply (@subsequence_NoDup _ _ l); [|exact H].
  eapply subsequence_trans; [apply firstn_subsequence|].
  clear. generalize (Z.to_nat (clamp_index (Z.of_nat (List.length l)) start)).
  induction l as [|x l IH]; intros [|k]; cbn [skipn].
  - constructor.
  - constructor.
  - apply subsequence_refl.
  - apply subseq_drop. apply IH.
Qed.

Lemma for_each_collect {A B : Type} (f : A -> B)
    (body : list B -> A -> Exc (list B)) (l : list A) :
  (forall s x, In x l -> body s x = Return (s ++ [f x])) ->
  forall s, for_each l body s = Return (s ++ map f l).
Proof.
  induction l as [|x l IH]; intros Hb s; cbn [for_each map].
  - now rewrite app_nil_r.
  - rewrite Hb by now left. cbn [bind]. rewrite IH.
    + now rewrite <- app_assoc.
    + intros s0 y Hy. apply Hb. now right.
Qed.

Lemma column_sums_nth (n : nat) (m : matrix Q) (idx : nat) :
  (idx < n)%nat ->
  nth_error (column_sums n m) idx = Some (sum_list (column 0 m idx)).
Proof.
  intros H. unfold column_sums.
  rewrite nth_error_map, (nth_error_nth' _ 0%nat) by now rewrite length_seq.
  now rewrite seq_nth.
Qed.

Lemma cf_cold_start_ranking (um im : dict uuid nat) (rim : dict nat uuid)
    (m : matrix Q) (context : RecommendationContext) :
  cf_consistent um im rim m ->
  cf_cold_start m um rim context
  = Return (map (popular_item um rim m)
                (slice_to (rev (argsort (column_sums (List.length im) m)))
                          (num_recommendations context))).
Proof.
  intros Hc. unfold cf_cold_start.
  pose proof (consistent_users Hc) as Hnu.
  assert (Hcols : ncols m = List.length im).
  { destruct Hc as (_ & Hshape & _). eapply shaped_ncols; eassumption. }
  rewrite Hcols.
  rewrite (for_each_collect (popular_item um rim m)); [reflexivity|].
  intros s idx Hidx. apply ranked_lt in Hidx.
  rewrite column_sums_length in Hidx.
  destruct (consistent_lookup Hc Hidx) as (x & Hx & _). rewrite Hx.
  cbn [bind]. unfold getitem. rewrite (column_sums_nth m Hidx). cbn [bind].
  destruct um; [cbn [List.length] in Hnu; lia|].
  unfold popular_item. now rewrite (dict_item_get _ _ _ Hx).
Qed.

Lemma cold_start_ranking_spec (um im : dict uuid nat) (rim : dict nat uuid)
    (m : matrix Q) (context : RecommendationContext) :
  cf_consistent um im rim m ->
  exists l,
    cf_cold_start m um rim context = Return l
    /\ descending score l
    /\ NoDup (map item_id l)
    /\ Forall
         (fun item =>
            item_reason item = Some PopularColdStart
            /\ exists idx,
                dict_get String.eqb im (item_id item) = Some idx
                /\ score item
                   == sum_list (column 0 m idx)
                      / inject_Z (Z.of_nat (List.length um)))
         l.
Proof.
  intros Hc. rewrite (cf_cold_start_ranking context Hc).
  eexists. split; [reflexivity|].
  set (pop := column_sums (List.length im) m).
  set (idxs := slice_to (rev (argsort pop)) (num_recommendations context)).
  assert (Hlt : forall idx, In idx idxs -> (idx < List.length im)%nat).
  { intros idx Hidx. apply ranked_lt in Hidx. unfold pop in Hidx.
    now rewrite column_sums_length in Hidx. }
  pose proof (consistent_users Hc) as Hnu.
  assert (Hn : 0 < inject_Z (Z.of_nat (List.length um))).
  { change 0 with (inject_Z 0). rewrite <- Zlt_Qlt. lia. }
  split; [|split].
  - unfold descending. apply StronglySorted_map.
    eapply StronglySorted_impl_in; [|apply (ranked_descending pop)].
    intros i j Hi Hj Hij. cbv beta. cbn [popular_item score].
    apply Hlt in Hi. apply Hlt in Hj.
    pose proof (column_sums_nth m Hi) as Ei.
    pose proof (column_sums_nth m Hj) as Ej.
    fold pop in Ei, Ej. cbv beta in Hij.
    rewrite (nth_error_nth _ _ 0 Ei), (nth_error_nth _ _ 0 Ej) in Hij.
    unfold Qdiv. apply Qmult_le_compat_r; [exact Hij|].
    apply Qlt_le_weak. now apply Qinv_lt_0_compat.
  - rewrite map_map. cbn [popular_item item_id].
    assert (Hnd : NoDup idxs) by apply ranked_NoDup.
    revert Hnd Hlt. generalize idxs. clear idxs.
    induction 1 as [|i t Hnotin Hnd IH]; intros Hlt; cbn [map]; constructor.
    + intros Hin. apply in_map_iff in Hin as (j & Hj & Hjin).
      destruct (@consistent_lookup _ _ _ _ i Hc) as (x & Hx & Hix);
        [apply Hlt; now left|].
      destruct (@consistent_lookup _ _ _ _ j Hc) as (y & Hy & Hjy);
        [apply Hlt; now right|].
      rewrite (dict_item_get _ _ _ Hx), (dict_item_get _ _ _ Hy) in Hj.
      subst y. rewrite Hix in Hjy. injection Hjy as ->. contradiction.
    + apply IH. intros j Hj. apply Hlt. now right.
  - apply Forall_map, Forall_forall. intros idx Hidx.
    split; [reflexivity|]. exists idx. cbn [popular_item item_id score].
    destruct (@consistent_lookup _ _ _ _ idx Hc) as (x & Hx & Hix);
      [now apply Hlt|].
    rewrite (dict_item_get _ _ _ Hx). split; [exact Hix | reflexivity].
Qed.

(** X18: for a user outside the index, a trained collaborative engine
    answers with distinct items of the item index in descending order of
    score, the score of an item being the sum of its column of the matrix
    divided by the number of users of the index, and the reason the
    cold-start one. *)
Theorem cold_start_ranks_by_popularity :
  forall (cosine_similarity : matrix Q -> matrix Q)
         (interactions : list Interaction) (context : RecommendationContext),
    (forall self e,
        UserBasedCF.train cosine_similarity self interactions = Return e ->
        dict_get String.eqb (UserBasedCF.user_mapping e) (user_id context)
        = None ->
        exists l,
          UserBasedCF.recommend e context = Return l
          /\ descending score l
          /\ NoDup (map item_id l)
          /\ Forall
               (fun item =>
                  item_reason item = Some PopularColdStart
                  /\ exists idx,
                      dict_get String.eqb (UserBasedCF.item_mapping e)
                               (item_id item) = Some idx
                      /\ score item
                         == sum_list (column 0 (UserBasedCF.user_item_matrix e)
                                             idx)
                            / inject_Z (Z.of_nat
                                          (List.length
                                             (UserBasedCF.user_mapping e))))
               l)
    /\ (forall self e,
          ItemBasedCF.train cosine_similarity self interactions = Return e ->
          dict_get String.eqb (ItemBasedCF.user_mapping e) (user_id context)
          = None ->
          exists l,
            ItemBasedCF.recommend e context = Return l
            /\ descending score l
            /\ NoDup (map item_id l)
            /\ Forall
                 (fun item =>
                    item_reason item = Some PopularColdStart
                    /\ exists idx,
                        dict_get String.eqb (ItemBasedCF.item_mapping e)
                                 (item_id item) = Some idx
                        /\ score item
                           == sum_list
                                (column 0 (ItemBasedCF.user_item_matrix e) idx)
                              / inject_Z (Z.of_nat
                                            (List.length
                                               (ItemBasedCF.user_mapping e))))
                 l).
Proof.
  intros cosine_similarity interactions context. split; intros self e He Hu.
  - destruct (user_train_state _ _ _ He) as (Ht & _ & _ & _ & _ & _ & Hc).
    unfold UserBasedCF.recommend. rewrite Ht, Hu. cbn [negb].
    apply (cold_start_ranking_spec context Hc).
  - destruct (item_train_state _ _ _ He) as (Ht & _ & _ & _ & _ & _ & Hc).
    unfold ItemBasedCF.recommend. rewrite Ht, Hu. cbn [negb].
    apply (cold_start_ranking_spec context Hc).
Qed.

Lemma cold_start_ranks_by_popularity_witness :
  exists l,
    UserBasedCF.recommend Example.user_cf
                          (Example.request Example.newcomer 3 None)
    = Return l
    /\ descending score l
    /\ NoDup (map item_id l)
    /\ Forall
         (fun item =>
            item_reason item = Some PopularColdStart
            /\ exists idx,
                dict_get String.eqb (UserBasedCF.item_mapping Example.user_cf)
                         (item_id item) = Some idx
                /\ score item
                   == sum_list
                        (column 0 (UserBasedCF.user_item_matrix Example.user_cf)
                                idx)
                      / inject_Z
                          (Z.of_nat
                             (List.length
                                (UserBasedCF.user_mapping Example.user_cf))))
         l.
Proof.
  apply (proj1 (cold_start_ranks_by_popularity
                  Example.cosine_similarity Example.interactions
                  (Example.request Example.newcomer 3 None))
               (UserBasedCF.init 50 5) Example.user_cf).
  - vm_compute. reflexivity.
  - vm_compute. reflexivity.
Defined.

Lemma length_slice_from {A : Type} (l : list A) (k : Z) :
  (0 <= k)%Z -> (Z.of_nat (List.length (slice l 1 (k + 1))) <= k)%Z.
Proof.
  intros Hk. unfold slice, clamp_index.
  change (1 <? 0)%Z with false. cbv iota.
  assert (Hk1 : (k + 1 <? 0)%Z = false) by (apply Z.ltb_ge; lia).
  rewrite Hk1. rewrite length_firstn. lia.
Qed.

(** X19: the similarity query of the trained user-based engine returns
    pairs in descending order of similarity, for items of the item index
    other than the queried one, not more than [top_k] of them when [top_k]
    is not negative, and none for an item outside the index. *)
Theorem user_cf_similarity_excludes_query :
  forall (cosine_similarity : matrix Q -> matrix Q)
         (cosine : list Q -> list Q -> Q) (self e : UserBasedCF.t)
         (interactions : list Interaction) (item : uuid) (top_k : Z),
    UserBasedCF.train cosine_similarity self interactions = Return e ->
    exists l,
      UserBasedCF.get_item_similarity cosine e item top_k = Return l
      /\ ~ In item (map fst l)
      /\ descending snd l
      /\ Forall (fun p => dict_mem String.eqb (UserBasedCF.item_mapping e)
                                   (fst p) = true) l
      /\ ((0 <= top_k)%Z -> (Z.of_nat (List.length l) <= top_k)%Z)
      /\ (dict_mem String.eqb (UserBasedCF.item_mapping e) item = false ->
          l = []).
Proof.
  intros cosine_similarity cosine self e interactions item top_k He.
  destruct (user_train_state _ _ _ He) as (Ht & _ & _ & _ & _ & _ & Hc).
  destruct (user_similarity_returns cosine e item top_k Hc) as [l Hl].
  exists l. split; [exact Hl|].
  unfold UserBasedCF.get_item_similarity in Hl. rewrite Ht in Hl.
  destruct (dict_get String.eqb (UserBasedCF.item_mapping e) item)
    as [item_idx|] eqn:Ei.
  - apply bind_inv in Hl as (sims & Hloop & Hl). injection Hl as <-.
    set (P := fun acc : list (uuid * Q) =>
                forall p, In p acc ->
                  exists idx, idx <> item_idx
                              /\ dict_get Nat.eqb
                                          (UserBasedCF.reverse_item_mapping e)
                                          idx = Some (fst p)).
    assert (HP : P sims).
    { refine (@for_each_invariant _ _ P _ _ _ _ _ _ Hloop); [|intros p []].
      intros s idx s' Hs Hbody.
      destruct (Nat.eqb idx item_idx) eqn:E;
        [injection Hbody as <-; exact Hs|].
      apply bind_inv in Hbody as (other & Hother & Hbody).
      injection Hbody as <-. intros p Hp.
      apply in_app_iff in Hp as [Hp|[<-|[]]]; [now apply Hs|].
      exists idx. split; [now apply Nat.eqb_neq|].
      now apply dict_item_get. }
    assert (Hin : forall p, In p (slice_to (sort_desc snd sims) top_k) ->
                            In p sims).
    { intros p Hp. apply slice_incl in Hp.
      exact (Permutation_in _ (Permutation_sym (sort_desc_perm snd sims)) Hp). }
    destruct Hc as (_ & _ & _ & _ & Hinv & _).
    split; [|split; [|split; [|split]]].
    + intros Hq. apply in_map_iff in Hq as (p & Hp & Hq).
      destruct (HP p (Hin p Hq)) as (idx & Hne & Hidx).
      rewrite Hp in Hidx. apply Hinv in Hidx. congruence.
    + apply slice_to_descending, sort_desc_sorted.
    + apply Forall_forall. intros p Hp.
      destruct (HP p (Hin p Hp)) as (idx & _ & Hidx).
      apply Hinv in Hidx. apply dict_mem_get. eexists. exact Hidx.
    + apply length_slice_to.
    + unfold dict_mem. rewrite Ei. discriminate.
  - injection Hl as <-. repeat split; try constructor.
    + intros [].
    + cbn [List.length]. lia.
Qed.

Lemma user_cf_similarity_excludes_query_witness :
  exists l,
    UserBasedCF.get_item_similarity Example.cosine Example.user_cf
                                    Example.i1 3 = Return l
    /\ ~ In Example.i1 (map fst l)
    /\ descending snd l
    /\ Forall (fun p => dict_mem String.eqb
                                 (UserBasedCF.item_mapping Example.user_cf)
                                 (fst p) = true) l
    /\ ((0 <= 3)%Z -> (Z.of_nat (List.length l) <= 3)%Z)
    /\ (dict_mem String.eqb (UserBasedCF.item_mapping Example.user_cf)
                 Example.i1 = false ->
        l = []).
Proof.
  apply (@user_cf_similarity_excludes_query
           Example.cosine_similarity Example.cosine (UserBasedCF.init 50 5)
           Example.user_cf Example.interactions Example.i1 3).
  vm_compute. reflexivity.
Defined.

Lemma item_similarity_ranking (e : ItemBasedCF.t) (similarities : list Q)
    (top_k : Z) :
  cf_consistent (ItemBasedCF.user_mapping e) (ItemBasedCF.item_mapping e)
                (ItemBasedCF.reverse_item_mapping e)
                (ItemBasedCF.user_item_matrix e) ->
  List.length similarities = List.length (ItemBasedCF.item_mapping e) ->
  for_each (slice (rev (argsort similarities)) 1 (top_k + 1))
    (fun result idx =>
       similar_item <-
         dict_item Nat.eqb (ItemBasedCF.reverse_item_mapping e) idx ;;
       similarity_score <- getitem similarities idx ;;
       Return (result ++ [(similar_item, similarity_score)]))
    []
  = Return (map (fun idx =>
                   (match dict_get Nat.eqb (ItemBasedCF.reverse_item_mapping e)
                                   idx with
                    | Some x => x
                    | None => ""%string
                    end,
                    nth idx similarities 0))
                (slice (rev (argsort similarities)) 1 (top_k + 1))).
Proof.
  intros Hc Hlen.
  rewrite (for_each_collect
             (fun idx =>
                (match dict_get Nat.eqb (ItemBasedCF.reverse_item_mapping e)
                                idx with
                 | Some x => x
                 | None => ""%string
                 end,
                 nth idx similarities 0))); [reflexivity|].
  intros s idx Hidx. apply ranked_lt in Hidx.
  destruct (@consistent_lookup _ _ _ _ idx Hc) as (x & Hx & _);
    [now rewrite <- Hlen|].
  rewrite Hx. cbn [bind].
  destruct (getitem_lt similarities Hidx) as (sc & Hsc & Hnth).
  rewrite Hsc. cbn [bind].
  now rewrite (dict_item_get _ _ _ Hx), (nth_error_nth _ _ 0 Hnth).
Qed.

(** X20: the similarity query of the trained item-based engine returns
    pairs in descending order of similarity, for distinct items of the
    item index, not more than [top_k] of them when [top_k] is not
    negative, and none for an item outside the index. *)
Theorem item_cf_similarity_is_ranked :
  forall (cosine_similarity : matrix Q -> matrix Q) (self e : ItemBasedCF.t)
         (interactions : list Interaction) (item : uuid) (top_k : Z),
    square_similarity cosine_similarity ->
    ItemBasedCF.train cosine_similarity self interactions = Return e ->
    exists l,
      ItemBasedCF.get_item_similarity e item top_k = Return l
      /\ descending snd l
      /\ NoDup (map fst l)
      /\ Forall (fun p => dict_mem String.eqb (ItemBasedCF.item_mapping e)
                                   (fst p) = true) l
      /\ ((0 <= top_k)%Z -> (Z.of_nat (List.length l) <= top_k)%Z)
      /\ (dict_mem String.eqb (ItemBasedCF.item_mapping e) item = false ->
          l = []).
Proof.
  intros cosine_similarity self e interactions item top_k Hsq He.
  destruct (item_train_consistent _ _ Hsq He) as (Ht & Hc & Hsim).
  unfold ItemBasedCF.get_item_similarity, ItemBasedCF.get_item_similarity_with.
  rewrite Ht.
  destruct (dict_get String.eqb (ItemBasedCF.item_mapping e) item)
    as [item_idx|] eqn:Ei.
  - assert (Hi : (item_idx < List.length (ItemBasedCF.item_mapping e))%nat).
    { destruct Hc as (_ & _ & _ & H & _). eapply H. exact Ei. }
    destruct (@getitem_lt _ (ItemBasedCF.item_similarity_matrix e) item_idx)
      as (sims & -> & Hsims).
    { destruct Hsim as [-> _]. exact Hi. }
    cbn [bind].
    assert (Hsl : List.length sims = List.length (ItemBasedCF.item_mapping e)).
    { eapply shaped_row; eassumption. }
    rewrite (@item_similarity_ranking e sims top_k Hc Hsl).
    eexists. split; [reflexivity|].
    set (idxs := slice (rev (argsort sims)) 1 (top_k + 1)).
    assert (Hlt : forall idx, In idx idxs ->
                    (idx < List.length (ItemBasedCF.item_mapping e))%nat).
    { intros idx Hidx. apply ranked_lt in Hidx. now rewrite <- Hsl. }
    split; [|split; [|split; [|split]]].
    + unfold descending. apply StronglySorted_map. cbn [snd].
      apply ranked_descending.
    + rewrite map_map. cbn [fst].
      assert (Hnd : NoDup idxs) by apply ranked_NoDup.
      revert Hnd Hlt. generalize idxs. clear idxs.
      induction 1 as [|i t Hnotin Hnd IH]; intros Hlt; cbn [map]; constructor.
      * intros Hin. apply in_map_iff in Hin as (j & Hj & Hjin).
        destruct (@consistent_lookup _ _ _ _ i Hc) as (x & Hx & Hix);
          [apply Hlt; now left|].
        destruct (@consistent_lookup _ _ _ _ j Hc) as (y & Hy & Hjy);
          [apply Hlt; now right|].
        rewrite (dict_item_get _ _ _ Hx), (dict_item_get _ _ _ Hy) in Hj.
        subst y. rewrite Hix in Hjy. injection Hjy as ->. contradiction.
      * apply IH. intros j Hj. apply Hlt. now right.
    + apply Forall_map, Forall_forall. intros idx Hidx. cbn [fst].
      destruct (@consistent_lookup _ _ _ _ idx Hc) as (x & Hx & Hix);
        [now apply Hlt|].
      rewrite (dict_item_get _ _ _ Hx). apply dict_mem_get. eexists.
      exact Hix.
    + intros Hk. rewrite length_map. now apply length_slice_from.
    + unfold dict_mem. rewrite Ei. discriminate.
  - exists []. repeat split; try constructor.
    cbn [List.length]. lia.
Qed.

Lemma item_cf_similarity_is_ranked_witness :
  exists l,
    ItemBasedCF.get_item_similarity Example.item_cf Example.i1 3 = Return l
    /\ descending snd l
    /\ NoDup (map fst l)
    /\ Forall (fun p => dict_mem String.eqb
                                 (ItemBasedCF.item_mapping Example.item_cf)
                                 (fst p) = true) l
    /\ ((0 <= 3)%Z -> (Z.of_nat (List.length l) <= 3)%Z)
    /\ (dict_mem String.eqb (ItemBasedCF.item_mapping Example.item_cf)
                 Example.i1 = false ->
        l = []).
Proof.
  apply (@item_cf_similarity_is_ranked
           Example.cosine_similarity (ItemBasedCF.init 50 5)
           Example.item_cf Example.interactions Example.i1 3
           example_similarity_square).
  vm_compute. reflexivity.
Defined.

(** ** content_based.py *)

Lemma for_each_invariant_in {A S : Type} (P : S -> Prop)
    (body : S -> A -> Exc S) (l : list A) :
  (forall s x s', In x l -> P s -> body s x = Return s' -> P s') ->
  forall acc acc',
    P acc -> for_each l body acc = Return acc' -> P acc'.
Proof.
  induction l as [|x l IH]; intros Hb acc acc' Hacc H; cbn [for_each] in H.
  - now injection H as <-.
  - apply bind_inv in H as (s & Hs & H).
    refine (IH _ s acc' _ H).
    + intros s0 y s1 Hy. apply Hb. now right.
    + eapply Hb; [now left | exact Hacc | exact Hs].
Qed.

Lemma ranked_In {A : Type} (key : A -> Q) (l : list A) (n : Z) (x : A) :
  In x (slice_to (sort_desc key l) n) -> In x l.
Proof.
  intros H. apply slice_incl in H.
  exact (Permutation_in _ (Permutation_sym (sort_desc_perm key l)) H).
Qed.

(** X21: for a user with a profile, the content engine returns its items
    in descending order of score, not more than a non-negative request
    asks for; each of them is outside [exclude_items], scores the cosine
    of the profile with the item's row of features, and has its category
    in [include_categories] when that list is not empty and outside
    [exclude_categories]. *)
Theorem content_recommend_applies_filters :
  forall (cosine : list Q -> list Q -> Q) (e : ContentBased.t)
         (context : RecommendationContext) (profile : list Q)
         (l : list RecommendationItem),
    ContentBased.is_trained e = true ->
    dict_get String.eqb (ContentBased.user_profiles e) (user_id context)
    = Some profile ->
    ContentBased.recommend cosine e context = Return l ->
    descending score l
    /\ ((0 <= num_recommendations context)%Z -> within_request context l)
    /\ Forall
         (fun item =>
            ~ In (item_id item) (opt_list (exclude_items context))
            /\ (exists idx row,
                   dict_get Nat.eqb (ContentBased.reverse_item_mapping e) idx
                   = Some (item_id item)
                   /\ nth_error (ContentBased.combined_features_matrix e) idx
                      = Some row
                   /\ score item = cosine profile row
                   /\ item_reason item = Some (ContentSimilarity (score item)))
            /\ exists features,
                dict_get String.eqb (ContentBased.item_features e)
                         (item_id item) = Some features
                /\ (truthy_list (include_categories context) = true ->
                    In (category features)
                       (opt_list (include_categories context)))
                /\ ~ In (category features)
                        (opt_list (exclude_categories context)))
         l.
Proof.
  intros cosine e context profile l Ht Hp H.
  unfold ContentBased.recommend in H. rewrite Ht, Hp in H. cbn [negb] in H.
  apply bind_inv in H as (recs & Hloop & H). injection H as <-.
  split; [apply slice_to_descending, sort_desc_sorted|].
  split; [apply within_slice_to|].
  apply Forall_forall. intros item Hin. apply ranked_In in Hin.
  pattern item.
  match goal with
  | |- ?Q item =>
      set (P := fun acc : list RecommendationItem =>
                  forall it, In it acc -> Q it)
  end.
  assert (HP : P recs); [|exact (HP item Hin)]. clear item Hin.
  refine (@for_each_invariant_in _ _ P _ _ _ _ _ _ Hloop); [|intros item []].
  intros s p s' Hp' Hs Hbody.
  apply enumerate_In in Hp'. rewrite nth_error_map in Hp'.
  destruct (nth_error (ContentBased.combined_features_matrix e) (fst p))
    as [row|] eqn:Erow; [|discriminate].
  cbn [option_map] in Hp'. injection Hp' as Hsim.
  cbv beta zeta in Hbody.
  apply bind_inv in Hbody as (x & Hx & Hbody).
  destruct (truthy_list (exclude_items context)
            && mem x (opt_list (exclude_items context))) eqn:Ex;
    [injection Hbody as <-; exact Hs|].
  apply exclusion_test_sound in Ex.
  apply bind_inv in Hbody as (features & Hf & Hbody).
  destruct (truthy_list (include_categories context)
            && negb (mem (category features)
                         (opt_list (include_categories context)))) eqn:Ei;
    [injection Hbody as <-; exact Hs|].
  destruct (truthy_list (exclude_categories context)
            && mem (category features)
                   (opt_list (exclude_categories context))) eqn:Ee;
    [injection Hbody as <-; exact Hs|].
  injection Hbody as <-. intros item Hin.
  apply in_app_iff in Hin as [Hin|[<-|[]]]; [now apply Hs|].
  cbn [item_id score item_reason]. split; [exact Ex|]. split.
  - exists (fst p), row. split; [now apply dict_item_get|].
    split; [exact Erow|]. now rewrite Hsim.
  - exists features. split; [now apply dict_item_get|]. split.
    + intros Htr. rewrite Htr in Ei. cbn [andb] in Ei.
      apply negb_false_iff in Ei. now apply mem_In.
    + now apply exclusion_test_sound.
Qed.

Lemma content_recommend_applies_filters_witness :
  let context := Example.request "u2"%string 10 (Some [Example.i6]) in
  descending score
    (returned (ContentBased.recommend Example.cosine Example.content_based
                                      context))
  /\ Forall
       (fun item => ~ In (item_id item) [Example.i6])
       (returned (ContentBased.recommend Example.cosine Example.content_based
                                         context)).
Proof.
  destruct (@content_recommend_applies_filters
              Example.cosine Example.content_based
              (Example.request "u2"%string 10 (Some [Example.i6]))
              [1 # 5; 4 # 5]
              (returned (ContentBased.recommend
                           Example.cosine Example.content_based
                           (Example.request "u2"%string 10
                                            (Some [Example.i6])))))
    as (Hd & _ & Hall).
  - reflexivity.
  - reflexivity.
  - vm_compute. reflexivity.
  - split; [exact Hd|].
    eapply Forall_impl; [|exact Hall]. intros item (Hex & _). exact Hex.
Defined.

(** X22: the content engine's similarity query returns the empty list
    when the engine is untrained or does not know the item; when the
    reverse index inverts the index on the item, it returns pairs in
    descending order of similarity, none of them for the item itself, not
    more than a non-negative [top_k], each scoring the cosine of the item's
    row of features with the other item's row. *)
Theorem content_similarity_excludes_query_item :
  forall (cosine : list Q -> list Q -> Q) (e : ContentBased.t)
         (item : uuid) (top_k : Z),
    (ContentBased.is_trained e = false
     \/ dict_get String.eqb (ContentBased.item_mapping e) item = None ->
     ContentBased.get_item_similarity cosine e item top_k = Return [])
    /\ forall l,
        (forall idx,
            dict_get Nat.eqb (ContentBased.reverse_item_mapping e) idx
            = Some item ->
            dict_get String.eqb (ContentBased.item_mapping e) item
            = Some idx) ->
        ContentBased.get_item_similarity cosine e item top_k = Return l ->
        ~ In item (map fst l)
        /\ descending snd l
        /\ ((0 <= top_k)%Z -> (Z.of_nat (List.length l) <= top_k)%Z)
        /\ Forall
             (fun p =>
                exists item_idx item_row idx row,
                  dict_get String.eqb (ContentBased.item_mapping e) item
                  = Some item_idx
                  /\ nth_error (ContentBased.combined_features_matrix e)
                               item_idx = Some item_row
                  /\ dict_get Nat.eqb (ContentBased.reverse_item_mapping e)
                              idx = Some (fst p)
                  /\ nth_error (ContentBased.combined_features_matrix e) idx
                     = Some row
                  /\ snd p = cosine item_row row)
             l.
Proof.
  intros cosine e item top_k. split.
  - unfold ContentBased.get_item_similarity. intros [-> | ->]; [reflexivity|].
    now destruct (ContentBased.is_trained e).
  - intros l Hinv H.
    destruct (@content_similarity_excludes_query cosine e item top_k l Hinv H)
      as [Hnot Hdesc].
    split; [exact Hnot|]. split; [exact Hdesc|].
    unfold ContentBased.get_item_similarity in H.
    destruct (ContentBased.is_trained e);
      [|injection H as <-; split; [cbn; lia | constructor]].
    destruct (dict_get String.eqb (ContentBased.item_mapping e) item)
      as [item_idx|] eqn:Ei;
      [|injection H as <-; split; [cbn; lia | constructor]].
    destruct (nth_error (ContentBased.combined_features_matrix e) item_idx)
      as [item_row|] eqn:Erow; [|discriminate].
    apply bind_inv in H as (sims & Hloop & H). injection H as <-.
    split; [apply length_slice_to|].
    apply Forall_forall. intros p Hin. apply ranked_In in Hin.
    pattern p.
    match goal with
    | |- ?G p =>
        set (P := fun acc : list (uuid * Q) => forall q, In q acc -> G q)
    end.
    assert (HP : P sims); [|exact (HP p Hin)]. clear p Hin.
    refine (@for_each_invariant_in _ _ P _ _ _ _ _ _ Hloop); [|intros q []].
    intros s p s' Hp' Hs Hbody.
    apply enumerate_In in Hp'. rewrite nth_error_map in Hp'.
    destruct (nth_error (ContentBased.combined_features_matrix e) (fst p))
      as [row|] eqn:Er; [|discriminate].
    cbn [option_map] in Hp'. injection Hp' as Hsim.
    cbv beta zeta in Hbody.
    destruct (Nat.eqb (fst p) item_idx); [injection Hbody as <-; exact Hs|].
    apply bind_inv in Hbody as (x & Hx & Hbody). injection Hbody as <-.
    intros q Hq. apply in_app_iff in Hq as [Hq|[<-|[]]]; [now apply Hs|].
    exists item_idx, item_row, (fst p), row. cbn [fst snd].
    repeat split; try assumption; try reflexivity.
    + now apply dict_item_get.
    + now rewrite Hsim.
Qed.

Lemma content_similarity_excludes_query_item_witness :
  let l := returned (ContentBased.get_item_similarity
                       Example.cosine Example.content_based Example.i1 3) in
  ~ In Example.i1 (map fst l) /\ descending snd l
  /\ ContentBased.get_item_similarity Example.cosine Example.content_based
                                      "i9"%string 3 = Return [].
Proof.
  destruct (@content_similarity_excludes_query_item
              Example.cosine Example.content_based Example.i1 3)
    as [_ H].
  destruct (H (returned (ContentBased.get_item_similarity
                           Example.cosine Example.content_based
                           Example.i1 3)))
    as (H1 & H2 & _).
  - intros idx Hidx. vm_compute in Hidx.
    do 6 (destruct idx as [|idx]; [first [discriminate | reflexivity]|]).
    discriminate.
  - vm_compute. reflexivity.
  - split; [exact H1|]. split; [exact H2|].
    apply (proj1 (@content_similarity_excludes_query_item
                    Example.cosine Example.content_based "i9"%string 3)).
    right. reflexivity.
Defined.

Lemma content_cold_start_raises (e : ContentBased.t)
    (context : RecommendationContext) :
  (exists x features, In (x, features) (ContentBased.item_features e)
                      /\ content_features features = None) ->
  ContentBased._cold_start_recommend e context = Raise AttributeError.
Proof.
  intros (x & features & Hin & Hnone).
  unfold ContentBased._cold_start_recommend.
  assert (H : forall entries acc,
             In (x, features) entries ->
             for_each entries
               (fun popular_items entry =>
                  popularity <- ContentBased.popularity_of (snd entry) ;;
                  match popularity with
                  | Some p => Return (popular_items ++ [(fst entry, p)])
                  | None => Return popular_items
                  end) acc
             = Raise AttributeError).
  { induction entries as [|entry rest IH]; intros acc Hx; [destruct Hx|].
    cbn [for_each]. unfold ContentBased.popularity_of at 1.
    destruct (content_features (snd entry)) as [cf|] eqn:Ecf;
      [|reflexivity].
    destruct Hx as [-> | Hx]; [cbn [snd] in Ecf; congruence|].
    destruct (dict_get String.eqb cf "popularity_score"%string) as [[q|s]|];
      cbn [bind]; now apply IH. }
  now rewrite H.
Qed.

Lemma content_cold_start_spec (e : ContentBased.t)
    (context : RecommendationContext) (l : list RecommendationItem) :
  ContentBased._cold_start_recommend e context = Return l ->
  descending score l
  /\ ((0 <= num_recommendations context)%Z -> within_request context l)
  /\ Forall
       (fun item =>
          item_reason item = Some PopularColdStart
          /\ exists features,
              In (item_id item, features) (ContentBased.item_features e)
              /\ has_popularity features (score item))
       l.
Proof.
  intros H. unfold ContentBased._cold_start_recommend in H.
  apply bind_inv in H as (popular & Hloop & H). injection H as <-.
  split; [|split].
  - unfold descending. apply StronglySorted_map. cbn [score].
    apply slice_to_descending, sort_desc_sorted.
  - intros Hn. unfold within_request. rewrite length_map.
    now apply length_slice_to.
  - apply Forall_map, Forall_forall. intros p Hin. apply ranked_In in Hin.
    cbn [item_id score item_reason]. split; [reflexivity|].
    pattern p.
    match goal with
    | |- ?G p =>
        set (P := fun acc : list (uuid * Q) => forall q, In q acc -> G q)
    end.
    assert (HP : P popular); [|exact (HP p Hin)]. clear p Hin.
    refine (@for_each_invariant_in _ _ P _ _ _ _ _ _ Hloop); [|intros q []].
    intros s entry s' Hentry Hs Hbody.
    apply bind_inv in Hbody as (popularity & Hpop & Hbody).
    unfold ContentBased.popularity_of in Hpop.
    destruct (content_features (snd entry)) as [cf|] eqn:Ecf; [|discriminate].
    destruct (dict_get String.eqb cf "popularity_score"%string)
      as [[q|str]|] eqn:Eq; injection Hpop as <-.
    + injection Hbody as <-. intros r Hr.
      apply in_app_iff in Hr as [Hr|[<-|[]]]; [now apply Hs|].
      exists (snd entry). cbn [fst snd]. split; [now destruct entry|].
      exists cf. split; [exact Ecf | now left].
    + injection Hbody as <-. exact Hs.
    + injection Hbody as <-. intros r Hr.
      apply in_app_iff in Hr as [Hr|[<-|[]]]; [now apply Hs|].
      exists (snd entry). cbn [fst snd]. split; [now destruct entry|].
      exists cf. split; [exact Ecf | right; now split].
Qed.

Lemma fold_left_invariant {A S : Type} (P : S -> Prop) (f : S -> A -> S)
    (l : list A) :
  (forall s x, In x l -> P s -> P (f s x)) ->
  forall acc, P acc -> P (fold_left f l acc).
Proof.
  induction l as [|x l IH]; intros Hf acc Hacc; cbn [fold_left];
    [exact Hacc|].
  apply IH.
  - intros s y Hy. apply Hf. now right.
  - apply Hf; [now left | exact Hacc].
Qed.

Lemma svd_cold_start_spec (np_log : Z -> Q) (e : SVD.t)
    (context : RecommendationContext) :
  exists l,
    SVD._cold_start_recommend np_log e context = Return l
    /\ descending score l
    /\ ((0 <= num_recommendations context)%Z -> within_request context l)
    /\ NoDup (map item_id l)
    /\ Forall
         (fun item =>
            item_reason item = Some PopularColdStart
            /\ exists item_idx first rest,
                In (item_idx, item_id item) (SVD.reverse_item_mapping e)
                /\ dict_get Nat.eqb (ir (SVD.trainset e)) item_idx
                   = Some (first :: rest)
                /\ score item
                   = SVD.mean (map snd (first :: rest))
                     * np_log (1 + Z.of_nat (List.length (first :: rest)))%Z)
         l.
Proof.
  unfold SVD._cold_start_recommend. eexists. split; [reflexivity|].
  match goal with
  | |- context [sort_desc snd ?d] => set (popularity := d)
  end.
  assert (Hinv : NoDup (dict_keys popularity)
                 /\ forall x s, In (x, s) popularity ->
                      exists item_idx first rest,
                        In (item_idx, x) (SVD.reverse_item_mapping e)
                        /\ dict_get Nat.eqb (ir (SVD.trainset e)) item_idx
                           = Some (first :: rest)
                        /\ s = SVD.mean (map snd (first :: rest))
                               * np_log (1 + Z.of_nat
                                               (List.length (first :: rest)))%Z).
  { unfold popularity.
    apply (fold_left_invariant
             (fun d : dict uuid Q =>
                NoDup (dict_keys d)
                /\ forall x s, In (x, s) d ->
                     exists item_idx first rest,
                       In (item_idx, x) (SVD.reverse_item_mapping e)
                       /\ dict_get Nat.eqb (ir (SVD.trainset e)) item_idx
                          = Some (first :: rest)
                       /\ s = SVD.mean (map snd (first :: rest))
                              * np_log (1 + Z.of_nat
                                              (List.length (first :: rest)))%Z));
      [|split; [constructor | intros x s []]].
    intros d entry Hentry [Hnd Hd]. cbv beta zeta.
    destruct (knows_item (SVD.trainset e) (fst entry)); [|now split].
    destruct (dict_get Nat.eqb (ir (SVD.trainset e)) (fst entry))
      as [[|first rest]|] eqn:Eir; try now split.
    split.
    - now apply (dict_set_keys String.eqb String.eqb_eq).
    - intros x s Hin.
      apply (dict_set_In String.eqb String.eqb_eq) in Hin as [[-> ->]|Hin];
        [|now apply Hd].
      exists (fst entry), first, rest. split; [now destruct entry|].
      split; [exact Eir|]. now rewrite length_map. }
  destruct Hinv as [Hnd Hd].
  split; [|split; [|split]].
  - unfold descending. apply StronglySorted_map. cbn [score].
    apply slice_to_descending, sort_desc_sorted.
  - intros Hn. unfold within_request. rewrite length_map.
    now apply length_slice_to.
  - rewrite map_map. cbn [item_id].
    apply (@subsequence_NoDup _ _ (map fst (sort_desc snd popularity))).
    + apply subsequence_map, slice_to_subsequence.
    + eapply Permutation_NoDup;
        [apply Permutation_map, sort_desc_perm | exact Hnd].
  - apply Forall_map, Forall_forall. intros p Hin. apply ranked_In in Hin.
    cbn [item_id score item_reason]. split; [reflexivity|].
    destruct p as [x s]. now apply Hd.
Qed.

(** X23: for a user without a profile the content engine ranks the
    catalog by [popularity_score] (0.0 for an item that has none, items
    whose score is not a number left out), and raises [AttributeError]
    when some item of the catalog has no [content_features]; for a user
    outside its index the SVD engine ranks the items that have ratings in
    the training set by their mean rating times the logarithm of one plus
    the number of ratings.  Both answers are in descending order of score
    and bounded by a non-negative request size. *)
Theorem content_and_svd_cold_starts_rank_by_popularity :
  forall (cosine : list Q -> list Q -> Q) (np_log : Z -> Q)
         (context : RecommendationContext),
    (forall e,
        ContentBased.is_trained e = true ->
        dict_get String.eqb (ContentBased.user_profiles e) (user_id context)
        = None ->
        (forall l,
            ContentBased.recommend cosine e context = Return l ->
            descending score l
            /\ ((0 <= num_recommendations context)%Z ->
                within_request context l)
            /\ Forall
                 (fun item =>
                    item_reason item = Some PopularColdStart
                    /\ exists features,
                        In (item_id item, features)
                           (ContentBased.item_features e)
                        /\ has_popularity features (score item))
                 l)
        /\ ((exists x features,
                In (x, features) (ContentBased.item_features e)
                /\ content_features features = None) ->
            ContentBased.recommend cosine e context = Raise AttributeError))
    /\ (forall e,
          SVD.is_trained e = true ->
          dict_get String.eqb (SVD.user_mapping e) (user_id context) = None ->
          exists l,
            SVD.recommend np_log e context = Return l
            /\ descending score l
            /\ ((0 <= num_recommendations context)%Z ->
                within_request context l)
            /\ NoDup (map item_id l)
            /\ Forall
                 (fun item =>
                    item_reason item = Some PopularColdStart
                    /\ exists item_idx first rest,
                        In (item_idx, item_id item) (SVD.reverse_item_mapping e)
                        /\ dict_get Nat.eqb (ir (SVD.trainset e)) item_idx
                           = Some (first :: rest)
                        /\ score item
                           = SVD.mean (map snd (first :: rest))
                             * np_log (1 + Z.of_nat
                                             (List.length (first :: rest)))%Z)
                 l).
Proof.
  intros cosine np_log context. split.
  - intros e Ht Hu. unfold ContentBased.recommend. rewrite Ht, Hu.
    cbn [negb]. split.
    + intros l. apply content_cold_start_spec.
    + apply content_cold_start_raises.
  - intros e Ht Hu. unfold SVD.recommend. rewrite Ht, Hu. cbn [negb].
    apply svd_cold_start_spec.
Qed.

Lemma content_and_svd_cold_starts_rank_by_popularity_witness :
  descending score
    (returned (ContentBased.recommend
                 Example.cosine Example.content_based
                 (Example.request Example.newcomer 3 None)))
  /\ exists l,
      SVD.recommend Example.np_log Example.svd
                    (Example.request Example.newcomer 3 None) = Return l
      /\ descending score l.
Proof.
  destruct (content_and_svd_cold_starts_rank_by_popularity
              Example.cosine Example.np_log
              (Example.request Example.newcomer 3 None)) as [Hc Hs].
  split.
  - destruct (Hc Example.content_based eq_refl eq_refl) as [Hl _].
    apply (Hl (returned (ContentBased.recommend
                           Example.cosine Example.content_based
                           (Example.request Example.newcomer 3 None)))).
    vm_compute. reflexivity.
  - destruct (Hs Example.svd eq_refl eq_refl) as (l & Hl & Hd & _).
    exists l. split; [exact Hl | exact Hd].
Defined.

(** ** matrix_factorization.py *)

(** X24: for a user of its index the SVD engine never raises; it returns,
    in descending order of score and bounded by a non-negative request
    size, items of the item index whose score is the model's estimate, and
    never an item that the user has rated in the training set. *)
Theorem svd_recommends_unrated_items :
  forall (np_log : Z -> Q) (e : SVD.t) (context : RecommendationContext)
         (user_idx : nat),
    SVD.is_trained e = true ->
    dict_get String.eqb (SVD.user_mapping e) (user_id context)
    = Some user_idx ->
    exists l,
      SVD.recommend np_log e context = Return l
      /\ descending score l
      /\ ((0 <= num_recommendations context)%Z -> within_request context l)
      /\ Forall
           (fun item =>
              item_reason item = Some MFPrediction
              /\ exists item_idx,
                  In (item_id item, item_idx) (SVD.item_mapping e)
                  /\ SVD.predict e user_idx item_idx = Return (score item)
                  /\ ~ has_rated (SVD.trainset e) user_idx item_idx)
           l.
Proof.
  intros np_log e context user_idx Ht Hu.
  unfold SVD.recommend. rewrite Ht, Hu. cbn [negb].
  eexists. split; [reflexivity|].
  split; [apply slice_to_descending, sort_desc_sorted|].
  split; [apply within_slice_to|].
  apply Forall_forall. intros item Hin. apply ranked_In in Hin.
  revert item Hin.
  apply (fold_left_invariant
           (fun acc : list RecommendationItem =>
              forall item, In item acc ->
                item_reason item = Some MFPrediction
                /\ exists item_idx,
                    In (item_id item, item_idx) (SVD.item_mapping e)
                    /\ SVD.predict e user_idx item_idx = Return (score item)
                    /\ ~ has_rated (SVD.trainset e) user_idx item_idx));
    [|intros item []].
  intros s entry Hentry Hs. cbv beta zeta.
  destruct (knows_user (SVD.trainset e) user_idx
            && knows_item (SVD.trainset e) (snd entry)
            && match dict_get Nat.eqb (ur (SVD.trainset e)) user_idx with
               | Some rated => existsb (Nat.eqb (snd entry)) (map fst rated)
               | None => false
               end) eqn:Eseen; [exact Hs|].
  destruct (SVD.predict e user_idx (snd entry)) as [err|est] eqn:Ep;
    [exact Hs|].
  intros item Hin. apply in_app_iff in Hin as [Hin|[<-|[]]]; [now apply Hs|].
  cbn [item_id score item_reason]. split; [reflexivity|].
  exists (snd entry). split; [now destruct entry|]. split; [exact Ep|].
  intros (Hk & rated & Hr & Hin).
  unfold knows_user, dict_mem in Eseen. rewrite Hr, Hk in Eseen.
  cbn [andb] in Eseen.
  assert (Hex : existsb (Nat.eqb (snd entry)) (map fst rated) = true).
  { apply existsb_exists. exists (snd entry). split; [exact Hin|].
    apply Nat.eqb_refl. }
  congruence.
Qed.

Lemma svd_recommends_unrated_items_witness :
  exists l,
    SVD.recommend Example.np_log Example.svd
                  (Example.request Example.u1 10 None) = Return l
    /\ descending score l
    /\ Forall
         (fun item =>
            exists item_idx,
              In (item_id item, item_idx) (SVD.item_mapping Example.svd)
              /\ ~ has_rated (SVD.trainset Example.svd) 0 item_idx)
         l.
Proof.
  destruct (@svd_recommends_unrated_items
              Example.np_log Example.svd
              (Example.request Example.u1 10 None) 0%nat eq_refl eq_refl)
    as (l & Hl & Hd & _ & Hall).
  exists l. split; [exact Hl|]. split; [exact Hd|].
  eapply Forall_impl; [|exact Hall].
  intros item (_ & idx & H1 & _ & H2). exists idx. now split.
Defined.

(** X25: the SVD engine's similarity query returns the empty list when
    the engine is untrained or the item is unknown to the index or to the
    training set; what it returns is in descending order of similarity,
    bounded by a non-negative [top_k], never holds the queried item, and
    scores each other item of the training set by the cosine of the two
    factor vectors. *)
Theorem svd_similarity_excludes_query :
  forall (cosine : list Q -> list Q -> Q) (e : SVD.t) (item : uuid)
         (top_k : Z),
    (SVD.is_trained e = false
     \/ dict_get String.eqb (SVD.item_mapping e) item = None
     \/ (exists item_idx,
            dict_get String.eqb (SVD.item_mapping e) item = Some item_idx
            /\ knows_item (SVD.trainset e) item_idx = false) ->
     SVD.get_item_similarity cosine e item top_k = Return [])
    /\ forall l,
        SVD.get_item_similarity cosine e item top_k = Return l ->
        ~ In item (map fst l)
        /\ descending snd l
        /\ ((0 <= top_k)%Z -> (Z.of_nat (List.length l) <= top_k)%Z)
        /\ Forall
             (fun p =>
                exists item_idx item_factors idx factors,
                  dict_get String.eqb (SVD.item_mapping e) item = Some item_idx
                  /\ nth_error (SVD.qi e) item_idx = Some item_factors
                  /\ In (fst p, idx) (SVD.item_mapping e)
                  /\ knows_item (SVD.trainset e) idx = true
                  /\ nth_error (SVD.qi e) idx = Some factors
                  /\ snd p = cosine item_factors factors)
             l.
Proof.
  intros cosine e item top_k. unfold SVD.get_item_similarity. split.
  - intros [-> | [-> | (item_idx & -> & ->)]]; try reflexivity.
    + now destruct (SVD.is_trained e).
    + now destruct (SVD.is_trained e).
  - intros l H.
    destruct (SVD.is_trained e);
      [|injection H as <-; repeat split;
        [intros [] | constructor | cbn; lia | constructor]].
    destruct (dict_get String.eqb (SVD.item_mapping e) item)
      as [item_idx|] eqn:Ei;
      [|injection H as <-; repeat split;
        [intros [] | constructor | cbn; lia | constructor]].
    destruct (knows_item (SVD.trainset e) item_idx); cbn [negb] in H;
      [|injection H as <-; repeat split;
        [intros [] | constructor | cbn; lia | constructor]].
    apply bind_inv in H as (item_factors & Hif & H).
    apply bind_inv in H as (sims & Hloop & H). injection H as <-.
    assert (HP : forall q, In q sims ->
               fst q <> item
               /\ exists idx factors,
                   In (fst q, idx) (SVD.item_mapping e)
                   /\ knows_item (SVD.trainset e) idx = true
                   /\ nth_error (SVD.qi e) idx = Some factors
                   /\ snd q = cosine item_factors factors).
    { set (P := fun acc : list (uuid * Q) =>
                  forall q, In q acc ->
                    fst q <> item
                    /\ exists idx factors,
                        In (fst q, idx) (SVD.item_mapping e)
                        /\ knows_item (SVD.trainset e) idx = true
                        /\ nth_error (SVD.qi e) idx = Some factors
                        /\ snd q = cosine item_factors factors).
      refine (@for_each_invariant_in _ _ P _ _ _ _ _ _ Hloop);
        [|intros q []].
      intros s entry s' Hentry Hs Hbody. cbv beta zeta in Hbody.
      destruct (String.eqb (fst entry) item) eqn:Eid;
        [injection Hbody as <-; exact Hs|].
      destruct (knows_item (SVD.trainset e) (snd entry)) eqn:Ek;
        cbn [negb orb] in Hbody; [|injection Hbody as <-; exact Hs].
      apply bind_inv in Hbody as (factors & Hf & Hbody).
      injection Hbody as <-. intros q Hq.
      apply in_app_iff in Hq as [Hq|[<-|[]]]; [now apply Hs|].
      cbn [fst snd]. split; [now apply String.eqb_neq|].
      exists (snd entry), factors. split; [now destruct entry|].
      split; [exact Ek|]. split; [now apply getitem_nth | reflexivity]. }
    split; [|split; [|split]].
    + intros Hin. apply in_map_iff in Hin as (q & Hq & Hin).
      apply ranked_In in Hin. now destruct (HP q Hin).
    + apply slice_to_descending, sort_desc_sorted.
    + apply length_slice_to.
    + apply Forall_forall. intros q Hin. apply ranked_In in Hin.
      destruct (HP q Hin) as (_ & idx & factors & H1 & H2 & H3 & H4).
      exists item_idx, item_factors, idx, factors.
      repeat split; try assumption. now apply getitem_nth.
Qed.

Lemma svd_similarity_excludes_query_witness :
  SVD.get_item_similarity Example.cosine Example.svd "i9"%string 3 = Return []
  /\ ~ In Example.i1
          (map fst (returned (SVD.get_item_similarity
                                Example.cosine Example.svd Example.i1 3))).
Proof.
  split.
  - apply (proj1 (svd_similarity_excludes_query
                    Example.cosine Example.svd "i9"%string 3)).
    right. left. reflexivity.
  - apply (proj2 (svd_similarity_excludes_query
                    Example.cosine Example.svd Example.i1 3)
                 (returned (SVD.get_item_similarity
                              Example.cosine Example.svd Example.i1 3))).
    vm_compute. reflexivity.
Defined.

(** ** content_based.py: text preprocessing *)

Open Scope string_scope.

Lemma chars_append (a b : string) :
  list_ascii_of_string (a ++ b) = (list_ascii_of_string a ++ list_ascii_of_string b)%list.
Proof. induction a as [|c a IH]; cbn; [reflexivity|now rewrite IH]. Qed.

Lemma append_nil_r (a : string) : (a ++ "")%string = a.
Proof. induction a as [|c a IH]; cbn; [reflexivity|now rewrite IH]. Qed.

Lemma append_assoc (a b c : string) : ((a ++ b) ++ c)%string = (a ++ (b ++ c))%string.
Proof. induction a as [|x a IH]; cbn; [reflexivity|now rewrite IH]. Qed.

Lemma cleaned_char (c : ascii) :
  let c' := Text.lower_char c in
  let d := if Text.alnum c' || Text.isspace c' then c' else " "%char in
  lowercase_or_digit d = true \/ Text.isspace d = true.
Proof.
  destruct c as [[] [] [] [] [] [] [] []]; vm_compute; auto.
Qed.

Lemma plain_char_fixed (c : ascii) :
  lowercase_or_digit c = true \/ c = " "%char ->
  Text.lower_char c = c /\ Text.alnum c || Text.isspace c = true.
Proof.
  intros [H| ->]; [|vm_compute; auto].
  revert H. destruct c as [[] [] [] [] [] [] [] []]; vm_compute; auto; discriminate.
Qed.

Lemma plain_char_not_space (c : ascii) :
  lowercase_or_digit c = true -> Text.isspace c = false.
Proof.
  destruct c as [[] [] [] [] [] [] [] []]; vm_compute; auto; discriminate.
Qed.

Lemma cleaned_chars (text : string) :
  Forall (fun c => lowercase_or_digit c = true \/ Text.isspace c = true)
    (list_ascii_of_string (Text.strip_special (Text.lower text))).
Proof.
  induction text as [|c t IH]; cbn [Text.lower Text.strip_special list_ascii_of_string].
  - constructor.
  - constructor; [apply cleaned_char | exact IH].
Qed.

Lemma split_from_words (P : ascii -> Prop) (text : string) :
  forall word,
    Forall P (list_ascii_of_string word) ->
    Forall (fun c => Text.isspace c = false -> P c) (list_ascii_of_string text) ->
    Forall (fun w => w <> EmptyString /\ Forall P (list_ascii_of_string w))
      (Text.split_from word text).
Proof.
  induction text as [|c t IH]; intros word Hw Ht; cbn [Text.split_from].
  - destruct word; [constructor|].
    constructor; [|constructor]. split; [discriminate|exact Hw].
  - cbn [list_ascii_of_string] in Ht. inversion Ht as [|? ? Hc Ht']; subst.
    destruct (Text.isspace c) eqn:Hs.
    + destruct word as [|a word].
      * apply IH; [constructor|exact Ht'].
      * constructor; [split; [discriminate|exact Hw]|].
        apply IH; [constructor|exact Ht'].
    + apply IH; [|exact Ht'].
      rewrite chars_append. apply Forall_app. split; [exact Hw|].
      cbn. constructor; [now apply Hc|constructor].
Qed.

Lemma preprocess_words (text : string) :
  Forall plain_word (Text.split (Text.strip_special (Text.lower text))).
Proof.
  unfold Text.split.
  apply (@split_from_words (fun c => lowercase_or_digit c = true)); [constructor|].
  eapply Forall_impl; [|apply cleaned_chars].
  intros c [H|H] Hs; [exact H|congruence].
Qed.

Lemma split_from_run (x : string) :
  forall word rest,
    Forall (fun c => Text.isspace c = false) (list_ascii_of_string x) ->
    Text.split_from word (x ++ rest) = Text.split_from (word ++ x) rest.
Proof.
  induction x as [|c x IH]; intros word rest Hx.
  - cbn. now rewrite append_nil_r.
  - cbn [list_ascii_of_string] in Hx. inversion Hx as [|? ? Hc Hx']; subst.
    cbn [append Text.split_from]. rewrite Hc.
    rewrite IH by exact Hx'. now rewrite append_assoc.
Qed.

Lemma plain_word_run (w : string) :
  plain_word w ->
  Forall (fun c => Text.isspace c = false) (list_ascii_of_string w).
Proof.
  intros [_ H]. eapply Forall_impl; [|exact H].
  intros c. apply plain_char_not_space.
Qed.

Lemma split_concat (words : list string) :
  Forall plain_word words ->
  Text.split (String.concat " " words) = words.
Proof.
  unfold Text.split.
  induction words as [|x r IH]; intros H; [reflexivity|].
  inversion H as [|? ? Hx Hr]; subst.
  destruct r as [|y r'].
  - cbn [String.concat].
    rewrite <- (append_nil_r x) at 1.
    rewrite split_from_run by now apply plain_word_run.
    cbn. destruct Hx as [Hne _]. destruct x; [congruence|reflexivity].
  - change (String.concat " " (x :: y :: r'))
      with (x ++ " " ++ String.concat " " (y :: r'))%string.
    rewrite split_from_run by now apply plain_word_run.
    cbn [append]. cbn [Text.split_from].
    change (Text.isspace " ") with true. cbv iota.
    destruct Hx as [Hne _]. destruct x as [|a x]; [congruence|].
    cbn [append]. f_equal. now apply IH.
Qed.

Lemma concat_chars (words : list string) :
  Forall plain_word words ->
  Forall (fun c => lowercase_or_digit c = true \/ c = " "%char)
    (list_ascii_of_string (String.concat " " words)).
Proof.
  induction words as [|x r IH]; intros H; [constructor|].
  inversion H as [|? ? Hx Hr]; subst.
  assert (Hxc : Forall (fun c => lowercase_or_digit c = true \/ c = " "%char)
                  (list_ascii_of_string x)).
  { destruct Hx as [_ Hx]. eapply Forall_impl; [|exact Hx]. intros c Hc; now left. }
  destruct r as [|y r'].
  - exact Hxc.
  - change (String.concat " " (x :: y :: r'))
      with (x ++ " " ++ String.concat " " (y :: r'))%string.
    rewrite chars_append. apply Forall_app. split; [exact Hxc|].
    cbn [append list_ascii_of_string]. constructor; [now right|].
    now apply IH.
Qed.

Lemma clean_fixed (s : string) :
  Forall (fun c => lowercase_or_digit c = true \/ c = " "%char)
    (list_ascii_of_string s) ->
  Text.strip_special (Text.lower s) = s.
Proof.
  induction s as [|c s IH]; intros H; [reflexivity|].
  cbn [list_ascii_of_string] in H. inversion H as [|? ? Hc Hs]; subst.
  cbn [Text.lower Text.strip_special].
  destruct (@plain_char_fixed c Hc) as [-> ->].
  now rewrite IH.
Qed.

(** X26: a preprocessed text is a sequence of words joined by single
    spaces, each word non-empty and made of lower-case letters and digits
    only; preprocessing a preprocessed text changes nothing. *)
Theorem preprocess_text_normal_form (text : string) :
  (exists words,
      Text._preprocess_text text = String.concat " " words
      /\ Forall plain_word words)
  /\ Text._preprocess_text (Text._preprocess_text text)
     = Text._preprocess_text text.
Proof.
  pose proof (preprocess_words text) as Hw.
  split.
  - eexists. split; [reflexivity|exact Hw].
  - unfold Text._preprocess_text at 1.
    unfold Text._preprocess_text.
    rewrite (@clean_fixed _ (concat_chars Hw)).
    now rewrite (split_concat Hw).
Qed.

(** ** cache/redis_cluster.py and cache/cache_manager.py *)

Lemma guarded_returns {A : Type} (c : Exc A) (neutral : A) :
  exists r, try_except c (fun _ => Return neutral) = Return r.
Proof. destruct c; cbn; eauto. Qed.

Lemma guarded_operation {A : Type} (self : RedisClusterClient.t)
    (k : RedisClusterClient.RedisCluster -> Exc A) (neutral : A) :
  exists r,
    (if negb (RedisClusterClient._connected self) then Return neutral
     else try_except (bind (RedisClusterClient.cluster self) k)
            (fun _ => Return neutral))
    = Return r
    /\ (unusable self -> r = neutral).
Proof.
  destruct (RedisClusterClient._connected self) eqn:Hc; cbn [negb].
  - unfold RedisClusterClient.cluster.
    destruct (RedisClusterClient._cluster self) as [c|] eqn:Hcl; cbn [bind try_except].
    + destruct (k c); cbn; eexists; (split; [reflexivity|]);
        intros [H|H]; congruence.
    + eexists; split; [reflexivity|reflexivity].
  - eexists; split; [reflexivity|reflexivity].
Qed.

Lemma for_each_raises_at {A S : Type} (body : S -> A -> Exc S) (l : list A)
    (x : A) :
  In x l ->
  (forall s, exists e, body s x = Raise e) ->
  forall s, exists e, for_each l body s = Raise e.
Proof.
  induction l as [|y t IH]; intros Hin Hx s; [contradiction|].
  cbn [for_each]. destruct Hin as [->|Hin].
  - destruct (Hx s) as [e ->]. cbn. eauto.
  - destruct (body s y) as [e|s']; cbn; [eauto|]. now apply IH.
Qed.

(** X27: none of [delete], [exists], [expire], [incr], [hget], [hset],
    [hgetall], [sadd], [smembers], [sismember], [zadd] and [zrange] raises,
    whatever the connection does; on a client that is not connected or has
    no cluster each answers its neutral value ([False], [None], [{}], [0],
    the empty set or list), and [hgetall] answers [{}] as soon as one field
    of the hash cannot be decoded. *)
Theorem redis_operations_degrade (Value : Type)
    (json_loads : string -> Exc (option Value))
    (json_dumps : Value -> Exc string)
    (cluster_delete : RedisClusterClient.RedisCluster -> string -> Exc Z)
    (cluster_exists : RedisClusterClient.RedisCluster -> string -> Exc Z)
    (cluster_expire : RedisClusterClient.RedisCluster -> string -> Z -> Exc bool)
    (cluster_incr : RedisClusterClient.RedisCluster -> string -> Z -> Exc Z)
    (cluster_hget :
       RedisClusterClient.RedisCluster -> string -> string -> Exc (option string))
    (cluster_hset :
       RedisClusterClient.RedisCluster -> string -> string -> string -> Exc Z)
    (cluster_hgetall :
       RedisClusterClient.RedisCluster -> string -> Exc (dict string string))
    (cluster_sadd :
       RedisClusterClient.RedisCluster -> string -> list string -> Exc Z)
    (cluster_smembers :
       RedisClusterClient.RedisCluster -> string -> Exc (list string))
    (cluster_sismember :
       RedisClusterClient.RedisCluster -> string -> string -> Exc bool)
    (cluster_zadd :
       RedisClusterClient.RedisCluster -> string -> dict string Q -> Exc Z)
    (cluster_zrange :
       RedisClusterClient.RedisCluster -> string -> Z -> Z -> bool
       -> Exc (list (string * option Q)))
    (self : RedisClusterClient.t) :
  (forall key, exists r,
      RedisOperations.delete cluster_delete self key = Return r
      /\ (unusable self -> r = false))
  /\ (forall key, exists r,
      RedisOperations.exists_ cluster_exists self key = Return r
      /\ (unusable self -> r = false))
  /\ (forall key seconds, exists r,
      RedisOperations.expire cluster_expire self key seconds = Return r
      /\ (unusable self -> r = false))
  /\ (forall key amount, exists r,
      RedisOperations.incr cluster_incr self key amount = Return r
      /\ (unusable self -> r = None))
  /\ (forall name key, exists r,
      RedisOperations.hget json_loads cluster_hget self name key = Return r
      /\ (unusable self -> r = None))
  /\ (forall name key value, exists r,
      RedisOperations.hset json_dumps cluster_hset self name key value = Return r
      /\ (unusable self -> r = false))
  /\ (forall name, exists r,
      RedisOperations.hgetall json_loads cluster_hgetall self name = Return r
      /\ (unusable self -> r = [])
      /\ (forall c result field,
            RedisClusterClient._cluster self = Some c ->
            cluster_hgetall c name = Return result ->
            In field result -> raised (json_loads (snd field)) ->
            r = []))
  /\ (forall name values, exists r,
      RedisOperations.sadd cluster_sadd self name values = Return r
      /\ (unusable self -> r = 0%Z))
  /\ (forall name, exists r,
      RedisOperations.smembers cluster_smembers self name = Return r
      /\ (unusable self -> r = []))
  /\ (forall name value, exists r,
      RedisOperations.sismember cluster_sismember self name value = Return r
      /\ (unusable self -> r = false))
  /\ (forall name mapping, exists r,
      RedisOperations.zadd cluster_zadd self name mapping = Return r
      /\ (unusable self -> r = 0%Z))
  /\ (forall name start stop withscores, exists r,
      RedisOperations.zrange cluster_zrange self name start stop withscores
      = Return r
      /\ (unusable self -> r = [])).
Proof.
  repeat match goal with |- _ /\ _ => split end; intros.
  - apply guarded_operation.
  - apply guarded_operation.
  - apply guarded_operation.
  - apply guarded_operation.
  - apply guarded_operation.
  - unfold RedisOperations.hset.
    destruct (RedisClusterClient._connected self) eqn:Hc; cbn [negb];
      [|eexists; split; reflexivity].
    destruct (json_dumps value) as [e|text]; cbn [bind try_except];
      [eexists; split; reflexivity|].
    destruct (@guarded_operation _ self
                (fun c => result <- cluster_hset c name key text ;;
                          Return (negb (result =? 0)%Z)) false) as [r [Hr Hu]].
    rewrite Hc in Hr. cbn [negb] in Hr. eauto.
  - destruct (@guarded_operation _ self
                (fun c => result <- cluster_hgetall c name ;;
                          RedisOperations.loads_all json_loads result) [])
      as [r [Hr Hu]].
    exists r. split; [exact Hr|]. split; [exact Hu|].
    intros c result field Hcl Hres Hin [e He].
    destruct (RedisClusterClient._connected self) eqn:Hc; cbn [negb] in Hr;
      [|congruence].
    unfold RedisClusterClient.cluster in Hr. rewrite Hcl in Hr.
    cbn [bind] in Hr. rewrite Hres in Hr. cbn [bind] in Hr.
    unfold RedisOperations.loads_all in Hr.
    destruct (@for_each_raises_at _ _
                (fun decoded kv =>
                   v <- json_loads (snd kv) ;;
                   Return (dict_set String.eqb decoded (fst kv) v))
                result field Hin) with (s := @nil (string * option Value))
      as [e' He'].
    { intros s. rewrite He. cbn. eauto. }
    rewrite He' in Hr. cbn in Hr. congruence.
  - apply guarded_operation.
  - apply guarded_operation.
  - apply guarded_operation.
  - apply guarded_operation.
  - apply guarded_operation.
Qed.

Lemma redis_operations_degrade_witness :
  unusable RedisClusterClient.init
  /\ RedisOperations.delete (fun _ _ => Return 1%Z) RedisClusterClient.init "k"
     = Return false.
Proof.
  split; [left; reflexivity|].
  destruct (@redis_operations_degrade unit
              (fun _ => Return None) (fun _ => Return "null")
              (fun _ _ => Return 1%Z) (fun _ _ => Return 1%Z)
              (fun _ _ _ => Return true) (fun _ _ _ => Return 1%Z)
              (fun _ _ _ => Return None) (fun _ _ _ _ => Return 1%Z)
              (fun _ _ => Return []) (fun _ _ _ => Return 1%Z)
              (fun _ _ => Return []) (fun _ _ _ => Return true)
              (fun _ _ _ => Return 1%Z) (fun _ _ _ _ _ => Return [])
              RedisClusterClient.init) as [H _].
  destruct (H "k") as [r [Hr Hu]].
  rewrite Hr. f_equal. apply Hu. left; reflexivity.
Defined.

Lemma string_compare_trans (a : string) :
  forall b c,
    String.compare a b <> Gt -> String.compare b c <> Gt ->
    String.compare a c <> Gt.
Proof.
  induction a as [|x a IH]; intros [|y b] [|z c]; cbn; try congruence.
  unfold Ascii.compare.
  destruct (N.compare_spec (N_of_ascii x) (N_of_ascii y)) as [Hxy|Hxy|Hxy];
    destruct (N.compare_spec (N_of_ascii y) (N_of_ascii z)) as [Hyz|Hyz|Hyz];
    destruct (N.compare_spec (N_of_ascii x) (N_of_ascii z)) as [Hxz|Hxz|Hxz];
    try congruence; try lia.
  apply IH.
Qed.

Lemma string_leb_trans (a b c : string) :
  String.leb a b = true -> String.leb b c = true -> String.leb a c = true.
Proof.
  unfold String.leb. intros Hab Hbc.
  pose proof (@string_compare_trans a b c) as H.
  destruct (String.compare a b); try discriminate;
    destruct (String.compare b c); try discriminate;
    destruct (String.compare a c); try reflexivity;
    exfalso; apply H; congruence.
Qed.

Lemma string_leb_refl (a : string) : String.leb a a = true.
Proof. now destruct (String.leb_total a a). Qed.

Lemma insert_item_perm (x : string * string) (l : list (string * string)) :
  Permutation (CacheManager.insert_item x l) (x :: l).
Proof.
  induction l as [|y t IH]; cbn [CacheManager.insert_item]; [reflexivity|].
  destruct (String.leb (fst x) (fst y)); [reflexivity|].
  rewrite IH. apply perm_swap.
Qed.

Lemma sorted_items_perm (l : list (string * string)) :
  Permutation (CacheManager.sorted_items l) l.
Proof.
  induction l as [|x t IH]; cbn; [reflexivity|].
  fold (CacheManager.sorted_items t).
  rewrite insert_item_perm. now constructor.
Qed.

Lemma insert_item_sorted (x : string * string) (l : list (string * string)) :
  StronglySorted key_le l ->
  StronglySorted key_le (CacheManager.insert_item x l).
Proof.
  induction 1 as [|y t Ht IH Hy]; cbn [CacheManager.insert_item].
  - constructor; constructor.
  - destruct (String.leb (fst x) (fst y)) eqn:Hxy.
    + constructor; [now constructor|].
      constructor; [exact Hxy|].
      eapply Forall_impl; [|exact Hy].
      intros z Hz. unfold key_le in *. eapply string_leb_trans; eassumption.
    + constructor; [exact IH|].
      assert (Hyx : key_le y x).
      { unfold key_le. destruct (String.leb_total (fst x) (fst y)); congruence. }
      eapply Permutation_Forall; [symmetry; apply insert_item_perm|].
      now constructor.
Qed.

Lemma sorted_items_sorted (l : list (string * string)) :
  StronglySorted key_le (CacheManager.sorted_items l).
Proof.
  induction l as [|x t IH]; cbn; [constructor|].
  now apply insert_item_sorted.
Qed.

Lemma sorted_unique (l1 : list (string * string)) :
  forall l2,
    StronglySorted key_le l1 -> StronglySorted key_le l2 ->
    Permutation l1 l2 -> NoDup (map fst l1) -> l1 = l2.
Proof.
  induction l1 as [|x t1 IH]; intros l2 H1 H2 Hp Hnd.
  - now apply Permutation_nil in Hp.
  - destruct l2 as [|y t2];
      [symmetry in Hp; now apply Permutation_nil in Hp|].
    inversion H1 as [|? ? Ht1 Hx]; subst.
    inversion H2 as [|? ? Ht2 Hy]; subst.
    cbn [map] in Hnd. inversion Hnd as [|? ? Hnx Hnt]; subst.
    assert (Hyx : key_le y x).
    { assert (Hin : In x (y :: t2)) by (eapply Permutation_in; [exact Hp|now left]).
      destruct Hin as [->|Hin]; [apply string_leb_refl|].
      rewrite Forall_forall in Hy. now apply Hy. }
    assert (Hin : In y (x :: t1))
      by (eapply Permutation_in; [symmetry; exact Hp|now left]).
    assert (Heq : x = y).
    { destruct Hin as [Hin|Hin]; [exact Hin|].
      exfalso. apply Hnx.
      assert (Hxy : key_le x y) by (rewrite Forall_forall in Hx; now apply Hx).
      rewrite (String.leb_antisym _ _ Hxy Hyx).
      now apply in_map. }
    subst y. f_equal.
    apply IH; try assumption.
    now apply Permutation_cons_inv in Hp.
Qed.

Lemma sorted_items_order (kw1 kw2 : list (string * string)) :
  NoDup (map fst kw1) -> Permutation kw1 kw2 ->
  CacheManager.sorted_items kw1 = CacheManager.sorted_items kw2.
Proof.
  intros Hnd Hp.
  apply sorted_unique; try apply sorted_items_sorted.
  - rewrite !sorted_items_perm. exact Hp.
  - eapply Permutation_NoDup; [|exact Hnd].
    apply Permutation_map. symmetry. apply sorted_items_perm.
Qed.

Lemma length_append (a b : string) :
  String.length (a ++ b) = (String.length a + String.length b)%nat.
Proof. induction a as [|c a IH]; cbn; [reflexivity|now rewrite IH]. Qed.

Lemma length_replace_spaces (s : string) :
  String.length (CacheManager.replace_spaces s) = String.length s.
Proof. induction s as [|c s IH]; cbn; [reflexivity|now rewrite IH]. Qed.

(** X28: the cache key does not depend on the order in which the keyword
    arguments are given, their names being distinct; with a digest of 32
    characters the key is never longer than 200 characters or, when it is
    hashed, than the prefix and 38 characters. *)
Theorem cache_key_ignores_keyword_order (md5_hexdigest : string -> string)
    (prefix : string) (args : list string)
    (kwargs1 kwargs2 : list (string * string)) :
  NoDup (map fst kwargs1) ->
  Permutation kwargs1 kwargs2 ->
  (forall s, String.length (md5_hexdigest s) = 32%nat) ->
  CacheManager._generate_cache_key md5_hexdigest prefix args kwargs1
  = CacheManager._generate_cache_key md5_hexdigest prefix args kwargs2
  /\ (String.length
        (CacheManager._generate_cache_key md5_hexdigest prefix args kwargs1)
      <= Nat.max 200 (String.length prefix + 38))%nat.
Proof.
  intros Hnd Hp Hmd5. split.
  - unfold CacheManager._generate_cache_key, CacheManager.key_string.
    now rewrite (sorted_items_order Hnd Hp).
  - unfold CacheManager._generate_cache_key.
    destruct (200 <? String.length (CacheManager.key_string prefix args kwargs1))%nat
      eqn:Hlen.
    + rewrite !length_append, Hmd5. cbn [String.length]. lia.
    + rewrite length_replace_spaces. apply Nat.ltb_ge in Hlen. lia.
Qed.

Lemma cache_key_ignores_keyword_order_witness :
  NoDup (map fst [("region", "eu"); ("device", "mobile phone")])
  /\ Permutation [("region", "eu"); ("device", "mobile phone")]
                 [("device", "mobile phone"); ("region", "eu")]
  /\ CacheManager._generate_cache_key
       (fun _ => "d41d8cd98f00b204e9800998ecf8427e") "rec"
       ["u1"; "svd"; "10"] [("region", "eu"); ("device", "mobile phone")]
     = CacheManager._generate_cache_key
         (fun _ => "d41d8cd98f00b204e9800998ecf8427e") "rec"
         ["u1"; "svd"; "10"] [("device", "mobile phone"); ("region", "eu")]
  /\ CacheManager._generate_cache_key
       (fun _ => "d41d8cd98f00b204e9800998ecf8427e") "rec"
       ["u1"; "svd"; "10"] [("region", "eu"); ("device", "mobile phone")]
     = "rec|u1|svd|10|device:mobile_phone|region:eu".
Proof.
  assert (Hnd : NoDup (map fst [("region", "eu"); ("device", "mobile phone")])).
  { cbn. constructor; [intros [H|[]]; discriminate|].
    constructor; [intros []|constructor]. }
  assert (Hp : Permutation [("region", "eu"); ("device", "mobile phone")]
                 [("device", "mobile phone"); ("region", "eu")])
    by apply perm_swap.
  split; [exact Hnd|]. split; [exact Hp|].
  split; [|reflexivity].
  apply (@cache_key_ignores_keyword_order
           (fun _ => "d41d8cd98f00b204e9800998ecf8427e") "rec"
           ["u1"; "svd"; "10"] _ _ Hnd Hp).
  intros s. reflexivity.
Defined.

Lemma get_returns (Value : Type) (json_loads : string -> Exc (option Value))
    (client : RedisClusterClient.t) (key : string) :
  exists r, RedisClusterClient.get json_loads client key = Return r
            /\ (unusable client -> r = None).
Proof.
  unfold RedisClusterClient.get.
  destruct (RedisClusterClient._connected client) eqn:Hc; cbn [negb];
    [|eexists; split; reflexivity].
  unfold RedisClusterClient.cluster.
  destruct (RedisClusterClient._cluster client) as [c|] eqn:Hcl;
    cbn [bind try_except]; [|eexists; split; reflexivity].
  match goal with |- exists r, try_except ?c _ = _ /\ _ =>
    destruct c; cbn [try_except] end;
    eexists; (split; [reflexivity|]); intros [H|H]; congruence.
Qed.

Lemma set_returns (Value : Type) (json_dumps : Value -> Exc string)
    (client : RedisClusterClient.t) (key : string) (value : Value)
    (expire : option Z) :
  exists r, RedisClusterClient.set json_dumps client key value expire = Return r.
Proof.
  unfold RedisClusterClient.set.
  destruct (RedisClusterClient._connected client); cbn [negb]; [|eauto].
  match goal with |- exists r, try_except ?c _ = _ =>
    destruct c; cbn [try_except] end; eauto.
Qed.

Lemma wrapper_spec (Value : Type) (json_loads : string -> Exc (option Value))
    (json_dumps : Value -> Exc string) (client : RedisClusterClient.t)
    (ttl : Z) (key : string) (call : Exc (option Value)) :
  CacheManager.wrapper json_loads json_dumps client ttl (Return key) call
  = match RedisClusterClient.get json_loads client key with
    | Return (Some v) => Return (Some v)
    | _ => call
    end.
Proof.
  unfold CacheManager.wrapper. cbn [bind].
  destruct (get_returns json_loads client key) as [r [-> _]]. cbn [bind].
  destruct r as [v|]; [reflexivity|].
  destruct call as [e|[res|]]; cbn [bind]; try reflexivity.
  destruct (set_returns json_dumps client key res (Some ttl)) as [b ->].
  reflexivity.
Qed.

(** X29: for a given key, a function wrapped by [cache_result] answers
    the cached value when the cache has one, without calling the function,
    and otherwise exactly what the function answers; it raises only what
    the function raises, and with a client that cannot reach redis it
    behaves as the function itself. *)
Theorem cached_call_answers_like_the_function (Value : Type)
    (json_loads : string -> Exc (option Value))
    (json_dumps : Value -> Exc string) (client : RedisClusterClient.t)
    (ttl : Z) (key : string) (call : Exc (option Value)) :
  CacheManager.wrapper json_loads json_dumps client ttl (Return key) call
  = match RedisClusterClient.get json_loads client key with
    | Return (Some v) => Return (Some v)
    | _ => call
    end
  /\ (forall e,
        CacheManager.wrapper json_loads json_dumps client ttl (Return key) call
        = Raise e ->
        call = Raise e)
  /\ (unusable client ->
      CacheManager.wrapper json_loads json_dumps client ttl (Return key) call
      = call).
Proof.
  rewrite wrapper_spec.
  destruct (get_returns json_loads client key) as [r [Hr Hu]]. rewrite Hr.
  split; [reflexivity|]. split.
  - intros e. destruct r; [discriminate|auto].
  - intros H. now rewrite (Hu H).
Qed.

Lemma cached_call_answers_like_the_function_witness :
  unusable RedisClusterClient.init
  /\ CacheManager.wrapper (fun _ => Return (Some 1%Z)) (fun _ => Return "1")
       RedisClusterClient.init 3600 (Return "k") (Return (Some 2%Z))
     = Return (Some 2%Z).
Proof.
  split; [left; reflexivity|].
  apply (@cached_call_answers_like_the_function Z
           (fun _ => Return (Some 1%Z)) (fun _ => Return "1")
           RedisClusterClient.init 3600 "k" (Return (Some 2%Z))).
  left; reflexivity.
Defined.

Lemma has_star_append (a b : string) :
  CacheManager.has_star (a ++ b)
  = CacheManager.has_star a || CacheManager.has_star b.
Proof.
  unfold CacheManager.has_star. now rewrite chars_append, existsb_app.
Qed.

Lemma recommendation_key_head (md5_hexdigest : string -> string)
    (args : list string) (kwargs : list (string * string)) :
  exists rest,
    CacheManager._generate_cache_key md5_hexdigest "rec" args kwargs
    = String "r" rest.
Proof.
  unfold CacheManager._generate_cache_key.
  destruct (200 <? _)%nat.
  - cbn [append]. eauto.
  - unfold CacheManager.key_string. cbn [app String.concat].
    destruct (args ++ _)%list; cbn [append CacheManager.replace_spaces];
      change (Ascii.eqb "r" " ") with false; cbv iota; eauto.
Qed.

Lemma interactions_key_head (user_id : string) (type : option string) :
  exists rest, CacheManager.interactions_key user_id type = String "i" rest.
Proof.
  unfold CacheManager.interactions_key.
  destruct type as [[|c t]|]; cbn [append]; eauto.
Qed.

(** X30: for a user id without a star, [invalidate_user_cache] issues
    one [delete], for the key of the user data; the keys of the cached
    recommendations and of the cached interactions of the user are other
    keys, so these entries stay. *)
Theorem invalidate_user_cache_keeps_recommendations
    (md5_hexdigest : string -> string) (delete : string -> Exc bool)
    (user_id : string) :
  CacheManager.has_star user_id = false ->
  CacheManager.invalidate_user_cache delete user_id
  = [delete ("user:" ++ user_id)]
  /\ (forall args kwargs,
        CacheManager._generate_cache_key md5_hexdigest "rec" args kwargs
        <> "user:" ++ user_id)
  /\ (forall type,
        CacheManager.interactions_key user_id type <> "user:" ++ user_id).
Proof.
  intros Hstar. split; [|split].
  - unfold CacheManager.invalidate_user_cache,
      CacheManager.invalidate_user_cache_keys.
    cbn [filter].
    rewrite (has_star_append "user:" user_id).
    rewrite (has_star_append "interactions:" (user_id ++ "*")).
    rewrite (has_star_append "rec:" (user_id ++ "*")).
    rewrite (has_star_append user_id "*"), Hstar.
    reflexivity.
  - intros args kwargs.
    destruct (recommendation_key_head md5_hexdigest args kwargs) as [rest ->].
    cbn [append]. discriminate.
  - intros type.
    destruct (interactions_key_head user_id type) as [rest ->].
    cbn [append]. discriminate.
Qed.

Lemma invalidate_user_cache_keeps_recommendations_witness :
  CacheManager.has_star "7f3c" = false
  /\ CacheManager.invalidate_user_cache (fun _ => Return true) "7f3c"
     = [Return true]
  /\ CacheManager._generate_cache_key (fun _ => "d41d8cd98f00b204e9800998ecf8427e")
       "rec" ["7f3c"; "svd"; "10"] []
     <> "user:7f3c".
Proof.
  split; [reflexivity|].
  destruct (@invalidate_user_cache_keeps_recommendations
              (fun _ => "d41d8cd98f00b204e9800998ecf8427e")
              (fun _ => Return true) "7f3c" eq_refl) as [H1 [H2 _]].
  split; [exact H1|apply H2].
Defined.

Close Scope string_scope.
